(** * FinSmart backend: categorizer, goal allocator and goal contribution

    A shallow embedding of the decision logic of the FinSmart REST backend:

    - [clasificarCategoria] and the [POST /] and [PUT /:id] handlers of
      [src/routes/transacciones.js],
    - [actualizarMetasConIngreso] of the same file,
    - the [POST /:id/agregar] handler of [src/routes/metas.js],
    - the Mongoose schemas of [src/models/meta.js] and
      [src/models/transacciones.js] as far as these routes read or write them,
    - the other handlers of [src/routes/transacciones.js] ([GET /],
      [GET /:id], [DELETE /:id], [GET /resumen/categorias]) and of
      [src/routes/metas.js] ([POST /], [PUT /:id], [PATCH /:id/estado],
      [DELETE /:id], [GET /dashboard/resumen]), the categorizer of
      [src/routes/gastos.js], and the middlewares [authenticateToken],
      [optionalAuth], [errorHandler] and [checkRole].

    Conventions of the embedding.

    - A JavaScript string is the list of its UTF-16 code units.
    - A JavaScript [Number] is an IEEE 754 binary64 value.  The module
      [Doble] embeds the code that computes with amounts, the allocator and
      the manual contribution, on binary64 values ([Numero.t]), and every
      statement about a computed amount is made there.  The other
      definitions hold an amount as the exact rational ([Q]) that the
      number stands for; they serve the properties that do not depend on
      the arithmetic of amounts: which documents a route reads or writes,
      what an error does, who owns what.
    - A collection of the document store is the list of its documents, in the
      store's natural order; [_id] values are natural numbers.
    - The store's [sort] compares strings code unit by code unit and orders
      a missing field before every date; documents that compare equal keep
      the store's order.
    - An awaited call to the store either resolves or rejects.  Which calls
      reject is given by a fault oracle [Fallos]; quantifying over the oracle
      covers every pattern of failures. *)

From Stdlib Require Import List String Ascii Bool Arith NArith ZArith Lia.
From Stdlib Require Import QArith Qminmax Lqa.
From Stdlib Require Import Sorted Permutation.
Import ListNotations.

Local Open Scope list_scope.
Local Open Scope bool_scope.

(** ** JavaScript strings *)

Module JsString.

Definition js_string := list N.

(** Reads a UTF-8 literal of this file as UTF-16 code units (one, two and three
    byte forms, which cover the Basic Multilingual Plane). *)
Fixpoint utf16 (s : string) : js_string :=
  match s with
  | EmptyString => []
  | String a r =>
      let b0 := N_of_ascii a in
      if (b0 <? 128)%N then b0 :: utf16 r
      else if (b0 <? 224)%N then
        match r with
        | String b r' =>
            ((b0 - 192) * 64 + (N_of_ascii b - 128))%N :: utf16 r'
        | EmptyString => [b0]
        end
      else
        match r with
        | String b (String c r') =>
            ((b0 - 224) * 4096 + (N_of_ascii b - 128) * 64
             + (N_of_ascii c - 128))%N :: utf16 r'
        | _ => b0 :: utf16 r
        end
  end.

(** [p] is a prefix of [s]. *)
Fixpoint startsWith (s p : js_string) {struct p} : bool :=
  match p, s with
  | [], _ => true
  | _ :: _, [] => false
  | x :: p', y :: s' => (x =? y)%N && startsWith s' p'
  end.

(** [String.prototype.includes]: [p] occurs in [s] as a contiguous run of code
    units. *)
Fixpoint includes (s p : js_string) : bool :=
  startsWith s p ||
  match s with
  | [] => false
  | _ :: s' => includes s' p
  end.

(** The code units that ECMAScript's [trim] (and the regular expression class
    [\s]) removes: WhiteSpace and LineTerminator. *)
Definition esEspacio (c : N) : bool :=
  ((9 <=? c) && (c <=? 13) || (c =? 32) || (c =? 160) || (c =? 5760)
   || (8192 <=? c) && (c <=? 8202) || (c =? 8232) || (c =? 8233)
   || (c =? 8239) || (c =? 8287) || (c =? 12288) || (c =? 65279))%N.

Fixpoint trimStart (s : js_string) : js_string :=
  match s with
  | [] => []
  | c :: s' => if esEspacio c then trimStart s' else s
  end.

Definition trimEnd (s : js_string) : js_string := rev (trimStart (rev s)).

(** [String.prototype.trim]. *)
Definition trim (s : js_string) : js_string := trimEnd (trimStart s).

(** The contiguous-substring relation that [includes] decides. *)
Definition Subcadena (p s : js_string) : Prop :=
  exists pre post, s = pre ++ p ++ post.

End JsString.
Import JsString.

(** ** Categories of a transaction ([transaccionSchema.categoria]) *)

Inductive Categoria : Type :=
  | alimentacion | transporte | entretenimiento | servicios | salud
  | ropa | educacion | hogar | otros.

Definition nombreCategoria (c : Categoria) : js_string :=
  utf16 match c with
        | alimentacion => "alimentación"
        | transporte => "transporte"
        | entretenimiento => "entretenimiento"
        | servicios => "servicios"
        | salud => "salud"
        | ropa => "ropa"
        | educacion => "educación"
        | hogar => "hogar"
        | otros => "otros"
        end.

(** The keyword table of [clasificarCategoria], in the order in which the
    object literal declares its keys (the order of [Object.entries]). *)
Definition categorias : list (Categoria * list js_string) :=
  [ (alimentacion, map utf16
      ["comida"; "restaurante"; "supermercado"; "mercado"; "pizza";
       "hamburguesa"; "café"; "desayuno"; "almuerzo"; "cena"; "bebida";
       "coca cola"; "agua"; "pan"; "panadería"; "carnicería"; "verdulería";
       "sushi"; "delivery"]%string);
    (transporte, map utf16
      ["transporte"; "uber"; "taxi"; "bus"; "metro"; "gasolina";
       "combustible"; "peaje"; "parking"; "estacionamiento"; "motocicleta";
       "bicicleta"; "avión"; "vuelo"; "tren"; "barco"]%string);
    (entretenimiento, map utf16
      ["cine"; "ocio"; "película"; "teatro"; "concierto"; "bar"; "discoteca";
       "videojuego"; "netflix"; "spotify"; "streaming"; "parque"; "diversión";
       "gimnasio"; "deporte"; "futbol"; "basquet"]%string);
    (servicios, map utf16
      ["luz"; "agua"; "internet"; "teléfono"; "gas"; "electricidad";
       "cable"; "seguro"; "banco"; "notaría"; "abogado"; "contador";
       "limpieza"; "jardinería"; "reparación"]%string);
    (salud, map utf16
      ["salud"; "medicina"; "doctor"; "médico"; "hospital"; "clínica";
       "farmacia"; "pastillas"; "vitaminas"; "dentista"; "oftalmólogo";
       "laboratorio"; "rayos x"; "consulta"]%string);
    (ropa, map utf16
      ["ropa"; "zapato"; "camisa"; "pantalón"; "vestido"; "tienda";
       "boutique"; "zapatería"; "moda"; "accesorios"; "bolso";
       "cartera"]%string);
    (educacion, map utf16
      ["educación"; "colegio"; "universidad"; "curso"; "libro"; "cuaderno";
       "lápiz"; "material"; "matrícula"; "pensión"; "tutoría"]%string);
    (hogar, map utf16
      ["hogar"; "casa"; "mueble"; "electrodoméstico"; "decoración";
       "herramienta"; "pintura"; "construcción"; "alquiler";
       "hipoteca"]%string) ].

(** The [for ... of Object.entries(categorias)] loop: the first entry one of
    whose keywords [texto] includes, ['otros'] when the loop falls through. *)
Fixpoint recorrerCategorias (texto : js_string)
    (entradas : list (Categoria * list js_string)) : Categoria :=
  match entradas with
  | [] => otros
  | (categoria, palabras) :: resto =>
      if existsb (fun palabra => includes texto palabra) palabras
      then categoria
      else recorrerCategorias texto resto
  end.

Section Categorizador.

(** [String.prototype.toLowerCase] is the host's; the development holds for
    whatever function it is. *)
Variable toLowerCase : js_string -> js_string.

Definition clasificarCategoria (descripcion : js_string) : Categoria :=
  let texto := trim (toLowerCase descripcion) in
  recorrerCategorias texto categorias.

End Categorizador.

(** Lower-casing of the Basic Latin and Latin-1 letters, the instance used to
    run the categorizer on concrete descriptions. *)
Definition minusculaLatin1 (c : N) : N :=
  if ((65 <=? c) && (c <=? 90)
      || (192 <=? c) && (c <=? 222) && negb (c =? 215))%N
  then (c + 32)%N else c.

Definition toLowerCaseLatin1 (s : js_string) : js_string :=
  map minusculaLatin1 s.


(** ** Documents *)

Inductive Prioridad : Type := baja | media | alta.
Inductive Estado : Type := activa | completada | pausada | cancelada.
Inductive Tipo : Type := ingreso | gasto.

(** [metaSchema.prioridad] has [type: String]: the store holds, and sorts by,
    the string value. *)
Definition valorPrioridad (p : Prioridad) : string :=
  match p with
  | baja => "baja"
  | media => "media"
  | alta => "alta"
  end.

Module Meta.

(** A document of the [Meta] collection ([src/models/meta.js]), with the
    fields that the routes below read or write. *)
Record t : Type := mk {
  _id : nat;
  usuario : nat;
  titulo : js_string;
  montoObjetivo : Q;
  montoActual : Q;
  fechaLimite : option Z;
  prioridad : Prioridad;
  estado : Estado
}.

Definition conMontoActual (m : t) (q : Q) : t :=
  mk (_id m) (usuario m) (titulo m) (montoObjetivo m) q (fechaLimite m)
     (prioridad m) (estado m).

Definition conEstado (m : t) (e : Estado) : t :=
  mk (_id m) (usuario m) (titulo m) (montoObjetivo m) (montoActual m)
     (fechaLimite m) (prioridad m) e.

End Meta.

Module Transaccion.

(** A document of the [Transaccion] collection
    ([src/models/transacciones.js]). *)
Record t : Type := mk {
  _id : nat;
  usuario : nat;
  tipo : Tipo;
  descripcion : js_string;
  monto : Q;
  categoria : Categoria;
  subcategoria : option js_string;
  activa : bool
}.

(** The schema's validators, run by [save] and by an update with
    [runValidators]: [descripcion] is required and at most 200 code units
    long, [monto] is at least [0.01], [subcategoria] at most 50 code units. *)
Definition valida (d : t) : bool :=
  negb (List.length (descripcion d) =? 0)%nat
  && (List.length (descripcion d) <=? 200)%nat
  && Qle_bool (1 # 100) (monto d)
  && match subcategoria d with
     | Some s => (List.length s <=? 50)%nat
     | None => true
     end.

End Transaccion.

Definition estado_eqb (a b : Estado) : bool :=
  match a, b with
  | activa, activa | completada, completada
  | pausada, pausada | cancelada, cancelada => true
  | _, _ => false
  end.

Definition tipo_eqb (a b : Tipo) : bool :=
  match a, b with
  | ingreso, ingreso | gasto, gasto => true
  | _, _ => false
  end.

(** ** The store's sort order *)

(** Ascending order of an optional [Date]: a missing field compares as
    [null], which the store orders before every date. *)
Definition compararFecha (a b : option Z) : comparison :=
  match a, b with
  | None, None => Eq
  | None, Some _ => Lt
  | Some _, None => Gt
  | Some x, Some y => Z.compare x y
  end.

(** The order of [.sort({ prioridad: -1, fechaLimite: 1 })]: [prioridad]
    descending as a string (simple binary comparison), then [fechaLimite]
    ascending. *)
Definition compararMetas (a b : Meta.t) : comparison :=
  match String.compare (valorPrioridad (Meta.prioridad b))
                       (valorPrioridad (Meta.prioridad a)) with
  | Eq => compararFecha (Meta.fechaLimite a) (Meta.fechaLimite b)
  | c => c
  end.

Definition noDespues (a b : Meta.t) : bool :=
  match compararMetas a b with
  | Gt => false
  | _ => true
  end.

Fixpoint insertar (m : Meta.t) (l : list Meta.t) : list Meta.t :=
  match l with
  | [] => [m]
  | x :: r => if noDespues m x then m :: l else x :: insertar m r
  end.

(** The sort itself; documents that compare equal keep the store's order. *)
Fixpoint ordenar (l : list Meta.t) : list Meta.t :=
  match l with
  | [] => []
  | m :: r => insertar m (ordenar r)
  end.

(** ** The store, and awaited calls *)

Inductive ErrorJS : Type :=
  | ValidationError | CastError | MongoError.

Record BD : Type := mkBD {
  metas : list Meta.t;
  transacciones : list Transaccion.t;
  consola : list (string * ErrorJS)
}.

(** The awaited calls of the routes. *)
Inductive Operacion : Type :=
  | OpMetaFind (usuario : nat)
  | OpMetaFindByIdAndUpdate (id : nat)
  | OpMetaFindOne (id : nat)
  | OpMetaSave (id : nat)
  | OpTransaccionSave
  | OpTransaccionPopulate
  | OpTransaccionFindOneAndUpdate (id : nat).

(** The fault oracle: the error with which a call rejects, if it does. *)
Definition Fallos : Type := Operacion -> option ErrorJS.

Inductive Resultado (A : Type) : Type :=
  | Resuelve (a : A)
  | Rechaza (e : ErrorJS).
Arguments Resuelve {A} a.
Arguments Rechaza {A} e.

(** A computation over the store that returns or throws. *)
Definition M (A : Type) : Type := BD -> Resultado A * BD.

Definition ret {A} (a : A) : M A := fun bd => (Resuelve a, bd).

Definition bind {A B} (m : M A) (k : A -> M B) : M B :=
  fun bd =>
    match m bd with
    | (Resuelve a, bd') => k a bd'
    | (Rechaza e, bd') => (Rechaza e, bd')
    end.

Definition lanzar {A} (e : ErrorJS) : M A := fun bd => (Rechaza e, bd).

(** [try { m } catch (error) { h error }]. *)
Definition tryCatch {A} (m : M A) (h : ErrorJS -> M A) : M A :=
  fun bd =>
    match m bd with
    | (Resuelve a, bd') => (Resuelve a, bd')
    | (Rechaza e, bd') => h e bd'
    end.

Definition console_error (mensaje : string) (e : ErrorJS) : M unit :=
  fun bd =>
    (Resuelve tt,
     mkBD (metas bd) (transacciones bd) (consola bd ++ [(mensaje, e)])).

Notation "x <- m ;; k" := (bind m (fun x => k))
  (at level 61, m at next level, right associativity).
Notation "m ;;; k" := (bind m (fun _ => k))
  (at level 61, right associativity).

(** The first document with the given [_id] gets [$inc: { montoActual: q }],
    on exact amounts; [Doble.incrementar] is the update on the numbers of
    the code. *)
Fixpoint incrementar (id : nat) (q : Q) (l : list Meta.t) : list Meta.t :=
  match l with
  | [] => []
  | m :: r =>
      if (Meta._id m =? id)%nat
      then Meta.conMontoActual m (Meta.montoActual m + q) :: r
      else m :: incrementar id q r
  end.

(** The first document with the [_id] of [doc] takes the paths a route
    modified on [doc]: [montoActual] and [estado]. *)
Fixpoint reemplazar (doc : Meta.t) (l : list Meta.t) : list Meta.t :=
  match l with
  | [] => []
  | m :: r =>
      if (Meta._id m =? Meta._id doc)%nat
      then Meta.conEstado (Meta.conMontoActual m (Meta.montoActual doc))
                          (Meta.estado doc) :: r
      else m :: reemplazar doc r
  end.

(** An [ObjectId] not yet in the collection. *)
Definition nuevoId (l : list Transaccion.t) : nat :=
  S (fold_right Nat.max 0%nat (map Transaccion._id l)).

(** ** Requests and responses *)

(** The body of [POST /transacciones] and [PUT /transacciones/:id]: the
    fields that the handlers name, and those of the rest of the body
    ([...otrosDatos]) that are fields of the documents of this model: a
    client may send [subcategoria], [activa] and [usuario] too.  (The paths
    [fecha], [metodo_pago] and [notas] are not part of the model's
    documents.) *)
Record CuerpoTransaccion : Type := mkCuerpoTransaccion {
  c_tipo : Tipo;
  c_descripcion : js_string;
  c_monto : Q;
  c_categoria : option Categoria;
  c_subcategoria : option js_string;
  c_activa : option bool;
  c_usuario : option nat
}.

(** The body of [POST /metas/:id/agregar] with a number for [monto]; the
    body with any value for [monto], and the handler on the amounts as the
    code computes them, are [Doble.CuerpoAporte] and [Doble.agregarDinero]. *)
Record CuerpoAporte : Type := mkCuerpoAporte {
  a_monto : Q;
  a_descripcion : option js_string
}.

Inductive Json : Type :=
  | JError (error : string)
  | JErrorDetalles (error : string)
  | JErrorMontoMaximo (error : string) (montoMaximo : Q)
  | JTransaccion (message : string) (transaccion : Transaccion.t)
  | JMetaTransaccion (message : string) (meta : Meta.t)
      (transaccion : Transaccion.t).

Record Respuesta : Type := mkRespuesta {
  status : nat;
  json : Json
}.

Section Rutas.

(** [String.prototype.toLowerCase] and express-validator's
    [isLength({ min, max })] are the host's and the library's. *)
Variable toLowerCase : js_string -> js_string.
Variable isLength : js_string -> nat -> nat -> bool.
Variable fallos : Fallos.

(** An awaited call rejects when the oracle says so. *)
Definition esperar (op : Operacion) : M unit :=
  match fallos op with
  | Some e => lanzar e
  | None => ret tt
  end.

(** The filter [{ usuario: usuarioId, estado: 'activa' }]. *)
Definition esActivaDe (usuarioId : nat) (m : Meta.t) : bool :=
  (Meta.usuario m =? usuarioId)%nat && estado_eqb (Meta.estado m) activa.

(** [Meta.find({ usuario, estado: 'activa' })
       .sort({ prioridad: -1, fechaLimite: 1 })]. *)
Definition Meta_find_activas (usuarioId : nat) : M (list Meta.t) :=
  esperar (OpMetaFind usuarioId) ;;;
  fun bd => (Resuelve (ordenar (filter (esActivaDe usuarioId) (metas bd))), bd).

(** [Meta.findByIdAndUpdate(id, { $inc: { montoActual: q } })]. *)
Definition Meta_findByIdAndUpdate_inc (id : nat) (q : Q) : M unit :=
  esperar (OpMetaFindByIdAndUpdate id) ;;;
  fun bd =>
    (Resuelve tt,
     mkBD (incrementar id q (metas bd)) (transacciones bd) (consola bd)).

(** [Meta.findOne({ _id: id, usuario, estado: 'activa' })]. *)
Definition Meta_findOne_activa (id usuarioId : nat) : M (option Meta.t) :=
  esperar (OpMetaFindOne id) ;;;
  fun bd =>
    (Resuelve
       (find (fun m => (Meta._id m =? id)%nat && esActivaDe usuarioId m)
             (metas bd)),
     bd).

(** [meta.save()] after [montoActual] and [estado] were assigned: the schema's
    [min: 0] on [montoActual] is checked, then the document is written. *)
Definition Meta_save (meta : Meta.t) : M unit :=
  if Qle_bool 0 (Meta.montoActual meta) then
    esperar (OpMetaSave (Meta._id meta)) ;;;
    fun bd =>
      (Resuelve tt,
       mkBD (reemplazar meta (metas bd)) (transacciones bd) (consola bd))
  else lanzar ValidationError.

(** The [activa] of a new document: the value given, or the schema's
    default [true]. *)
Definition activaInicial (activa : option bool) : bool :=
  match activa with
  | Some b => b
  | None => true
  end.

(** [new Transaccion({ ... })]: a fresh [_id], the [trim] setters on
    [descripcion] and [subcategoria], the default of [activa]. *)
Definition Transaccion_new (usuarioId : nat) (tipo : Tipo)
    (descripcion : js_string) (monto : Q) (categoria : Categoria)
    (subcategoria : option js_string) (activa : option bool)
    : M Transaccion.t :=
  fun bd =>
    (Resuelve
       (Transaccion.mk (nuevoId (transacciones bd)) usuarioId tipo
          (trim descripcion) monto categoria (option_map trim subcategoria)
          (activaInicial activa)),
     bd).

(** [doc.save()] of a new transaction: validation, then the insert. *)
Definition Transaccion_save (doc : Transaccion.t) : M Transaccion.t :=
  if Transaccion.valida doc then
    esperar OpTransaccionSave ;;;
    fun bd =>
      (Resuelve doc,
       mkBD (metas bd) (transacciones bd ++ [doc]) (consola bd))
  else lanzar ValidationError.

(** The update document of [PUT /:id],
    [{ ...otrosDatos, descripcion, categoria: categoriaFinal }], after the
    cast to the schema. *)
Record Cambios : Type := mkCambios {
  k_tipo : Tipo;
  k_descripcion : js_string;
  k_monto : Q;
  k_categoria : Categoria;
  k_subcategoria : option js_string;
  k_activa : option bool;
  k_usuario : option nat
}.

(** A document with the paths of an update set. *)
Definition conCambios (d : Transaccion.t) (k : Cambios) : Transaccion.t :=
  Transaccion.mk (Transaccion._id d)
    (match k_usuario k with
     | Some u => u
     | None => Transaccion.usuario d
     end)
    (k_tipo k) (k_descripcion k) (k_monto k) (k_categoria k)
    (match k_subcategoria k with
     | Some s => Some s
     | None => Transaccion.subcategoria d
     end)
    (match k_activa k with
     | Some b => b
     | None => Transaccion.activa d
     end).

(** The update of [PUT /:id] on the first document that matches
    [{ _id, usuario, activa: true }]. *)
Fixpoint actualizarPrimera (id usuarioId : nat) (k : Cambios)
    (l : list Transaccion.t) : option Transaccion.t * list Transaccion.t :=
  match l with
  | [] => (None, [])
  | d :: r =>
      if (Transaccion._id d =? id)%nat
         && (Transaccion.usuario d =? usuarioId)%nat
         && Transaccion.activa d
      then (Some (conCambios d k), conCambios d k :: r)
      else
        let (res, r') := actualizarPrimera id usuarioId k r in
        (res, d :: r')
  end.

(** The cast of an update to the schema: the [trim] setters on [descripcion]
    and [subcategoria]. *)
Definition castCambios (k : Cambios) : Cambios :=
  mkCambios (k_tipo k) (trim (k_descripcion k)) (k_monto k) (k_categoria k)
    (option_map trim (k_subcategoria k)) (k_activa k) (k_usuario k).

(** [Transaccion.findOneAndUpdate(filter, update,
       { new: true, runValidators: true }).populate(...)]: the validators
    run on the paths of the update, then the store updates the document that
    matches, and the document that the store returns, when there is one, is
    populated. *)
Definition Transaccion_findOneAndUpdate (id usuarioId : nat) (k : Cambios)
    : M (option Transaccion.t) :=
  let k' := castCambios k in
  if Transaccion.valida
       (Transaccion.mk id usuarioId (k_tipo k') (k_descripcion k')
          (k_monto k') (k_categoria k') (k_subcategoria k') true)
  then
    esperar (OpTransaccionFindOneAndUpdate id) ;;;
    res <- (fun bd =>
              let (res, ts) :=
                actualizarPrimera id usuarioId k' (transacciones bd) in
              (Resuelve res, mkBD (metas bd) ts (consola bd))) ;;
    match res with
    | Some _ => esperar OpTransaccionPopulate ;;; ret res
    | None => ret res
    end
  else lanzar ValidationError.

(** *** The goal allocator *)

(** The loop of [actualizarMetasConIngreso] over the documents that the query
    returned, on exact amounts; [Doble.distribuir] is the loop on the
    numbers of the code. *)
Fixpoint distribuir (montoRestante : Q) (metasActivas : list Meta.t)
    : M unit :=
  match metasActivas with
  | [] => ret tt
  | meta :: resto =>
      if Qle_bool montoRestante 0 then ret tt
      else
        let montoFaltante := Meta.montoObjetivo meta - Meta.montoActual meta in
        if Qle_bool montoFaltante 0 then distribuir montoRestante resto
        else
          let montoAAgregar := Qmin montoRestante montoFaltante in
          Meta_findByIdAndUpdate_inc (Meta._id meta) montoAAgregar ;;;
          distribuir (montoRestante - montoAAgregar) resto
  end.

Definition actualizarMetasConIngreso (usuarioId : nat) (montoIngreso : Q)
    : M unit :=
  tryCatch
    (metasActivas <- Meta_find_activas usuarioId ;;
     distribuir (montoIngreso * (1 # 10)) metasActivas)
    (fun error => console_error "Error actualizando metas:" error).

(** *** [POST /transacciones] and [PUT /transacciones/:id] *)

(** The chain [validacionTransaccion]: [descripcion] is trimmed and must have
    3 to 200 characters, [monto] must be a float of at least [0.01]; [tipo]
    and [categoria] are members of their enumerations by their types. *)
Definition validacionTransaccion (cuerpo : CuerpoTransaccion)
    : option CuerpoTransaccion :=
  let descripcion := trim (c_descripcion cuerpo) in
  if isLength descripcion 3 200 && Qle_bool (1 # 100) (c_monto cuerpo)
  then Some (mkCuerpoTransaccion (c_tipo cuerpo) descripcion (c_monto cuerpo)
               (c_categoria cuerpo) (c_subcategoria cuerpo) (c_activa cuerpo)
               (c_usuario cuerpo))
  else None.

(** [categoria || clasificarCategoria(descripcion)]. *)
Definition categoriaFinal (c : CuerpoTransaccion) : Categoria :=
  match c_categoria c with
  | Some categoria => categoria
  | None => clasificarCategoria toLowerCase (c_descripcion c)
  end.

Definition crearTransaccion (usuarioId : nat) (cuerpo : CuerpoTransaccion)
    : M Respuesta :=
  tryCatch
    (match validacionTransaccion cuerpo with
     | None => ret (mkRespuesta 400 (JErrorDetalles "Datos inválidos"))
     | Some c =>
         nuevaTransaccion <-
           Transaccion_new usuarioId (c_tipo c) (c_descripcion c) (c_monto c)
             (categoriaFinal c) (c_subcategoria c) (c_activa c) ;;
         transaccionGuardada <- Transaccion_save nuevaTransaccion ;;
         (if tipo_eqb (Transaccion.tipo transaccionGuardada) ingreso
          then actualizarMetasConIngreso usuarioId
                 (Transaccion.monto transaccionGuardada)
          else ret tt) ;;;
         esperar OpTransaccionPopulate ;;;
         ret (mkRespuesta 201
                (JTransaccion "Transacción creada exitosamente"
                   transaccionGuardada))
     end)
    (fun error =>
       console_error "Error creando transacción:" error ;;;
       match error with
       | ValidationError =>
           ret (mkRespuesta 400
                  (JErrorDetalles "Datos de transacción inválidos"))
       | _ =>
           ret (mkRespuesta 500
                  (JError "Error interno del servidor al crear transacción"))
       end).

Definition actualizarTransaccion (usuarioId id : nat)
    (cuerpo : CuerpoTransaccion) : M Respuesta :=
  tryCatch
    (match validacionTransaccion cuerpo with
     | None => ret (mkRespuesta 400 (JErrorDetalles "Datos inválidos"))
     | Some c =>
         transaccionActualizada <-
           Transaccion_findOneAndUpdate id usuarioId
             (mkCambios (c_tipo c) (c_descripcion c) (c_monto c)
                (categoriaFinal c) (c_subcategoria c) (c_activa c)
                (c_usuario c)) ;;
         match transaccionActualizada with
         | None => ret (mkRespuesta 404 (JError "Transacción no encontrada"))
         | Some t =>
             ret (mkRespuesta 200
                    (JTransaccion "Transacción actualizada exitosamente" t))
         end
     end)
    (fun error =>
       console_error "Error actualizando transacción:" error ;;;
       match error with
       | CastError =>
           ret (mkRespuesta 400 (JError "ID de transacción inválido"))
       | ValidationError =>
           ret (mkRespuesta 400
                  (JErrorDetalles "Datos de transacción inválidos"))
       | MongoError =>
           ret (mkRespuesta 500
                  (JError
                     "Error interno del servidor al actualizar transacción"))
       end).

(** *** [POST /metas/:id/agregar] *)

(** The route's chain: [monto] a float of at least [0.01]; [descripcion]
    optional, trimmed, of at most 200 characters. *)
Definition validacionAporte (cuerpo : CuerpoAporte) : option CuerpoAporte :=
  let descripcion := option_map trim (a_descripcion cuerpo) in
  if Qle_bool (1 # 100) (a_monto cuerpo)
     && match descripcion with
        | Some d => isLength d 0 200
        | None => true
        end
  then Some (mkCuerpoAporte (a_monto cuerpo) descripcion)
  else None.

(** The handler, on a body with a number for [monto] and on exact amounts;
    [Doble.agregarDinero] is the handler on the numbers of the code and on
    any value for [monto]. *)
Definition agregarDinero (usuarioId id : nat) (cuerpo : CuerpoAporte)
    : M Respuesta :=
  tryCatch
    (match validacionAporte cuerpo with
     | None => ret (mkRespuesta 400 (JErrorDetalles "Datos inválidos"))
     | Some c =>
         let monto := a_monto c in
         let descripcion :=
           match a_descripcion c with
           | Some d => d
           | None => utf16 "Aporte a meta"
           end in
         encontrada <- Meta_findOne_activa id usuarioId ;;
         match encontrada with
         | None => ret (mkRespuesta 404 (JError "Meta activa no encontrada"))
         | Some meta =>
             if negb (Qle_bool (Meta.montoActual meta + monto)
                               (Meta.montoObjetivo meta))
             then
               ret (mkRespuesta 400
                      (JErrorMontoMaximo
                         "El monto excede el objetivo de la meta"
                         (Meta.montoObjetivo meta - Meta.montoActual meta)))
             else
               let meta1 :=
                 Meta.conMontoActual meta (Meta.montoActual meta + monto) in
               let meta2 :=
                 if Qle_bool (Meta.montoObjetivo meta1)
                             (Meta.montoActual meta1)
                 then Meta.conEstado meta1 completada
                 else meta1 in
               Meta_save meta2 ;;;
               nuevaTransaccion <-
                 Transaccion_new usuarioId gasto
                   (descripcion ++ utf16 " - " ++ Meta.titulo meta2) monto
                   otros (Some (utf16 "ahorro_meta")) None ;;
               Transaccion_save nuevaTransaccion ;;;
               ret (mkRespuesta 200
                      (JMetaTransaccion
                         (if estado_eqb (Meta.estado meta2) completada
                          then "¡Felicitaciones! Has completado tu meta"
                          else "Dinero agregado exitosamente a la meta")
                         meta2 nuevaTransaccion))
         end
     end)
    (fun error =>
       console_error "Error agregando dinero a meta:" error ;;;
       ret (mkRespuesta 500
              (JError "Error interno del servidor al agregar dinero"))).

End Rutas.

(** ** Specification-level definitions *)

(** *** The categorizer, as the specification words it *)

(** Some keyword of [palabras] is a substring of [texto]. *)
Definition Coincide (texto : js_string) (palabras : list js_string) : Prop :=
  exists palabra, In palabra palabras /\ Subcadena palabra texto.

(** [Clasifica tabla texto c]: [c] is the category of the first entry of
    [tabla], in its order, one of whose keywords [texto] contains; it is
    [otros] when no entry has such a keyword. *)
Inductive Clasifica (tabla : list (Categoria * list js_string))
    (texto : js_string) : Categoria -> Prop :=
  | clasifica_primera antes categoria palabras despues :
      tabla = antes ++ (categoria, palabras) :: despues ->
      Coincide texto palabras ->
      (forall c ps, In (c, ps) antes -> ~ Coincide texto ps) ->
      Clasifica tabla texto categoria
  | clasifica_otros :
      (forall c ps, In (c, ps) tabla -> ~ Coincide texto ps) ->
      Clasifica tabla texto otros.

(** An instance of [isLength] that counts code units; it is the library's
    count on strings without surrogate pairs. *)
Definition isLengthUnidades (s : js_string) (mn mx : nat) : bool :=
  (mn <=? List.length s)%nat && (List.length s <=? mx)%nat.

(** The oracle under which no call rejects. *)
Definition sinFallos : Fallos := fun _ => None.

(** *** The allocator's loop, as a list of updates *)

(** Remaining capacity of a goal ([montoFaltante]). *)
Definition capacidad (m : Meta.t) : Q :=
  Meta.montoObjetivo m - Meta.montoActual m.

(** The updates that the loop issues, in order: the [_id] and the increment
    of each call to [findByIdAndUpdate]. *)
Fixpoint aportes (montoRestante : Q) (metasActivas : list Meta.t)
    : list (nat * Q) :=
  match metasActivas with
  | [] => []
  | meta :: resto =>
      if Qle_bool montoRestante 0 then []
      else if Qle_bool (capacidad meta) 0 then aportes montoRestante resto
      else
        (Meta._id meta, Qmin montoRestante (capacidad meta))
        :: aportes (montoRestante - Qmin montoRestante (capacidad meta)) resto
  end.

(** The updates applied to the collection, one after the other. *)
Fixpoint aplicar (incs : list (nat * Q)) (l : list Meta.t) : list Meta.t :=
  match incs with
  | [] => l
  | (id, q) :: r => aplicar r (incrementar id q l)
  end.

(** The updates that go through before the first one that rejects, and the
    error of that one. *)
Fixpoint hastaFallo (fallos : Fallos) (incs : list (nat * Q))
    : list (nat * Q) * option ErrorJS :=
  match incs with
  | [] => ([], None)
  | (id, q) :: r =>
      match fallos (OpMetaFindByIdAndUpdate id) with
      | Some e => ([], Some e)
      | None => let (p, e) := hastaFallo fallos r in ((id, q) :: p, e)
      end
  end.

Fixpoint buscarAporte (id : nat) (incs : list (nat * Q)) : option Q :=
  match incs with
  | [] => None
  | (i, q) :: r => if (i =? id)%nat then Some q else buscarAporte id r
  end.

(** A document after the updates [incs], each [_id] updated at most once. *)
Definition actualizarCon (incs : list (nat * Q)) (m : Meta.t) : Meta.t :=
  match buscarAporte (Meta._id m) incs with
  | Some q => Meta.conMontoActual m (Meta.montoActual m + q)
  | None => m
  end.

Definition buscarMeta (id : nat) (l : list Meta.t) : option Meta.t :=
  find (fun m => (Meta._id m =? id)%nat) l.

(** *** Orders on goals *)

(** The rank of a priority in the specification's order: high, medium, low. *)
Definition rangoEspecificado (p : Prioridad) : nat :=
  match p with
  | alta => 0
  | media => 1
  | baja => 2
  end.

(** The rank of a priority in the store's descending order of the strings
    'media', 'baja', 'alta'. *)
Definition rangoAlmacen (p : Prioridad) : nat :=
  match p with
  | media => 0
  | baja => 1
  | alta => 2
  end.

(** Deadline order of the specification: soonest first, goals without a
    deadline after those with one. *)
Definition fechaEspecificada (a b : option Z) : Prop :=
  match a, b with
  | Some x, Some y => (x <= y)%Z
  | Some _, None => True
  | None, Some _ => False
  | None, None => True
  end.

(** Deadline order of the store: goals without a deadline first, then soonest
    first. *)
Definition fechaAlmacen (a b : option Z) : Prop :=
  match a, b with
  | Some x, Some y => (x <= y)%Z
  | Some _, None => False
  | None, Some _ => True
  | None, None => True
  end.

(** The goals of a user that the allocator processes, in its order. *)
Definition metasProcesadas (usuarioId : nat) (bd : BD) : list Meta.t :=
  ordenar (filter (esActivaDe usuarioId) (metas bd)).

(** *** The manual contribution, as the specification words it *)

(** The optional [descripcion] of a contribution passes the route's check. *)
Definition descripcionAdmisible (isLength : js_string -> nat -> nat -> bool)
    (cuerpo : CuerpoAporte) : Prop :=
  match a_descripcion cuerpo with
  | Some d => isLength (trim d) 0%nat 200%nat = true
  | None => True
  end.

(** ** Sample data *)

Module Ejemplo.

(** Two goals of user 7 that differ in priority, two goals of user 8 that
    differ in having a deadline, two goals of user 9 close to their targets,
    two goals of user 10 that differ in their deadlines, and the only goal of
    user 11. *)
Definition metaAlta : Meta.t :=
  Meta.mk 1 7 (utf16 "Viaje") 100 0 (Some 50%Z) alta activa.
Definition metaMedia : Meta.t :=
  Meta.mk 2 7 (utf16 "Auto") 100 0 (Some 50%Z) media activa.
Definition metaSinFecha : Meta.t :=
  Meta.mk 3 8 (utf16 "Fondo") 100 0 None media activa.
Definition metaConFecha : Meta.t :=
  Meta.mk 4 8 (utf16 "Curso") 100 0 (Some 10%Z) media activa.
Definition metaCasiLlena : Meta.t :=
  Meta.mk 5 9 (utf16 "Casa") 100 90 (Some 20%Z) alta activa.
Definition metaPorLlenar : Meta.t :=
  Meta.mk 6 9 (utf16 "Boda") 100 (99999 # 1000) (Some 30%Z) media activa.

Definition metaLuego : Meta.t :=
  Meta.mk 8 10 (utf16 "Moto") 100 0 (Some 20%Z) media activa.
Definition metaPronto : Meta.t :=
  Meta.mk 7 10 (utf16 "Lentes") 100 80 (Some 10%Z) media activa.
Definition metaUnica : Meta.t :=
  Meta.mk 9 11 (utf16 "Retiro") 1000 0 None baja activa.

Definition bd : BD :=
  mkBD [metaAlta; metaMedia; metaSinFecha; metaConFecha; metaCasiLlena;
        metaPorLlenar; metaLuego; metaPronto; metaUnica]
       [] [].

Definition sueldo : CuerpoTransaccion :=
  mkCuerpoTransaccion ingreso (utf16 " Sueldo de marzo ") 500 None None None
    None.

Definition compra : CuerpoTransaccion :=
  mkCuerpoTransaccion gasto (utf16 "Supermercado") 40 None None None None.


(** A description of 200 code units. *)
Definition descripcionLarga : js_string := repeat 97%N 200.

End Ejemplo.


From Stdlib Require Import Qround.

(** ** The other routes of the transactions and of the goals *)

(** The awaited calls of the other routes, beside those above. *)
Inductive Llamada : Type :=
  | LBasica (op : Operacion)
  | LTransaccionFindOne (id : nat)
  | LTransaccionFind (usuario : nat)
  | LTransaccionCount (usuario : nat)
  | LTransaccionAggregate (usuario : nat)
  | LMetaCount (usuario : nat)
  | LMetaNuevaSave
  | LMetaPopulate
  | LMetaFindOneAndUpdate (id : nat)
  | LMetaFindOneAndDelete (id : nat)
  | LMetaFind (usuario : nat).

Definition FallosL : Type := Llamada -> option ErrorJS.

(** The oracle of the routes above, read off an oracle of all calls. *)
Definition basicos (f : FallosL) : Fallos := fun op => f (LBasica op).

Definition categoria_eqb (a b : Categoria) : bool :=
  match a, b with
  | alimentacion, alimentacion | transporte, transporte
  | entretenimiento, entretenimiento | servicios, servicios
  | salud, salud | ropa, ropa | educacion, educacion | hogar, hogar
  | otros, otros => true
  | _, _ => false
  end.

Definition prioridad_eqb (a b : Prioridad) : bool :=
  match a, b with
  | baja, baja | media, media | alta, alta => true
  | _, _ => false
  end.

(** The values of [transaccionSchema.categoria], in the order of its
    [enum]. *)
Definition todasCategorias : list Categoria :=
  [alimentacion; transporte; entretenimiento; servicios; salud; ropa;
   educacion; hogar; otros].

(** The query string of [GET /transacciones], with the filters that the
    documents above can be matched against: a request without
    [fecha_desde], [fecha_hasta] and [buscar]. *)
Record ConsultaLista : Type := mkConsultaLista {
  q_pagina : option nat;
  q_limite : option nat;
  q_tipo : option Tipo;
  q_categoria : option Categoria
}.

Record Paginacion : Type := mkPaginacion {
  paginaActual : nat;
  totalPaginas : nat;
  totalElementos : nat;
  elementosPorPagina : nat
}.

Record Estadisticas : Type := mkEstadisticas {
  totalIngresos : Q;
  totalGastos : Q;
  balance : Q;
  cantidadIngresos : nat;
  cantidadGastos : nat
}.

(** A group of [GET /transacciones/resumen/categorias]. *)
Record GrupoCategoria : Type := mkGrupoCategoria {
  g_id : Categoria;
  g_total : Q;
  g_cantidad : nat;
  g_promedio : Q
}.

(** The [resumen] of [GET /metas/dashboard/resumen]. *)
Record ResumenMetas : Type := mkResumenMetas {
  r_total : nat;
  r_activas : nat;
  r_completadas : nat;
  r_pausadas : nat;
  r_canceladas : nat;
  montoTotalObjetivos : Q;
  montoTotalAhorrado : Q;
  progresoGeneral : Q
}.

(** The body of [POST /metas]: a request that gives [titulo],
    [montoObjetivo] and optionally [fechaLimite] and [prioridad], and no
    other path of the schema. *)
Record CuerpoMeta : Type := mkCuerpoMeta {
  cm_titulo : js_string;
  cm_montoObjetivo : Q;
  cm_fechaLimite : option Z;
  cm_prioridad : option Prioridad
}.

(** The body of [PUT /metas/:id]: a request that gives [titulo],
    [montoObjetivo] and optionally [prioridad], and no other path of the
    schema. *)
Record CuerpoMetaCambios : Type := mkCuerpoMetaCambios {
  cc_titulo : js_string;
  cc_montoObjetivo : Q;
  cc_prioridad : option Prioridad
}.

Inductive Contenido : Type :=
  | CError (error : string)
  | CErrorDetalles (error : string)
  | CDocTransaccion (transaccion : Transaccion.t)
  | CListado (transacciones : list Transaccion.t) (paginacion : Paginacion)
      (estadisticas : Estadisticas)
  | CResumenCategorias (resumenCategorias : list GrupoCategoria)
      (totalGeneral : Q)
  | CMensajeMeta (message : string) (meta : Meta.t)
  | CDashboard (resumen : ResumenMetas)
      (metasProximasVencer : list Meta.t).

Record Contestacion : Type := mkContestacion {
  codigo : nat;
  contenido : Contenido
}.

(** [Math.ceil(total / limite)]. *)
Definition techoCociente (total limite : nat) : nat :=
  Z.to_nat (Qceiling (inject_Z (Z.of_nat total) / inject_Z (Z.of_nat limite))).

Definition sumaMontos (l : list Transaccion.t) : Q :=
  fold_right (fun t acc => Transaccion.monto t + acc) 0 l.

(** The first document that matches [{ _id, usuario, activa: true }] gets
    [activa: false]; the document is returned as updated. *)
Fixpoint desactivarPrimera (id usuarioId : nat) (l : list Transaccion.t)
    : option Transaccion.t * list Transaccion.t :=
  match l with
  | [] => (None, [])
  | d :: r =>
      if (Transaccion._id d =? id)%nat
         && (Transaccion.usuario d =? usuarioId)%nat
         && Transaccion.activa d
      then
        let d' := Transaccion.mk (Transaccion._id d) (Transaccion.usuario d)
                    (Transaccion.tipo d) (Transaccion.descripcion d)
                    (Transaccion.monto d) (Transaccion.categoria d)
                    (Transaccion.subcategoria d) false in
        (Some d', d' :: r)
      else
        let (res, r') := desactivarPrimera id usuarioId r in
        (res, d :: r')
  end.

(** The first document that matches [{ _id, usuario }] gets the given
    [estado]; the document is returned as updated. *)
Fixpoint cambiarPrimera (id usuarioId : nat) (e : Estado) (l : list Meta.t)
    : option Meta.t * list Meta.t :=
  match l with
  | [] => (None, [])
  | m :: r =>
      if (Meta._id m =? id)%nat && (Meta.usuario m =? usuarioId)%nat
      then (Some (Meta.conEstado m e), Meta.conEstado m e :: r)
      else
        let (res, r') := cambiarPrimera id usuarioId e r in
        (res, m :: r')
  end.

(** The first document that matches [{ _id, usuario }] is removed and
    returned. *)
Fixpoint quitarPrimera (id usuarioId : nat) (l : list Meta.t)
    : option Meta.t * list Meta.t :=
  match l with
  | [] => (None, [])
  | m :: r =>
      if (Meta._id m =? id)%nat && (Meta.usuario m =? usuarioId)%nat
      then (Some m, r)
      else
        let (res, r') := quitarPrimera id usuarioId r in
        (res, m :: r')
  end.

(** The first document that matches [{ _id, usuario }] takes the [titulo],
    the [montoObjetivo] and, when given, the [prioridad] of the update. *)
Fixpoint modificarPrimera (id usuarioId : nat) (c : CuerpoMetaCambios)
    (l : list Meta.t) : option Meta.t * list Meta.t :=
  match l with
  | [] => (None, [])
  | m :: r =>
      if (Meta._id m =? id)%nat && (Meta.usuario m =? usuarioId)%nat
      then
        let m' := Meta.mk (Meta._id m) (Meta.usuario m) (trim (cc_titulo c))
                    (cc_montoObjetivo c) (Meta.montoActual m)
                    (Meta.fechaLimite m)
                    (match cc_prioridad c with
                     | Some p => p
                     | None => Meta.prioridad m
                     end)
                    (Meta.estado m) in
        (Some m', m' :: r)
      else
        let (res, r') := modificarPrimera id usuarioId c r in
        (res, m :: r')
  end.

(** An [ObjectId] not yet in the collection of goals. *)
Definition nuevoIdMeta (l : list Meta.t) : nat :=
  S (fold_right Nat.max 0%nat (map Meta._id l)).

(** The validators of [metaSchema] on the paths of the documents above:
    [titulo] is required and at most 100 code units long, [montoObjetivo] is
    at least 1, [montoActual] is not negative. *)
Definition metaValida (m : Meta.t) : bool :=
  negb (List.length (Meta.titulo m) =? 0)%nat
  && (List.length (Meta.titulo m) <=? 100)%nat
  && Qle_bool 1 (Meta.montoObjetivo m)
  && Qle_bool 0 (Meta.montoActual m).


(** The order of [.sort({ total: -1 })] on the groups. *)
Fixpoint insertarGrupo (g : GrupoCategoria) (l : list GrupoCategoria)
    : list GrupoCategoria :=
  match l with
  | [] => [g]
  | x :: r =>
      if Qle_bool (g_total x) (g_total g) then g :: l
      else x :: insertarGrupo g r
  end.

Fixpoint ordenarGrupos (l : list GrupoCategoria) : list GrupoCategoria :=
  match l with
  | [] => []
  | g :: r => insertarGrupo g (ordenarGrupos r)
  end.

(** The order of [.sort({ fechaLimite: 1 })] on goals. *)
Fixpoint insertarPorFecha (m : Meta.t) (l : list Meta.t) : list Meta.t :=
  match l with
  | [] => [m]
  | x :: r =>
      match compararFecha (Meta.fechaLimite m) (Meta.fechaLimite x) with
      | Gt => x :: insertarPorFecha m r
      | _ => m :: l
      end
  end.

Fixpoint ordenarPorFecha (l : list Meta.t) : list Meta.t :=
  match l with
  | [] => []
  | m :: r => insertarPorFecha m (ordenarPorFecha r)
  end.

Definition valorEstado (e : Estado) : string :=
  match e with
  | activa => "activa"
  | completada => "completada"
  | pausada => "pausada"
  | cancelada => "cancelada"
  end.

(** The groups of [$group: { _id: '$tipo', total, cantidad }]: one for each
    [tipo] that some document has. *)
Definition agruparPorTipo (l : list Transaccion.t) : list (Tipo * Q * nat) :=
  flat_map
    (fun tp =>
       match filter (fun t => tipo_eqb (Transaccion.tipo t) tp) l with
       | [] => []
       | docs => [(tp, sumaMontos docs, List.length docs)]
       end)
    [ingreso; gasto].

(** [estadisticas.find(e => e._id === tp) || { total: 0, cantidad: 0 }]. *)
Definition grupoDe (tp : Tipo) (grupos : list (Tipo * Q * nat)) : Q * nat :=
  match find (fun g => tipo_eqb (fst (fst g)) tp) grupos with
  | Some g => (snd (fst g), snd g)
  | None => (0, 0%nat)
  end.

(** The groups of [$group: { _id: '$categoria', total, cantidad, promedio }],
    one for each [categoria] that some document has. *)
Definition agruparPorCategoria (l : list Transaccion.t)
    : list GrupoCategoria :=
  flat_map
    (fun c =>
       match filter (fun t => categoria_eqb (Transaccion.categoria t) c) l with
       | [] => []
       | docs =>
           [mkGrupoCategoria c (sumaMontos docs) (List.length docs)
              (sumaMontos docs / inject_Z (Z.of_nat (List.length docs)))]
       end)
    todasCategorias.

(** [metas.filter(m => m.estado === e).length]. *)
Definition contarEstado (e : Estado) (l : list Meta.t) : nat :=
  List.length (filter (fun m => estado_eqb (Meta.estado m) e) l).

(** The object [resumen] of the dashboard. *)
Definition resumirMetas (l : list Meta.t) : ResumenMetas :=
  let objetivos :=
    fold_left (fun acc m => acc + Meta.montoObjetivo m) l 0 in
  let ahorrado :=
    fold_left (fun acc m => acc + Meta.montoActual m) l 0 in
  mkResumenMetas (List.length l) (contarEstado activa l)
    (contarEstado completada l) (contarEstado pausada l)
    (contarEstado cancelada l) objetivos ahorrado
    (if negb (Qle_bool objetivos 0) then ahorrado / objetivos * 100 else 0).

Section RutasRestantes.

(** express-validator's [isLength], the oracle of all calls, the store's sort
    of transactions by [{ fecha: -1, createdAt: -1 }] (fields outside the
    documents above), the instant of the request and the date thirty days
    after it. *)
Variable isLength : js_string -> nat -> nat -> bool.
Variable fallos : FallosL.
Variable ordenarRecientes : list Transaccion.t -> list Transaccion.t.
Variable ahora : Z.
Variable enTreintaDias : Z.

Definition esperarL (l : Llamada) : M unit :=
  match fallos l with
  | Some e => lanzar e
  | None => ret tt
  end.

(** *** [GET /transacciones/:id] *)

(** The filter [{ _id, usuario, activa: true }]. *)
Definition esVisible (usuarioId id : nat) (t : Transaccion.t) : bool :=
  (Transaccion._id t =? id)%nat
  && (Transaccion.usuario t =? usuarioId)%nat
  && Transaccion.activa t.

Definition Transaccion_findOne (id usuarioId : nat)
    : M (option Transaccion.t) :=
  esperarL (LTransaccionFindOne id) ;;;
  fun bd => (Resuelve (find (esVisible usuarioId id) (transacciones bd)), bd).

Definition obtenerTransaccion (usuarioId id : nat) : M Contestacion :=
  tryCatch
    (transaccion <- Transaccion_findOne id usuarioId ;;
     match transaccion with
     | None =>
         ret (mkContestacion 404 (CError "Transacción no encontrada"))
     | Some t => ret (mkContestacion 200 (CDocTransaccion t))
     end)
    (fun error =>
       console_error "Error obteniendo transacción:" error ;;;
       match error with
       | CastError =>
           ret (mkContestacion 400 (CError "ID de transacción inválido"))
       | _ =>
           ret (mkContestacion 500
                  (CError
                     "Error interno del servidor al obtener transacción"))
       end).

(** *** [DELETE /transacciones/:id] *)

Definition Transaccion_desactivar (id usuarioId : nat)
    : M (option Transaccion.t) :=
  esperar (basicos fallos) (OpTransaccionFindOneAndUpdate id) ;;;
  fun bd =>
    let (res, ts) := desactivarPrimera id usuarioId (transacciones bd) in
    (Resuelve res, mkBD (metas bd) ts (consola bd)).

Definition eliminarTransaccion (usuarioId id : nat) : M Respuesta :=
  tryCatch
    (transaccionEliminada <- Transaccion_desactivar id usuarioId ;;
     match transaccionEliminada with
     | None => ret (mkRespuesta 404 (JError "Transacción no encontrada"))
     | Some t =>
         ret (mkRespuesta 200
                (JTransaccion "Transacción eliminada exitosamente" t))
     end)
    (fun error =>
       console_error "Error eliminando transacción:" error ;;;
       match error with
       | CastError =>
           ret (mkRespuesta 400 (JError "ID de transacción inválido"))
       | _ =>
           ret (mkRespuesta 500
                  (JError
                     "Error interno del servidor al eliminar transacción"))
       end).

(** *** [GET /transacciones] *)

(** [pagina] is an integer of at least 1, [limite] an integer from 1 to
    100; [tipo] and [categoria] are values of their types. *)
Definition validacionLista (q : ConsultaLista) : bool :=
  match q_pagina q with
  | Some p => (1 <=? p)%nat
  | None => true
  end
  && match q_limite q with
     | Some l => (1 <=? l)%nat && (l <=? 100)%nat
     | None => true
     end.

(** The object [filtros]. *)
Definition filtroLista (usuarioId : nat) (q : ConsultaLista)
    (t : Transaccion.t) : bool :=
  (Transaccion.usuario t =? usuarioId)%nat
  && Transaccion.activa t
  && match q_tipo q with
     | Some tp => tipo_eqb (Transaccion.tipo t) tp
     | None => true
     end
  && match q_categoria q with
     | Some c => categoria_eqb (Transaccion.categoria t) c
     | None => true
     end.

(** [Transaccion.find(filtros).sort(...).skip(skip).limit(limite)]. *)
Definition Transaccion_find_pagina (usuarioId : nat) (q : ConsultaLista)
    (skip limite : nat) : M (list Transaccion.t) :=
  esperarL (LTransaccionFind usuarioId) ;;;
  fun bd =>
    (Resuelve
       (firstn limite
          (skipn skip
             (ordenarRecientes
                (filter (filtroLista usuarioId q) (transacciones bd))))),
     bd).

Definition Transaccion_countDocuments (usuarioId : nat) (q : ConsultaLista)
    : M nat :=
  esperarL (LTransaccionCount usuarioId) ;;;
  fun bd =>
    (Resuelve
       (List.length (filter (filtroLista usuarioId q) (transacciones bd))),
     bd).

Definition Transaccion_aggregate_tipo (usuarioId : nat) (q : ConsultaLista)
    : M (list (Tipo * Q * nat)) :=
  esperarL (LTransaccionAggregate usuarioId) ;;;
  fun bd =>
    (Resuelve
       (agruparPorTipo (filter (filtroLista usuarioId q) (transacciones bd))),
     bd).

Definition listarTransacciones (usuarioId : nat) (q : ConsultaLista)
    : M Contestacion :=
  tryCatch
    (if negb (validacionLista q) then
       ret (mkContestacion 400
              (CErrorDetalles "Parámetros de consulta inválidos"))
     else
       let pagina := match q_pagina q with Some p => p | None => 1%nat end in
       let limite := match q_limite q with Some l => l | None => 20%nat end in
       let skip := ((pagina - 1) * limite)%nat in
       transacciones <- Transaccion_find_pagina usuarioId q skip limite ;;
       total <- Transaccion_countDocuments usuarioId q ;;
       estadisticas <- Transaccion_aggregate_tipo usuarioId q ;;
       let ingresos := grupoDe ingreso estadisticas in
       let gastos := grupoDe gasto estadisticas in
       ret (mkContestacion 200
              (CListado transacciones
                 (mkPaginacion pagina (techoCociente total limite) total
                    limite)
                 (mkEstadisticas (fst ingresos) (fst gastos)
                    (fst ingresos - fst gastos) (snd ingresos)
                    (snd gastos)))))
    (fun error =>
       console_error "Error obteniendo transacciones:" error ;;;
       ret (mkContestacion 500
              (CError
                 "Error interno del servidor al obtener transacciones"))).

(** *** [GET /transacciones/resumen/categorias] *)

(** The object [filtros] of a request without a date range. *)
Definition filtroResumen (usuarioId : nat) (tipo : option Tipo)
    (t : Transaccion.t) : bool :=
  (Transaccion.usuario t =? usuarioId)%nat
  && Transaccion.activa t
  && match tipo with
     | Some tp => tipo_eqb (Transaccion.tipo t) tp
     | None => true
     end.

Definition Transaccion_aggregate_categoria (usuarioId : nat)
    (tipo : option Tipo) : M (list GrupoCategoria) :=
  esperarL (LTransaccionAggregate usuarioId) ;;;
  fun bd =>
    (Resuelve
       (ordenarGrupos
          (agruparPorCategoria
             (filter (filtroResumen usuarioId tipo) (transacciones bd)))),
     bd).

Definition resumenPorCategorias (usuarioId : nat) (tipo : option Tipo)
    : M Contestacion :=
  tryCatch
    (resumen <- Transaccion_aggregate_categoria usuarioId tipo ;;
     ret (mkContestacion 200
            (CResumenCategorias resumen
               (fold_left (fun acc cat => acc + g_total cat) resumen 0))))
    (fun error =>
       console_error "Error obteniendo resumen por categorías:" error ;;;
       ret (mkContestacion 500
              (CError "Error interno del servidor al obtener resumen"))).

(** *** [PATCH /metas/:id/estado] *)

Definition Meta_cambiarEstado (id usuarioId : nat) (e : Estado)
    : M (option Meta.t) :=
  esperarL (LMetaFindOneAndUpdate id) ;;;
  fun bd =>
    let (res, ms) := cambiarPrimera id usuarioId e (metas bd) in
    (Resuelve res, mkBD ms (transacciones bd) (consola bd)).

Definition cambiarEstado (usuarioId id : nat) (e : Estado)
    : M Contestacion :=
  tryCatch
    (meta <- Meta_cambiarEstado id usuarioId e ;;
     match meta with
     | None => ret (mkContestacion 404 (CError "Meta no encontrada"))
     | Some m =>
         ret (mkContestacion 200
                (CMensajeMeta
                   ("Meta " ++ valorEstado e ++ " exitosamente")%string m))
     end)
    (fun error =>
       console_error "Error cambiando estado de meta:" error ;;;
       ret (mkContestacion 500
              (CError "Error interno del servidor al cambiar estado"))).

(** *** [DELETE /metas/:id] *)

Definition Meta_findOneAndDelete (id usuarioId : nat) : M (option Meta.t) :=
  esperarL (LMetaFindOneAndDelete id) ;;;
  fun bd =>
    let (res, ms) := quitarPrimera id usuarioId (metas bd) in
    (Resuelve res, mkBD ms (transacciones bd) (consola bd)).

Definition eliminarMeta (usuarioId id : nat) : M Contestacion :=
  tryCatch
    (metaEliminada <- Meta_findOneAndDelete id usuarioId ;;
     match metaEliminada with
     | None => ret (mkContestacion 404 (CError "Meta no encontrada"))
     | Some m =>
         ret (mkContestacion 200
                (CMensajeMeta "Meta eliminada exitosamente" m))
     end)
    (fun error =>
       console_error "Error eliminando meta:" error ;;;
       match error with
       | CastError => ret (mkContestacion 400 (CError "ID de meta inválido"))
       | _ =>
           ret (mkContestacion 500
                  (CError "Error interno del servidor al eliminar meta"))
       end).

(** *** [POST /metas] *)

(** The chain [validacionMeta] on a new goal: [titulo] is trimmed and must
    have 3 to 100 characters, [montoObjetivo] must be a float of at least 1,
    a [fechaLimite] must be after the instant of the request. *)
Definition validacionMeta (cuerpo : CuerpoMeta) : option CuerpoMeta :=
  let titulo := trim (cm_titulo cuerpo) in
  if isLength titulo 3 100
     && Qle_bool 1 (cm_montoObjetivo cuerpo)
     && match cm_fechaLimite cuerpo with
        | Some v => (ahora <? v)%Z
        | None => true
        end
  then Some (mkCuerpoMeta titulo (cm_montoObjetivo cuerpo)
               (cm_fechaLimite cuerpo) (cm_prioridad cuerpo))
  else None.

(** [Meta.countDocuments({ usuario, estado: 'activa' })]. *)
Definition Meta_countActivas (usuarioId : nat) : M nat :=
  esperarL (LMetaCount usuarioId) ;;;
  fun bd =>
    (Resuelve (List.length (filter (esActivaDe usuarioId) (metas bd))), bd).

(** [new Meta({ ...req.body, usuario })]: a fresh [_id], the [trim] setter
    on [titulo], the defaults [montoActual: 0], [prioridad: 'media'] and
    [estado: 'activa']. *)
Definition Meta_new (usuarioId : nat) (c : CuerpoMeta) : M Meta.t :=
  fun bd =>
    (Resuelve
       (Meta.mk (nuevoIdMeta (metas bd)) usuarioId (trim (cm_titulo c))
          (cm_montoObjetivo c) 0 (cm_fechaLimite c)
          (match cm_prioridad c with
           | Some p => p
           | None => media
           end)
          activa),
     bd).

(** [nuevaMeta.save()]: the schema's validators, among them that of
    [fechaLimite] against [fechaInicio], which defaults to the instant of the
    request; then the insert. *)
Definition Meta_nueva_save (doc : Meta.t) : M Meta.t :=
  if metaValida doc
     && match Meta.fechaLimite doc with
        | Some v => (ahora <? v)%Z
        | None => true
        end
  then
    esperarL LMetaNuevaSave ;;;
    fun bd =>
      (Resuelve doc, mkBD (metas bd ++ [doc]) (transacciones bd) (consola bd))
  else lanzar ValidationError.

Definition crearMeta (usuarioId : nat) (cuerpo : CuerpoMeta)
    : M Contestacion :=
  tryCatch
    (match validacionMeta cuerpo with
     | None => ret (mkContestacion 400 (CErrorDetalles "Datos inválidos"))
     | Some c =>
         metasActivas <- Meta_countActivas usuarioId ;;
         if (10 <=? metasActivas)%nat then
           ret (mkContestacion 400
                  (CError
                     "Has alcanzado el límite máximo de 10 metas activas"))
         else
           nuevaMeta <- Meta_new usuarioId c ;;
           metaGuardada <- Meta_nueva_save nuevaMeta ;;
           esperarL LMetaPopulate ;;;
           ret (mkContestacion 201
                  (CMensajeMeta "Meta creada exitosamente" metaGuardada))
     end)
    (fun error =>
       console_error "Error creando meta:" error ;;;
       match error with
       | ValidationError =>
           ret (mkContestacion 400
                  (CErrorDetalles "Datos de meta inválidos"))
       | _ =>
           ret (mkContestacion 500
                  (CError "Error interno del servidor al crear meta"))
       end).

(** *** [PUT /metas/:id] *)

Definition validacionMetaCambios (cuerpo : CuerpoMetaCambios)
    : option CuerpoMetaCambios :=
  let titulo := trim (cc_titulo cuerpo) in
  if isLength titulo 3 100 && Qle_bool 1 (cc_montoObjetivo cuerpo)
  then Some (mkCuerpoMetaCambios titulo (cc_montoObjetivo cuerpo)
               (cc_prioridad cuerpo))
  else None.

(** [Meta.findOneAndUpdate({ _id, usuario }, req.body,
       { new: true, runValidators: true }).populate(...)]. *)
Definition Meta_findOneAndUpdate (id usuarioId : nat)
    (c : CuerpoMetaCambios) : M (option Meta.t) :=
  if negb (List.length (trim (cc_titulo c)) =? 0)%nat
     && (List.length (trim (cc_titulo c)) <=? 100)%nat
     && Qle_bool 1 (cc_montoObjetivo c)
  then
    esperarL (LMetaFindOneAndUpdate id) ;;;
    fun bd =>
      let (res, ms) := modificarPrimera id usuarioId c (metas bd) in
      (Resuelve res, mkBD ms (transacciones bd) (consola bd))
  else lanzar ValidationError.

(** [metaActualizada.save()] after [estado] was assigned. *)
Definition Meta_save_estado (meta : Meta.t) : M unit :=
  esperar (basicos fallos) (OpMetaSave (Meta._id meta)) ;;;
  fun bd =>
    (Resuelve tt,
     mkBD (reemplazar meta (metas bd)) (transacciones bd) (consola bd)).

Definition actualizarMeta (usuarioId id : nat) (cuerpo : CuerpoMetaCambios)
    : M Contestacion :=
  tryCatch
    (match validacionMetaCambios cuerpo with
     | None => ret (mkContestacion 400 (CErrorDetalles "Datos inválidos"))
     | Some c =>
         metaActualizada <- Meta_findOneAndUpdate id usuarioId c ;;
         match metaActualizada with
         | None => ret (mkContestacion 404 (CError "Meta no encontrada"))
         | Some m =>
             if Qle_bool (Meta.montoObjetivo m) (Meta.montoActual m)
                && estado_eqb (Meta.estado m) activa
             then
               Meta_save_estado (Meta.conEstado m completada) ;;;
               ret (mkContestacion 200
                      (CMensajeMeta "Meta actualizada exitosamente"
                         (Meta.conEstado m completada)))
             else
               ret (mkContestacion 200
                      (CMensajeMeta "Meta actualizada exitosamente" m))
         end
     end)
    (fun error =>
       console_error "Error actualizando meta:" error ;;;
       match error with
       | CastError => ret (mkContestacion 400 (CError "ID de meta inválido"))
       | ValidationError =>
           ret (mkContestacion 400
                  (CErrorDetalles "Datos de meta inválidos"))
       | MongoError =>
           ret (mkContestacion 500
                  (CError "Error interno del servidor al actualizar meta"))
       end).

(** *** [GET /metas/dashboard/resumen] *)

(** [Meta.find({ usuario })]. *)
Definition Meta_find_usuario (usuarioId : nat) : M (list Meta.t) :=
  esperarL (LMetaFind usuarioId) ;;;
  fun bd =>
    (Resuelve (filter (fun m => (Meta.usuario m =? usuarioId)%nat) (metas bd)),
     bd).

(** [Meta.find({ usuario, estado: 'activa', fechaLimite: { $lte: limite } })
       .sort({ fechaLimite: 1 })]. *)
Definition Meta_find_proximas (usuarioId : nat) (limite : Z)
    : M (list Meta.t) :=
  esperarL (LMetaFind usuarioId) ;;;
  fun bd =>
    (Resuelve
       (ordenarPorFecha
          (filter
             (fun m =>
                esActivaDe usuarioId m
                && match Meta.fechaLimite m with
                   | Some d => (d <=? limite)%Z
                   | None => false
                   end)
             (metas bd))),
     bd).

Definition dashboardMetas (usuarioId : nat) : M Contestacion :=
  tryCatch
    (metas <- Meta_find_usuario usuarioId ;;
     let resumen := resumirMetas metas in
     metasProximasVencer <- Meta_find_proximas usuarioId enTreintaDias ;;
     ret (mkContestacion 200 (CDashboard resumen metasProximasVencer)))
    (fun error =>
       console_error "Error obteniendo dashboard de metas:" error ;;;
       ret (mkContestacion 500
              (CError "Error interno del servidor al obtener dashboard"))).

End RutasRestantes.

(** ** The categorizer of [src/routes/gastos.js] *)

Module Gastos.

Section Categorizador.

Variable toLowerCase : js_string -> js_string.

Definition clasificarCategoria (desc : js_string) : Categoria :=
  let texto := toLowerCase desc in
  if includes texto (utf16 "comida") || includes texto (utf16 "restaurante")
  then alimentacion
  else if includes texto (utf16 "transporte")
          || includes texto (utf16 "uber") || includes texto (utf16 "taxi")
  then transporte
  else if includes texto (utf16 "cine") || includes texto (utf16 "ocio")
          || includes texto (utf16 "pelicula")
  then entretenimiento
  else if includes texto (utf16 "luz") || includes texto (utf16 "agua")
          || includes texto (utf16 "internet")
  then servicios
  else if includes texto (utf16 "salud")
          || includes texto (utf16 "medicina")
  then salud
  else if includes texto (utf16 "ropa") || includes texto (utf16 "zapato")
  then ropa
  else otros.

End Categorizador.

End Gastos.

(** ** The middlewares *)

Module Middleware.

Local Open Scope string_scope.

(** An error object, with the properties that [errorHandler] reads. *)
Record ErrorExpress : Type := mkError {
  name : string;
  code : option Z;
  codigo : option string
}.

(** A document of the [Usuario] collection, without its password. *)
Record UsuarioDoc : Type := mkUsuarioDoc {
  _id : nat;
  nombre : js_string;
  email : js_string;
  fechaRegistro : Z;
  activo : bool
}.

(** The object [req.usuario]; [rol] is the property that [checkRole]
    reads. *)
Record UsuarioReq : Type := mkUsuarioReq {
  id : nat;
  r_nombre : js_string;
  r_email : js_string;
  r_fechaRegistro : Z;
  rol : option js_string
}.

(** What a middleware does: it calls [next()], with [req.usuario] as it is
    then, it calls [next(error)], or it answers. *)
Inductive Paso : Type :=
  | Siguiente (usuario : option UsuarioReq)
  | SiguienteError (error : ErrorExpress)
  | Responde (status : nat) (codigoRespuesta : string).

(** [String.prototype.split] on a separator of one code unit. *)
Fixpoint split (sep : N) (s : js_string) : list js_string :=
  match s with
  | [] => [[]]
  | c :: r =>
      if (c =? sep)%N then [] :: split sep r
      else
        match split sep r with
        | p :: ps => (c :: p) :: ps
        | [] => [[c]]
        end
  end.

(** [authHeader && authHeader.split(' ')[1]]. *)
Definition tokenDe (authHeader : option js_string) : option js_string :=
  match authHeader with
  | None => None
  | Some [] => Some []
  | Some h => nth_error (split 32 h) 1
  end.

(** [errorHandler]: the status and the [codigo] of its answer, for an error
    that carries the properties its branch reads ([errors] on a
    [ValidationError], [keyPattern] on a duplicate key). *)
Definition errorHandler (err : ErrorExpress) : nat * string :=
  if String.eqb (name err) "ValidationError" then (400%nat, "VALIDATION_ERROR"%string)
  else if match code err with
          | Some c => (c =? 11000)%Z
          | None => false
          end
  then (409%nat, "DUPLICATE_KEY"%string)
  else if String.eqb (name err) "CastError" then (400%nat, "INVALID_ID"%string)
  else if String.eqb (name err) "AuthError" then
    (401%nat,
     match codigo err with
     | Some EmptyString | None => "AUTH_ERROR"%string
     | Some c => c
     end)
  else if String.eqb (name err) "RateLimitError"
  then (429%nat, "RATE_LIMIT_EXCEEDED"%string)
  else if String.eqb (name err) "ExternalAPIError"
  then (502%nat, "EXTERNAL_API_FAILURE"%string)
  else if String.eqb (name err) "NotFoundError"
  then (404%nat, "RESOURCE_NOT_FOUND"%string)
  else if String.eqb (name err) "ForbiddenError" then (403%nat, "FORBIDDEN"%string)
  else (500%nat, "INTERNAL_SERVER_ERROR"%string).

Section Autenticacion.

(** [jwt.verify(token, secret)], which returns the payload's [id] or throws;
    the collection of users; the error with which [Usuario.findById]
    rejects, if it does. *)
Variable verify : js_string -> ErrorExpress + nat.
Variable usuarios : list UsuarioDoc.
Variable falloUsuarios : option ErrorExpress.

Definition usuarioDe (u : UsuarioDoc) : UsuarioReq :=
  mkUsuarioReq (_id u) (nombre u) (email u) (fechaRegistro u) None.

Definition authenticateToken (authHeader : option js_string) : Paso :=
  match tokenDe authHeader with
  | None | Some [] =>
      SiguienteError (mkError "AuthError" None (Some "TOKEN_REQUIRED"))
  | Some token =>
      match verify token with
      | inl error => SiguienteError error
      | inr decodedId =>
          match falloUsuarios with
          | Some error => SiguienteError error
          | None =>
              match find (fun u => (_id u =? decodedId)%nat) usuarios with
              | Some u =>
                  if activo u then Siguiente (Some (usuarioDe u))
                  else
                    SiguienteError
                      (mkError "AuthError" None (Some "USER_INVALID"))
              | None =>
                  SiguienteError
                    (mkError "AuthError" None (Some "USER_INVALID"))
              end
          end
      end
  end.

Definition optionalAuth (authHeader : option js_string) : Paso :=
  match tokenDe authHeader with
  | None | Some [] => Siguiente None
  | Some token =>
      match verify token with
      | inl _ => Siguiente None
      | inr decodedId =>
          match falloUsuarios with
          | Some _ => Siguiente None
          | None =>
              match find (fun u => (_id u =? decodedId)%nat) usuarios with
              | Some u =>
                  if activo u then Siguiente (Some (usuarioDe u))
                  else Siguiente None
              | None => Siguiente None
              end
          end
      end
  end.

(** A request through [authenticateToken] and, on [next(error)], through
    [errorHandler]. *)
Definition autenticar (authHeader : option js_string) : Paso :=
  match authenticateToken authHeader with
  | SiguienteError error =>
      Responde (fst (errorHandler error)) (snd (errorHandler error))
  | paso => paso
  end.

End Autenticacion.

Fixpoint js_string_eqb (a b : js_string) : bool :=
  match a, b with
  | [], [] => true
  | x :: a', y :: b' => (x =? y)%N && js_string_eqb a' b'
  | _, _ => false
  end.

(** [rolesPermitidos.includes(req.usuario.rol)]. *)
Definition incluyeRol (rolesPermitidos : list js_string)
    (rol : option js_string) : bool :=
  match rol with
  | None => false
  | Some r => existsb (js_string_eqb r) rolesPermitidos
  end.

(** [checkRole(rolesPermitidos)]. *)
Definition checkRole (rolesPermitidos : list js_string)
    (usuario : option UsuarioReq) : Paso :=
  match usuario with
  | None => Responde 401 "AUTH_REQUIRED"
  | Some u =>
      if negb (List.length rolesPermitidos =? 0)%nat
         && negb (incluyeRol rolesPermitidos (rol u))
      then Responde 403 "FORBIDDEN"
      else Siguiente usuario
  end.

End Middleware.

(** ** Further specification-level definitions *)

(** The place of a category in the declared order of the keyword table, with
    ['otros'] after all of them. *)
Definition posicion (c : Categoria) : nat :=
  match c with
  | alimentacion => 0
  | transporte => 1
  | entretenimiento => 2
  | servicios => 3
  | salud => 4
  | ropa => 5
  | educacion => 6
  | hogar => 7
  | otros => 8
  end.

(** The index of the first entry of a table one of whose keywords the text
    includes, the length of the table when there is none. *)
Fixpoint primeraEntrada (texto : js_string)
    (entradas : list (Categoria * list js_string)) : nat :=
  match entradas with
  | [] => 0
  | (_, palabras) :: resto =>
      if existsb (fun palabra => includes texto palabra) palabras
      then 0
      else S (primeraEntrada texto resto)
  end.

(** The number of active goals of a user. *)
Definition activasDe (usuarioId : nat) (l : list Meta.t) : nat :=
  List.length (filter (esActivaDe usuarioId) l).

(** The oracle of all calls under which none rejects. *)
Definition sinFallosL : FallosL := fun _ => None.

(** The transactions of the answer of [GET /transacciones] for a page. *)
Definition paginaDe (ordenarRecientes : list Transaccion.t -> list Transaccion.t)
    (usuarioId : nat) (q : ConsultaLista) (bd : BD) (pagina : nat)
    : list Transaccion.t :=
  match fst (listarTransacciones sinFallosL ordenarRecientes usuarioId
               (mkConsultaLista (Some pagina) (q_limite q) (q_tipo q)
                  (q_categoria q)) bd) with
  | Resuelve (mkContestacion _ (CListado ts _ _)) => ts
  | _ => []
  end.

(** The answer of the [catch] of [POST /transacciones]. *)
Definition respuestaError (e : ErrorJS) : Respuesta :=
  match e with
  | ValidationError =>
      mkRespuesta 400 (JErrorDetalles "Datos de transacción inválidos")
  | _ =>
      mkRespuesta 500
        (JError "Error interno del servidor al crear transacción")
  end.

(** The store with one more line on the console. *)
Definition conConsola (bd : BD) (mensaje : string) (e : ErrorJS) : BD :=
  mkBD (metas bd) (transacciones bd) (consola bd ++ [(mensaje, e)]).


(** A transaction after its soft delete. *)
Definition desactivada (t : Transaccion.t) : Transaccion.t :=
  Transaccion.mk (Transaccion._id t) (Transaccion.usuario t)
    (Transaccion.tipo t) (Transaccion.descripcion t) (Transaccion.monto t)
    (Transaccion.categoria t) (Transaccion.subcategoria t) false.

(** The sample store after the purchase of user 9 has been recorded. *)
Module Ejemplo2.

Definition bdConCompra : BD :=
  snd (crearTransaccion toLowerCaseLatin1 isLengthUnidades sinFallos 9
         Ejemplo.compra Ejemplo.bd).

(** The sample store after goal 5 of user 9 has been paused. *)
Definition bdPausada : BD :=
  snd (cambiarEstado sinFallosL 9 5 pausada Ejemplo.bd).

(** A user of the collection, and a [jwt.verify] that accepts the token
    [abc] as hers and rejects every other one as malformed. *)
Definition ana : Middleware.UsuarioDoc :=
  Middleware.mkUsuarioDoc 9 (utf16 "Ana") (utf16 "ana@example.com") 0 true.

Definition verify (token : js_string)
    : Middleware.ErrorExpress + nat :=
  if Middleware.js_string_eqb token (utf16 "abc") then inr 9%nat
  else inl (Middleware.mkError "JsonWebTokenError" None None).

End Ejemplo2.
(** * The amounts as the code computes them

    A JavaScript [Number] is an IEEE 754 binary64 value, and the arithmetic
    of the allocator and of [POST /:id/agregar] is rounded: [3 * 0.1] is not
    [0.3].  The definitions above take amounts as exact rationals; they carry
    the properties in which no amount is computed or compared (which calls
    are issued to which collection, what an error does, who owns what).  The
    module [Doble] embeds the two functions that compute amounts,
    [actualizarMetasConIngreso] and the handler of [POST /:id/agregar], on
    binary64 values, with the Standard Library's executable specification of
    IEEE 754 arithmetic; every statement about a computed amount is made
    there. *)

From Stdlib Require Import SpecFloat.

Module Numero.

(** The values of a JavaScript [Number]: zeros, infinities, [NaN] and the
    finite binary64 numbers. *)
Definition t : Type := spec_float.

Definition prec : Z := 53.
Definition emax : Z := 1024.

(** [x + y], [x - y], [x * y] and [x / y] on numbers. *)
Definition suma (x y : t) : t := SFadd prec emax x y.
Definition resta (x y : t) : t := SFsub prec emax x y.
Definition producto (x y : t) : t := SFmul prec emax x y.
Definition cociente (x y : t) : t := SFdiv prec emax x y.

(** [x < y] and [x <= y]; both are [false] when an operand is [NaN]. *)
Definition menor (x y : t) : bool := SFltb x y.
Definition menorIgual (x y : t) : bool := SFleb x y.

Definition esNaN (x : t) : bool :=
  match x with
  | S754_nan => true
  | _ => false
  end.

(** [Number.isFinite]. *)
Definition esFinito (x : t) : bool :=
  match x with
  | S754_zero _ | S754_finite _ _ _ => true
  | _ => false
  end.

Definition cero : t := S754_zero false.

(** [0 <= x]: a number that is not negative. *)
Definition noNegativo (x : t) : bool := menorIgual cero x.

(** The number of an integer literal. *)
Definition deZ (z : Z) : t := binary_normalize prec emax z 0 false.

(** The number of a decimal literal [n / d], [d] a power of ten that binary64
    holds exactly: the binary64 value nearest to the quotient. *)
Definition decimal (n d : Z) : t := cociente (deZ n) (deZ d).

(** The literals [0.1] and [0.01]. *)
Definition decimo : t := decimal 1 10.
Definition centesimo : t := decimal 1 100.

(** [Math.min(x, y)]: [NaN] when an argument is [NaN], [-0] before [+0]. *)
Definition min (x y : t) : t :=
  if esNaN x || esNaN y then S754_nan
  else if menor y x then y
  else match x, y with
       | S754_zero false, S754_zero true => y
       | _, _ => x
       end.

(** The rational that a finite number stands for. *)
Definition valor (x : t) : Q :=
  match x with
  | S754_finite s m e =>
      inject_Z (if s then Z.neg m else Z.pos m) * Qpower 2 e
  | _ => 0
  end.

End Numero.

Module Doble.

Module Meta.

(** A document of the [Meta] collection ([src/models/meta.js]). *)
Record t : Type := mk {
  _id : nat;
  usuario : nat;
  titulo : js_string;
  montoObjetivo : Numero.t;
  montoActual : Numero.t;
  fechaLimite : option Z;
  prioridad : Prioridad;
  estado : Estado
}.

Definition conMontoActual (m : t) (q : Numero.t) : t :=
  mk (_id m) (usuario m) (titulo m) (montoObjetivo m) q (fechaLimite m)
     (prioridad m) (estado m).

Definition conEstado (m : t) (e : Estado) : t :=
  mk (_id m) (usuario m) (titulo m) (montoObjetivo m) (montoActual m)
     (fechaLimite m) (prioridad m) e.

End Meta.

Module Transaccion.

(** A document of the [Transaccion] collection
    ([src/models/transacciones.js]). *)
Record t : Type := mk {
  _id : nat;
  usuario : nat;
  tipo : Tipo;
  descripcion : js_string;
  monto : Numero.t;
  categoria : Categoria;
  subcategoria : option js_string;
  activa : bool
}.

(** The schema's validators, run by [save]: [descripcion] is required and at
    most 200 code units long, [monto] is at least [0.01], [subcategoria] at
    most 50 code units. *)
Definition valida (d : t) : bool :=
  negb (List.length (descripcion d) =? 0)%nat
  && (List.length (descripcion d) <=? 200)%nat
  && Numero.menorIgual Numero.centesimo (monto d)
  && match subcategoria d with
     | Some s => (List.length s <=? 50)%nat
     | None => true
     end.

End Transaccion.

(** ** The store's sort order *)

(** The order of [.sort({ prioridad: -1, fechaLimite: 1 })]: [prioridad]
    descending as a string (simple binary comparison), then [fechaLimite]
    ascending. *)
Definition compararMetas (a b : Meta.t) : comparison :=
  match String.compare (valorPrioridad (Meta.prioridad b))
                       (valorPrioridad (Meta.prioridad a)) with
  | Eq => compararFecha (Meta.fechaLimite a) (Meta.fechaLimite b)
  | c => c
  end.

Definition noDespues (a b : Meta.t) : bool :=
  match compararMetas a b with
  | Gt => false
  | _ => true
  end.

Fixpoint insertar (m : Meta.t) (l : list Meta.t) : list Meta.t :=
  match l with
  | [] => [m]
  | x :: r => if noDespues m x then m :: l else x :: insertar m r
  end.

(** The sort itself; documents that compare equal keep the store's order. *)
Fixpoint ordenar (l : list Meta.t) : list Meta.t :=
  match l with
  | [] => []
  | m :: r => insertar m (ordenar r)
  end.

(** ** The store, and awaited calls *)

Record BD : Type := mkBD {
  metas : list Meta.t;
  transacciones : list Transaccion.t;
  consola : list (string * ErrorJS)
}.

(** A computation over the store that returns or throws. *)
Definition M (A : Type) : Type := BD -> Resultado A * BD.

Definition ret {A} (a : A) : M A := fun bd => (Resuelve a, bd).

Definition bind {A B} (m : M A) (k : A -> M B) : M B :=
  fun bd =>
    match m bd with
    | (Resuelve a, bd') => k a bd'
    | (Rechaza e, bd') => (Rechaza e, bd')
    end.

Definition lanzar {A} (e : ErrorJS) : M A := fun bd => (Rechaza e, bd).

(** [try { m } catch (error) { h error }]. *)
Definition tryCatch {A} (m : M A) (h : ErrorJS -> M A) : M A :=
  fun bd =>
    match m bd with
    | (Resuelve a, bd') => (Resuelve a, bd')
    | (Rechaza e, bd') => h e bd'
    end.

Definition console_error (mensaje : string) (e : ErrorJS) : M unit :=
  fun bd =>
    (Resuelve tt,
     mkBD (metas bd) (transacciones bd) (consola bd ++ [(mensaje, e)])).

Set Warnings "-notation-overridden".
#[local] Notation "x <- m ;; k" := (bind m (fun x => k))
  (at level 61, m at next level, right associativity).
#[local] Notation "m ;;; k" := (bind m (fun _ => k))
  (at level 61, right associativity).
Set Warnings "notation-overridden".

(** The first document with the given [_id] gets [$inc: { montoActual: q }]:
    the store adds [q] to the number it holds. *)
Fixpoint incrementar (id : nat) (q : Numero.t) (l : list Meta.t)
    : list Meta.t :=
  match l with
  | [] => []
  | m :: r =>
      if (Meta._id m =? id)%nat
      then Meta.conMontoActual m (Numero.suma (Meta.montoActual m) q) :: r
      else m :: incrementar id q r
  end.

(** The first document with the [_id] of [doc] takes the paths a route
    modified on [doc]: [montoActual] and [estado]. *)
Fixpoint reemplazar (doc : Meta.t) (l : list Meta.t) : list Meta.t :=
  match l with
  | [] => []
  | m :: r =>
      if (Meta._id m =? Meta._id doc)%nat
      then Meta.conEstado (Meta.conMontoActual m (Meta.montoActual doc))
                          (Meta.estado doc) :: r
      else m :: reemplazar doc r
  end.

(** An [ObjectId] not yet in the collection. *)
Definition nuevoId (l : list Transaccion.t) : nat :=
  S (fold_right Nat.max 0%nat (map Transaccion._id l)).

(** ** Requests and responses *)

(** A value of the JSON body where the route expects a number: the
    validators do not convert, so it reaches the handler as the number or the
    string that the client sent.  (The other kinds of JSON value are not
    modelled.) *)
Inductive Valor : Type :=
  | VNumero (n : Numero.t)
  | VCadena (s : js_string).

(** The body of [POST /metas/:id/agregar]. *)
Record CuerpoAporte : Type := mkCuerpoAporte {
  a_monto : Valor;
  a_descripcion : option js_string
}.

Inductive Json : Type :=
  | JError (error : string)
  | JErrorDetalles (error : string)
  | JErrorMontoMaximo (error : string) (montoMaximo : Numero.t)
  | JMetaTransaccion (message : string) (meta : Meta.t)
      (transaccion : Transaccion.t).

Record Respuesta : Type := mkRespuesta {
  status : nat;
  json : Json
}.

Section Rutas.

(** The library's and the host's functions on strings: express-validator's
    [isLength({ min, max })] and [isFloat({ min: 0.01 })] on a string,
    [Number::toString] and [StringToNumber]. *)
Variable isLength : js_string -> nat -> nat -> bool.
Variable isFloat : js_string -> bool.
Variable aCadena : Numero.t -> js_string.
Variable aNumero : js_string -> Numero.t.
Variable fallos : Fallos.

(** An awaited call rejects when the oracle says so. *)
Definition esperar (op : Operacion) : M unit :=
  match fallos op with
  | Some e => lanzar e
  | None => ret tt
  end.

(** The filter [{ usuario: usuarioId, estado: 'activa' }]. *)
Definition esActivaDe (usuarioId : nat) (m : Meta.t) : bool :=
  (Meta.usuario m =? usuarioId)%nat && estado_eqb (Meta.estado m) activa.

(** [Meta.find({ usuario, estado: 'activa' })
       .sort({ prioridad: -1, fechaLimite: 1 })]. *)
Definition Meta_find_activas (usuarioId : nat) : M (list Meta.t) :=
  esperar (OpMetaFind usuarioId) ;;;
  fun bd => (Resuelve (ordenar (filter (esActivaDe usuarioId) (metas bd))), bd).

(** [Meta.findByIdAndUpdate(id, { $inc: { montoActual: q } })].  The update
    is cast to the schema before it is sent: the cast of [NaN] to [Number]
    throws a [CastError]. *)
Definition Meta_findByIdAndUpdate_inc (id : nat) (q : Numero.t) : M unit :=
  if Numero.esNaN q then lanzar CastError
  else
    esperar (OpMetaFindByIdAndUpdate id) ;;;
    fun bd =>
      (Resuelve tt,
       mkBD (incrementar id q (metas bd)) (transacciones bd) (consola bd)).

(** [Meta.findOne({ _id: id, usuario, estado: 'activa' })]. *)
Definition Meta_findOne_activa (id usuarioId : nat) : M (option Meta.t) :=
  esperar (OpMetaFindOne id) ;;;
  fun bd =>
    (Resuelve
       (find (fun m => (Meta._id m =? id)%nat && esActivaDe usuarioId m)
             (metas bd)),
     bd).

(** [meta.save()] after [montoActual] and [estado] were assigned: the schema's
    [min: 0] on [montoActual] is checked, then the document is written. *)
Definition Meta_save (meta : Meta.t) : M unit :=
  if Numero.menorIgual Numero.cero (Meta.montoActual meta) then
    esperar (OpMetaSave (Meta._id meta)) ;;;
    fun bd =>
      (Resuelve tt,
       mkBD (reemplazar meta (metas bd)) (transacciones bd) (consola bd))
  else lanzar ValidationError.

(** [new Transaccion({ ... })]: a fresh [_id], the [trim] setter on
    [descripcion], the default [activa: true]. *)
Definition Transaccion_new (usuarioId : nat) (tipo : Tipo)
    (descripcion : js_string) (monto : Numero.t) (categoria : Categoria)
    (subcategoria : option js_string) : M Transaccion.t :=
  fun bd =>
    (Resuelve
       (Transaccion.mk (nuevoId (transacciones bd)) usuarioId tipo
          (trim descripcion) monto categoria subcategoria true),
     bd).

(** [doc.save()] of a new transaction: validation, then the insert. *)
Definition Transaccion_save (doc : Transaccion.t) : M Transaccion.t :=
  if Transaccion.valida doc then
    esperar OpTransaccionSave ;;;
    fun bd =>
      (Resuelve doc,
       mkBD (metas bd) (transacciones bd ++ [doc]) (consola bd))
  else lanzar ValidationError.

(** *** The goal allocator *)

(** The loop of [actualizarMetasConIngreso] over the documents that the query
    returned. *)
Fixpoint distribuir (montoRestante : Numero.t) (metasActivas : list Meta.t)
    : M unit :=
  match metasActivas with
  | [] => ret tt
  | meta :: resto =>
      if Numero.menorIgual montoRestante Numero.cero then ret tt
      else
        let montoFaltante :=
          Numero.resta (Meta.montoObjetivo meta) (Meta.montoActual meta) in
        if Numero.menorIgual montoFaltante Numero.cero
        then distribuir montoRestante resto
        else
          let montoAAgregar := Numero.min montoRestante montoFaltante in
          Meta_findByIdAndUpdate_inc (Meta._id meta) montoAAgregar ;;;
          distribuir (Numero.resta montoRestante montoAAgregar) resto
  end.

Definition actualizarMetasConIngreso (usuarioId : nat)
    (montoIngreso : Numero.t) : M unit :=
  tryCatch
    (metasActivas <- Meta_find_activas usuarioId ;;
     distribuir (Numero.producto montoIngreso Numero.decimo) metasActivas)
    (fun error => console_error "Error actualizando metas:" error).

(** *** [POST /metas/:id/agregar] *)

(** [isFloat({ min: 0.01 })] on the body's [monto].  The validator works on
    the value as a string: a number passes when it is finite and at least
    [0.01], a string when the library's [isFloat] accepts it. *)
Definition montoValido (monto : Valor) : bool :=
  match monto with
  | VNumero n => Numero.esFinito n && Numero.menorIgual Numero.centesimo n
  | VCadena s => isFloat s
  end.

(** The route's chain: [monto] a float of at least [0.01]; [descripcion]
    optional, trimmed, of at most 200 characters. *)
Definition validacionAporte (cuerpo : CuerpoAporte) : option CuerpoAporte :=
  let descripcion := option_map trim (a_descripcion cuerpo) in
  if montoValido (a_monto cuerpo)
     && match descripcion with
        | Some d => isLength d 0 200
        | None => true
        end
  then Some (mkCuerpoAporte (a_monto cuerpo) descripcion)
  else None.

(** [montoActual + monto]: the sum of two numbers, or the concatenation when
    [monto] is a string. *)
Definition mas (montoActual : Numero.t) (monto : Valor) : Valor :=
  match monto with
  | VNumero n => VNumero (Numero.suma montoActual n)
  | VCadena s => VCadena (aCadena montoActual ++ s)
  end.

(** [v > montoObjetivo]; a string is converted to a number first. *)
Definition mayorQue (v : Valor) (montoObjetivo : Numero.t) : bool :=
  match v with
  | VNumero n => Numero.menor montoObjetivo n
  | VCadena s => Numero.menor montoObjetivo (aNumero s)
  end.

(** The cast of a value to a path of type [Number]; [NaN] does not cast. *)
Definition castNumber (v : Valor) : option Numero.t :=
  let n := match v with
           | VNumero n => n
           | VCadena s => aNumero s
           end in
  if Numero.esNaN n then None else Some n.

(** A value that did not cast makes the document invalid: the [save] that
    follows rejects with a [ValidationError] and writes nothing. *)
Definition agregarDinero (usuarioId id : nat) (cuerpo : CuerpoAporte)
    : M Respuesta :=
  tryCatch
    (match validacionAporte cuerpo with
     | None => ret (mkRespuesta 400 (JErrorDetalles "Datos inválidos"))
     | Some c =>
         let monto := a_monto c in
         let descripcion :=
           match a_descripcion c with
           | Some d => d
           | None => utf16 "Aporte a meta"
           end in
         encontrada <- Meta_findOne_activa id usuarioId ;;
         match encontrada with
         | None => ret (mkRespuesta 404 (JError "Meta activa no encontrada"))
         | Some meta =>
             if mayorQue (mas (Meta.montoActual meta) monto)
                         (Meta.montoObjetivo meta)
             then
               ret (mkRespuesta 400
                      (JErrorMontoMaximo
                         "El monto excede el objetivo de la meta"
                         (Numero.resta (Meta.montoObjetivo meta)
                                       (Meta.montoActual meta))))
             else
               match castNumber (mas (Meta.montoActual meta) monto) with
               | None => lanzar ValidationError
               | Some montoActual =>
                   let meta1 := Meta.conMontoActual meta montoActual in
                   let meta2 :=
                     if Numero.menorIgual (Meta.montoObjetivo meta1)
                                          (Meta.montoActual meta1)
                     then Meta.conEstado meta1 completada
                     else meta1 in
                   Meta_save meta2 ;;;
                   match castNumber monto with
                   | None => lanzar ValidationError
                   | Some montoTransaccion =>
                       nuevaTransaccion <-
                         Transaccion_new usuarioId gasto
                           (descripcion ++ utf16 " - " ++ Meta.titulo meta2)
                           montoTransaccion otros
                           (Some (utf16 "ahorro_meta")) ;;
                       Transaccion_save nuevaTransaccion ;;;
                       ret (mkRespuesta 200
                              (JMetaTransaccion
                                 (if estado_eqb (Meta.estado meta2) completada
                                  then
                                    "¡Felicitaciones! Has completado tu meta"
                                  else
                                    "Dinero agregado exitosamente a la meta")
                                 meta2 nuevaTransaccion))
                   end
               end
         end
     end)
    (fun error =>
       console_error "Error agregando dinero a meta:" error ;;;
       ret (mkRespuesta 500
              (JError "Error interno del servidor al agregar dinero"))).

End Rutas.

(** ** Specification-level definitions *)

(** The amount that a goal misses ([montoFaltante]). *)
Definition faltante (m : Meta.t) : Numero.t :=
  Numero.resta (Meta.montoObjetivo m) (Meta.montoActual m).

(** The loop passes a goal by: the pool is used up, or the goal misses
    nothing. *)
Definition pasaDeLargo (montoRestante : Numero.t) (meta : Meta.t) : bool :=
  Numero.menorIgual montoRestante Numero.cero
  || Numero.menorIgual (faltante meta) Numero.cero.

(** The pool that the loop carries to the next goal. *)
Definition siguienteRestante (montoRestante : Numero.t) (meta : Meta.t)
    : Numero.t :=
  if pasaDeLargo montoRestante meta then montoRestante
  else Numero.resta montoRestante (Numero.min montoRestante (faltante meta)).

(** The pool that is left after the goals [procesadas], in order. *)
Fixpoint restanteTras (montoRestante : Numero.t) (procesadas : list Meta.t)
    : Numero.t :=
  match procesadas with
  | [] => montoRestante
  | m :: r => restanteTras (siguienteRestante montoRestante m) r
  end.

(** The document of a goal that the loop reached with [montoRestante] left,
    once its update, if one is issued, has gone through. *)
Definition recibida (montoRestante : Numero.t) (meta : Meta.t) : Meta.t :=
  if pasaDeLargo montoRestante meta then meta
  else Meta.conMontoActual meta
         (Numero.suma (Meta.montoActual meta)
            (Numero.min montoRestante (faltante meta))).

(** The updates that the loop issues, in order: the [_id] and the increment
    of each call to [findByIdAndUpdate]. *)
Fixpoint aportes (montoRestante : Numero.t) (metasActivas : list Meta.t)
    : list (nat * Numero.t) :=
  match metasActivas with
  | [] => []
  | meta :: resto =>
      if Numero.menorIgual montoRestante Numero.cero then []
      else if Numero.menorIgual (faltante meta) Numero.cero
      then aportes montoRestante resto
      else
        (Meta._id meta, Numero.min montoRestante (faltante meta))
        :: aportes (Numero.resta montoRestante
                      (Numero.min montoRestante (faltante meta))) resto
  end.

(** The updates applied to the collection, one after the other. *)
Fixpoint aplicar (incs : list (nat * Numero.t)) (l : list Meta.t)
    : list Meta.t :=
  match incs with
  | [] => l
  | (id, q) :: r => aplicar r (incrementar id q l)
  end.

(** The error with which the update of a goal by [q] fails, if it does. *)
Definition falloDe (fallos : Fallos) (id : nat) (q : Numero.t)
    : option ErrorJS :=
  if Numero.esNaN q then Some CastError
  else fallos (OpMetaFindByIdAndUpdate id).

(** The updates that go through before the first one that fails, and the
    error of that one. *)
Fixpoint hastaFallo (fallos : Fallos) (incs : list (nat * Numero.t))
    : list (nat * Numero.t) * option ErrorJS :=
  match incs with
  | [] => ([], None)
  | (id, q) :: r =>
      match falloDe fallos id q with
      | Some e => ([], Some e)
      | None => let (p, e) := hastaFallo fallos r in ((id, q) :: p, e)
      end
  end.

Fixpoint buscarAporte (id : nat) (incs : list (nat * Numero.t))
    : option Numero.t :=
  match incs with
  | [] => None
  | (i, q) :: r => if (i =? id)%nat then Some q else buscarAporte id r
  end.

(** A document after the updates [incs], each [_id] updated at most once. *)
Definition actualizarCon (incs : list (nat * Numero.t)) (m : Meta.t)
    : Meta.t :=
  match buscarAporte (Meta._id m) incs with
  | Some q => Meta.conMontoActual m (Numero.suma (Meta.montoActual m) q)
  | None => m
  end.

Definition buscarMeta (id : nat) (l : list Meta.t) : option Meta.t :=
  find (fun m => (Meta._id m =? id)%nat) l.

(** The order in which the store returns two goals. *)
Definition OrdenAlmacen (a b : Meta.t) : Prop :=
  (rangoAlmacen (Meta.prioridad a) < rangoAlmacen (Meta.prioridad b))%nat
  \/ (Meta.prioridad a = Meta.prioridad b
      /\ fechaAlmacen (Meta.fechaLimite a) (Meta.fechaLimite b)).

(** The order that the specification words: higher priority first, then the
    earlier deadline, a goal without deadline last. *)
Definition OrdenEspecificado (a b : Meta.t) : Prop :=
  (rangoEspecificado (Meta.prioridad a)
   < rangoEspecificado (Meta.prioridad b))%nat
  \/ (Meta.prioridad a = Meta.prioridad b
      /\ fechaEspecificada (Meta.fechaLimite a) (Meta.fechaLimite b)).

(** The goals of a user that the allocator processes, in its order. *)
Definition metasProcesadas (usuarioId : nat) (bd : BD) : list Meta.t :=
  ordenar (filter (esActivaDe usuarioId) (metas bd)).

(** The optional [descripcion] of a contribution passes the route's check. *)
Definition descripcionAdmisible (isLength : js_string -> nat -> nat -> bool)
    (cuerpo : CuerpoAporte) : Prop :=
  match a_descripcion cuerpo with
  | Some d => isLength (trim d) 0%nat 200%nat = true
  | None => True
  end.

(** The [descripcion] of the transaction that records a contribution. *)
Definition descripcionAporte (cuerpo : CuerpoAporte) (meta : Meta.t)
    : js_string :=
  match a_descripcion cuerpo with
  | Some d => trim d
  | None => utf16 "Aporte a meta"
  end ++ utf16 " - " ++ Meta.titulo meta.

(** [meta] is the active goal [id] of the caller. *)
Definition metaActivaDe (usuarioId id : nat) (bd : BD) (meta : Meta.t)
    : Prop :=
  find (fun m => (Meta._id m =? id)%nat && esActivaDe usuarioId m) (metas bd)
  = Some meta.

(** A contribution of an admissible amount, sent as a JSON number, that
    would take the goal over its target is answered with status 400 and the
    largest amount that the goal still takes, and the store is left as it
    was.  Sums, differences and comparisons are those of the code. *)
Definition AporteExcedidoRechazado (montoAdmisible : Numero.t -> Prop)
    : Prop :=
  forall (isLength : js_string -> nat -> nat -> bool)
         (isFloat : js_string -> bool) (aCadena : Numero.t -> js_string)
         (aNumero : js_string -> Numero.t) (fallos : Fallos)
         (usuarioId id : nat) (monto : Numero.t)
         (descripcion : option js_string) (bd : BD) (meta : Meta.t),
    let cuerpo := mkCuerpoAporte (VNumero monto) descripcion in
    montoAdmisible monto ->
    descripcionAdmisible isLength cuerpo ->
    fallos (OpMetaFindOne id) = None ->
    metaActivaDe usuarioId id bd meta ->
    Numero.menor (Meta.montoObjetivo meta)
      (Numero.suma (Meta.montoActual meta) monto) = true ->
    agregarDinero isLength isFloat aCadena aNumero fallos usuarioId id
      cuerpo bd
    = (Resuelve
         (mkRespuesta 400
            (JErrorMontoMaximo "El monto excede el objetivo de la meta"
               (Numero.resta (Meta.montoObjetivo meta)
                             (Meta.montoActual meta)))),
       bd).

(** A contribution of an admissible amount, sent as a JSON number, that the
    goal still takes adds the amount to the goal, completes the goal exactly
    when it reaches its target, records one new expense transaction tagged
    ['ahorro_meta'], and answers with the goal and the transaction.  Sums
    and comparisons are those of the code. *)
Definition AporteAceptado (montoAdmisible : Numero.t -> Prop) : Prop :=
  forall (isLength : js_string -> nat -> nat -> bool)
         (isFloat : js_string -> bool) (aCadena : Numero.t -> js_string)
         (aNumero : js_string -> Numero.t) (fallos : Fallos)
         (usuarioId id : nat) (monto : Numero.t)
         (descripcion : option js_string) (bd : BD) (meta : Meta.t),
    let cuerpo := mkCuerpoAporte (VNumero monto) descripcion in
    montoAdmisible monto ->
    descripcionAdmisible isLength cuerpo ->
    (List.length (trim (descripcionAporte cuerpo meta)) <= 200)%nat ->
    fallos (OpMetaFindOne id) = None ->
    fallos (OpMetaSave id) = None ->
    fallos OpTransaccionSave = None ->
    NoDup (map Meta._id (metas bd)) ->
    metaActivaDe usuarioId id bd meta ->
    Numero.noNegativo (Meta.montoActual meta) = true ->
    Numero.menorIgual (Numero.suma (Meta.montoActual meta) monto)
      (Meta.montoObjetivo meta) = true ->
    exists (meta' : Meta.t) (transaccion : Transaccion.t) (message : string),
      agregarDinero isLength isFloat aCadena aNumero fallos usuarioId id
        cuerpo bd
      = (Resuelve
           (mkRespuesta 200 (JMetaTransaccion message meta' transaccion)),
         mkBD (reemplazar meta' (metas bd))
              (transacciones bd ++ [transaccion]) (consola bd))
      /\ buscarMeta id (reemplazar meta' (metas bd)) = Some meta'
      /\ map Meta._id (reemplazar meta' (metas bd)) = map Meta._id (metas bd)
      /\ (forall otra, In otra (metas bd) -> Meta._id otra <> id ->
                       In otra (reemplazar meta' (metas bd)))
      /\ Meta.montoActual meta'
         = Numero.suma (Meta.montoActual meta) monto
      /\ Meta.conEstado (Meta.conMontoActual meta' (Meta.montoActual meta))
           activa = meta
      /\ (Meta.estado meta' = completada
          <-> Numero.menorIgual (Meta.montoObjetivo meta')
                (Meta.montoActual meta') = true)
      /\ (Meta.estado meta' = activa
          <-> Numero.menorIgual (Meta.montoObjetivo meta')
                (Meta.montoActual meta') = false)
      /\ Transaccion.tipo transaccion = gasto
      /\ Transaccion.subcategoria transaccion = Some (utf16 "ahorro_meta")
      /\ Transaccion.monto transaccion = monto
      /\ Transaccion.usuario transaccion = usuarioId
      /\ Transaccion.descripcion transaccion
         = trim (descripcionAporte cuerpo meta)
      /\ ~ In (Transaccion._id transaccion)
              (map Transaccion._id (transacciones bd)).

(** The amounts that the route's validation admits in a JSON number: the
    finite numbers from [0.01] on. *)
Definition montoAdmitido (monto : Numero.t) : Prop :=
  Numero.esFinito monto = true
  /\ Numero.menorIgual Numero.centesimo monto = true.

End Doble.

(** ** Sample data on binary64 amounts *)

Module EjemploDoble.

(** Two goals of user 7 that differ in priority, two goals of user 8 that
    differ in having a deadline, two goals of user 9 close to their targets,
    two goals of user 10 that differ in their deadlines, the only goal of
    user 11, and the only goal of user 12, at 0.12 of 1.14. *)
Definition metaAlta : Doble.Meta.t :=
  Doble.Meta.mk 1 7 (utf16 "Viaje") (Numero.deZ 100) Numero.cero
    (Some 50%Z) alta activa.
Definition metaMedia : Doble.Meta.t :=
  Doble.Meta.mk 2 7 (utf16 "Auto") (Numero.deZ 100) Numero.cero
    (Some 50%Z) media activa.
Definition metaSinFecha : Doble.Meta.t :=
  Doble.Meta.mk 3 8 (utf16 "Fondo") (Numero.deZ 100) Numero.cero None media
    activa.
Definition metaConFecha : Doble.Meta.t :=
  Doble.Meta.mk 4 8 (utf16 "Curso") (Numero.deZ 100) Numero.cero
    (Some 10%Z) media activa.
Definition metaCasiLlena : Doble.Meta.t :=
  Doble.Meta.mk 5 9 (utf16 "Casa") (Numero.deZ 100) (Numero.deZ 90)
    (Some 20%Z) alta activa.
Definition metaPorLlenar : Doble.Meta.t :=
  Doble.Meta.mk 6 9 (utf16 "Boda") (Numero.deZ 100)
    (Numero.decimal 99999 1000) (Some 30%Z) media activa.
Definition metaLuego : Doble.Meta.t :=
  Doble.Meta.mk 8 10 (utf16 "Moto") (Numero.deZ 100) Numero.cero
    (Some 20%Z) media activa.
Definition metaPronto : Doble.Meta.t :=
  Doble.Meta.mk 7 10 (utf16 "Lentes") (Numero.deZ 100) (Numero.deZ 80)
    (Some 10%Z) media activa.
Definition metaUnica : Doble.Meta.t :=
  Doble.Meta.mk 9 11 (utf16 "Retiro") (Numero.deZ 1000) Numero.cero None
    baja activa.
Definition metaCentavos : Doble.Meta.t :=
  Doble.Meta.mk 10 12 (utf16 "Sello") (Numero.decimal 114 100)
    (Numero.decimal 12 100) None media activa.

Definition bd : Doble.BD :=
  Doble.mkBD
    [metaAlta; metaMedia; metaSinFecha; metaConFecha; metaCasiLlena;
     metaPorLlenar; metaLuego; metaPronto; metaUnica; metaCentavos]
    [] [].

(** The oracle under which the update of goal 5 rejects. *)
Definition fallaMeta5 : Fallos :=
  fun op =>
    match op with
    | OpMetaFindByIdAndUpdate 5 => Some MongoError
    | _ => None
    end.

(** The validator's [isFloat] on the strings of the examples is not needed
    where their amounts are numbers. *)
Definition isFloatNinguna : js_string -> bool := fun _ => false.

(** Stand-ins for the host's conversions, which those examples do not
    reach. *)
Definition aCadenaVacia : Numero.t -> js_string := fun _ => [].
Definition aNumeroNaN : js_string -> Numero.t := fun _ => S754_nan.

(** The only goal of user 13, at 0.5 of 100, alone in a store. *)
Definition metaMedio : Doble.Meta.t :=
  Doble.Meta.mk 11 13 (utf16 "Bici") (Numero.deZ 100) (Numero.decimal 5 10)
    None media activa.

Definition bdMedio : Doble.BD := Doble.mkBD [metaMedio] [] [].

Definition mismaCadena (s t : js_string) : bool :=
  if list_eq_dec N.eq_dec s t then true else false.

(** The validator and the host's conversions on the values of the example
    with a string for [monto]: ['100'] is a float of at least 0.01, the
    string of [0.5] is ['0.5'], and the numbers of ['100'] and ['0.5100']
    are 100 and 0.51. *)
Definition isFloatCien (s : js_string) : bool := mismaCadena s (utf16 "100").

Definition aCadenaMedio (x : Numero.t) : js_string :=
  if SFeqb x (Numero.decimal 5 10) then utf16 "0.5" else [].

Definition aNumeroTabla (s : js_string) : Numero.t :=
  if mismaCadena s (utf16 "100") then Numero.deZ 100
  else if mismaCadena s (utf16 "0.5100") then Numero.decimal 51 100
  else S754_nan.

End EjemploDoble.

(** ** Properties of strings *)

Lemma startsWith_spec (p s : js_string) :
  startsWith s p = true <-> exists post, s = p ++ post.
Proof.
  revert s; induction p as [|x p IH]; intros s; simpl.
  - split; [intros _; now exists s | reflexivity].
  - destruct s as [|y s].
    + split; [discriminate | intros [post H]; discriminate].
    + rewrite andb_true_iff, N.eqb_eq, IH. split.
      * intros [-> [post ->]]. now exists post.
      * intros [post H]. injection H as -> ->. split; [reflexivity|now exists post].
Qed.

Lemma includes_spec (s p : js_string) :
  includes s p = true <-> Subcadena p s.
Proof.
  unfold Subcadena. induction s as [|a s IH].
  - simpl. rewrite orb_false_r, startsWith_spec. split.
    + intros [post H]. now exists [], post.
    + intros [pre [post H]]. destruct pre; [now exists post | discriminate].
  - change (includes (a :: s) p)
      with (startsWith (a :: s) p || includes s p).
    rewrite orb_true_iff, startsWith_spec, IH. split.
    + intros [[post H] | [pre [post H]]].
      * now exists [], post.
      * exists (a :: pre), post. now rewrite H.
    + intros [pre [post H]]. destruct pre as [|b pre].
      * left. now exists post.
      * right. injection H as -> ->. now exists pre, post.
Qed.

Lemma existsb_includes (texto : js_string) (palabras : list js_string) :
  existsb (fun palabra => includes texto palabra) palabras = true
  <-> Coincide texto palabras.
Proof.
  unfold Coincide. rewrite existsb_exists.
  split; intros [p [Hin H]]; exists p; split; trivial;
    now apply includes_spec.
Qed.

(** ** The categorizer *)

Lemma recorrerCategorias_clasifica (texto : js_string)
    (tabla : list (Categoria * list js_string)) :
  Clasifica tabla texto (recorrerCategorias texto tabla).
Proof.
  induction tabla as [|[c ps] tabla IH]; simpl.
  - apply clasifica_otros. intros c ps [].
  - destruct (existsb _ ps) eqn:E.
    + apply (clasifica_primera _ _ [] c ps tabla); trivial.
      * now apply existsb_includes.
      * intros c' ps' [].
    + assert (Hno : ~ Coincide texto ps).
      { intros H. apply existsb_includes in H. congruence. }
      destruct IH as [antes c' ps' despues -> Hsi Hantes | Hnada].
      * apply (clasifica_primera _ _ ((c, ps) :: antes) c' ps' despues);
          trivial.
        intros c0 ps0 [Heq | Hin]; [injection Heq as <- <-; exact Hno|].
        eapply Hantes; eassumption.
      * apply clasifica_otros.
        intros c0 ps0 [Heq | Hin]; [injection Heq as <- <-; exact Hno|].
        eapply Hnada; eassumption.
Qed.

Lemma recorrerCategorias_antes (texto : js_string)
    (antes despues : list (Categoria * list js_string)) c ps :
  (forall c' ps', In (c', ps') antes -> ~ Coincide texto ps') ->
  Coincide texto ps ->
  recorrerCategorias texto (antes ++ (c, ps) :: despues) = c.
Proof.
  induction antes as [|[c0 ps0] antes IH]; intros Hantes Hsi; simpl.
  - apply existsb_includes in Hsi. now rewrite Hsi.
  - destruct (existsb _ ps0) eqn:E.
    + apply existsb_includes in E. exfalso.
      apply (Hantes c0 ps0); [now left | exact E].
    + apply IH; trivial. intros c' ps' Hin. apply (Hantes c' ps'). now right.
Qed.

Lemma recorrerCategorias_ninguna (texto : js_string)
    (tabla : list (Categoria * list js_string)) :
  (forall c ps, In (c, ps) tabla -> ~ Coincide texto ps) ->
  recorrerCategorias texto tabla = otros.
Proof.
  induction tabla as [|[c ps] tabla IH]; intros Hno; simpl; trivial.
  destruct (existsb _ ps) eqn:E.
  - apply existsb_includes in E. exfalso.
    apply (Hno c ps); [now left | exact E].
  - apply IH. intros c' ps' Hin. apply (Hno c' ps'). now right.
Qed.

Lemma Clasifica_unica (texto : js_string)
    (tabla : list (Categoria * list js_string)) (c : Categoria) :
  Clasifica tabla texto c -> c = recorrerCategorias texto tabla.
Proof.
  intros [antes c' ps despues -> Hsi Hantes | Hnada].
  - symmetry. now apply recorrerCategorias_antes.
  - symmetry. now apply recorrerCategorias_ninguna.
Qed.

(** C8. [clasificarCategoria] is a total function of its string argument.  On
    the lower-cased, trimmed text it returns the category of the first entry,
    in the declared order alimentación, transporte, entretenimiento, servicios,
    salud, ropa, educación, hogar, one of whose keywords is a substring of the
    text, and [otros] when no keyword is; no other category fits that
    description.  The empty string gives [otros].  The keyword 'agua' is in
    the lists of alimentación and of servicios, and a text that contains it
    is classified as alimentación, the earlier of the two. *)
Theorem clasificarCategoria_primera_coincidencia
    (toLowerCase : js_string -> js_string) (descripcion : js_string) :
  let texto := trim (toLowerCase descripcion) in
  map fst categorias
    = [alimentacion; transporte; entretenimiento; servicios; salud; ropa;
       educacion; hogar]
  /\ Clasifica categorias texto (clasificarCategoria toLowerCase descripcion)
  /\ (forall c, Clasifica categorias texto c ->
        c = clasificarCategoria toLowerCase descripcion)
  /\ (texto = [] -> clasificarCategoria toLowerCase descripcion = otros)
  /\ (toLowerCase [] = [] -> clasificarCategoria toLowerCase [] = otros)
  /\ (exists ps1 ps4,
        nth_error categorias 0 = Some (alimentacion, ps1)
        /\ nth_error categorias 3 = Some (servicios, ps4)
        /\ In (utf16 "agua") ps1 /\ In (utf16 "agua") ps4)
  /\ (Subcadena (utf16 "agua") texto ->
        clasificarCategoria toLowerCase descripcion = alimentacion).
Proof.
  intros texto. unfold clasificarCategoria. fold texto.
  split; [reflexivity|].
  split; [apply recorrerCategorias_clasifica|].
  split; [apply Clasifica_unica|].
  split; [intros ->; reflexivity|].
  split; [intros ->; reflexivity|].
  split.
  - eexists; eexists. split; [reflexivity|]. split; [reflexivity|].
    split; vm_compute; tauto.
  - intros Hagua.
    destruct categorias as [|[c ps] resto] eqn:Etabla; [discriminate|].
    injection Etabla as <- <- <-.
    apply (recorrerCategorias_antes texto [] _ alimentacion).
    + intros c' ps' [].
    + exists (utf16 "agua"). split; [vm_compute; tauto | exact Hagua].
Qed.

(** The categorizer run on the empty description and on a description with
    keywords of two categories. *)
Lemma clasificarCategoria_primera_coincidencia_witness :
  clasificarCategoria toLowerCaseLatin1 [] = otros
  /\ clasificarCategoria toLowerCaseLatin1 (utf16 " Recibo de AGUA y luz ")
     = alimentacion.
Proof.
  split.
  - apply (clasificarCategoria_primera_coincidencia toLowerCaseLatin1 []).
    reflexivity.
  - apply (clasificarCategoria_primera_coincidencia toLowerCaseLatin1
             (utf16 " Recibo de AGUA y luz ")).
    exists (utf16 "recibo de "), (utf16 " y luz"). reflexivity.
Defined.

(** ** Amounts *)

Lemma Qle_bool_false (x y : Q) : Qle_bool x y = false -> y < x.
Proof.
  intros H. apply Qnot_le_lt. intros Hle.
  apply Qle_bool_iff in Hle. congruence.
Qed.

Lemma Qmin_casos (x y : Q) :
  (x <= y /\ Qmin x y == x) \/ (y <= x /\ Qmin x y == y).
Proof.
  destruct (Q.min_spec x y) as [[H E] | [H E]].
  - left. split; [now apply Qlt_le_weak | exact E].
  - right. split; assumption.
Qed.

Ltac casos_min x y :=
  let H := fresh "Hmin" in
  let E := fresh "Emin" in
  destruct (Qmin_casos x y) as [[H E] | [H E]].

(** ** The store's updates *)

Lemma incrementar_ids (id : nat) (q : Q) (l : list Meta.t) :
  map Meta._id (incrementar id q l) = map Meta._id l.
Proof.
  induction l as [|m l IH]; simpl; trivial.
  destruct (Meta._id m =? id)%nat; simpl; [reflexivity | now rewrite IH].
Qed.

Lemma incrementar_map (id : nat) (q : Q) (l : list Meta.t) :
  NoDup (map Meta._id l) ->
  incrementar id q l
  = map (fun m => if (Meta._id m =? id)%nat
                  then Meta.conMontoActual m (Meta.montoActual m + q)
                  else m) l.
Proof.
  induction l as [|m l IH]; simpl; intros Hnd; trivial.
  inversion Hnd as [|x xs Hnotin Hnd']; subst.
  destruct (Meta._id m =? id)%nat eqn:E.
  - f_equal. apply Nat.eqb_eq in E. subst id.
    clear IH Hnd Hnd'. induction l as [|x l IH]; simpl; trivial.
    simpl in Hnotin.
    destruct (Meta._id x =? Meta._id m)%nat eqn:E.
    + apply Nat.eqb_eq in E. exfalso. apply Hnotin. now left.
    + f_equal. apply IH. intros H. apply Hnotin. now right.
  - f_equal. now apply IH.
Qed.

Lemma buscarAporte_None (id : nat) (incs : list (nat * Q)) :
  ~ In id (map fst incs) -> buscarAporte id incs = None.
Proof.
  induction incs as [|[i q] incs IH]; simpl; intros H; trivial.
  destruct (i =? id)%nat eqn:E.
  - apply Nat.eqb_eq in E. exfalso. apply H. now left.
  - apply IH. intros Hin. apply H. now right.
Qed.

Lemma buscarAporte_In (id : nat) (q : Q) (incs : list (nat * Q)) :
  buscarAporte id incs = Some q -> In (id, q) incs.
Proof.
  induction incs as [|[i q'] incs IH]; simpl; [discriminate|].
  destruct (i =? id)%nat eqn:E.
  - apply Nat.eqb_eq in E. intros [= ->]. left. now subst.
  - intros H. right. now apply IH.
Qed.

(** With distinct [_id]s, applying the updates one after the other is updating
    every document once. *)
Lemma aplicar_map (incs : list (nat * Q)) (l : list Meta.t) :
  NoDup (map Meta._id l) ->
  NoDup (map fst incs) ->
  aplicar incs l = map (actualizarCon incs) l.
Proof.
  revert l; induction incs as [|[i q] incs IH]; intros l Hl Hincs; simpl.
  - unfold actualizarCon. simpl. now rewrite map_id.
  - inversion Hincs as [|x xs Hnotin Hincs']; subst.
    rewrite IH; [| now rewrite incrementar_ids | assumption].
    rewrite incrementar_map by assumption. rewrite map_map.
    apply map_ext. intros m. unfold actualizarCon. simpl.
    rewrite (Nat.eqb_sym i).
    destruct (Meta._id m =? i)%nat eqn:E.
    + apply Nat.eqb_eq in E. destruct m; simpl in *. subst i.
      now rewrite (buscarAporte_None _ _ Hnotin).
    + reflexivity.
Qed.

(** ** The loop as a list of updates *)

Lemma hastaFallo_prefijo (fallos : Fallos) (incs : list (nat * Q)) :
  exists resto, incs = fst (hastaFallo fallos incs) ++ resto.
Proof.
  induction incs as [|[i q] incs [resto IH]]; simpl.
  - now exists [].
  - destruct (fallos (OpMetaFindByIdAndUpdate i)).
    + now eexists.
    + destruct (hastaFallo fallos incs) as [p e]. simpl in *.
      exists resto. now rewrite IH at 1.
Qed.

(** The loop performs the updates [aportes] up to the first one that
    rejects, and throws that one's error. *)
Lemma distribuir_traza (fallos : Fallos) (l : list Meta.t) (pool : Q)
    (bd : BD) :
  distribuir fallos pool l bd
  = (match snd (hastaFallo fallos (aportes pool l)) with
     | None => Resuelve tt
     | Some e => Rechaza e
     end,
     mkBD (aplicar (fst (hastaFallo fallos (aportes pool l))) (metas bd))
          (transacciones bd) (consola bd)).
Proof.
  revert pool bd; induction l as [|m l IH]; intros pool bd; simpl.
  - now destruct bd.
  - destruct (Qle_bool pool 0); [now destruct bd|].
    fold (capacidad m).
    destruct (Qle_bool (capacidad m) 0); [apply IH|].
    simpl. unfold bind, Meta_findByIdAndUpdate_inc, bind, esperar.
    destruct (fallos (OpMetaFindByIdAndUpdate (Meta._id m))) as [e|].
    + simpl. now destruct bd.
    + simpl. rewrite IH. simpl.
      now destruct (hastaFallo fallos _) as [p e].
Qed.

Lemma aportes_en_lista (l : list Meta.t) (pool : Q) (i : nat) (q : Q) :
  In (i, q) (aportes pool l) ->
  exists g, In g l /\ Meta._id g = i /\ 0 < q /\ q <= capacidad g.
Proof.
  revert pool; induction l as [|m l IH]; intros pool; simpl; [contradiction|].
  destruct (Qle_bool pool 0) eqn:Ep; [contradiction|].
  destruct (Qle_bool (capacidad m) 0) eqn:Ec.
  - intros H. destruct (IH _ H) as [g [Hg H']]. exists g. tauto.
  - intros [[= <- <-] | H].
    + exists m. split; [now left|]. split; [reflexivity|].
      apply Qle_bool_false in Ep. apply Qle_bool_false in Ec.
      casos_min pool (capacidad m); lra.
    + destruct (IH _ H) as [g [Hg H']]. exists g. tauto.
Qed.

Lemma aportes_ids_NoDup (l : list Meta.t) (pool : Q) :
  NoDup (map Meta._id l) -> NoDup (map fst (aportes pool l)).
Proof.
  revert pool; induction l as [|m l IH]; intros pool Hnd; simpl.
  - constructor.
  - inversion Hnd as [|x xs Hnotin Hnd']; subst.
    destruct (Qle_bool pool 0); [constructor|].
    destruct (Qle_bool (capacidad m) 0); [now apply IH|].
    simpl. constructor; [|now apply IH].
    intros Hin. apply in_map_iff in Hin. destruct Hin as [[i q] [Hi Hin]].
    simpl in Hi. subst i.
    destruct (aportes_en_lista _ _ _ _ Hin) as [g [Hg [Hid _]]].
    apply Hnotin. rewrite <- Hid. now apply in_map.
Qed.


Lemma buscarMeta_map (f : Meta.t -> Meta.t) (l : list Meta.t) (g : Meta.t) :
  (forall m, Meta._id (f m) = Meta._id m) ->
  NoDup (map Meta._id l) ->
  In g l ->
  buscarMeta (Meta._id g) (map f l) = Some (f g).
Proof.
  intros Hf. unfold buscarMeta.
  induction l as [|m l IH]; simpl; intros Hnd Hin; [contradiction|].
  inversion Hnd as [|x xs Hnotin Hnd']; subst. rewrite Hf.
  destruct Hin as [-> | Hin].
  - now rewrite Nat.eqb_refl.
  - destruct (Meta._id m =? Meta._id g)%nat eqn:E.
    + apply Nat.eqb_eq in E. exfalso. apply Hnotin. rewrite E.
      now apply in_map.
    + now apply IH.
Qed.

Lemma actualizarCon_id (incs : list (nat * Q)) (m : Meta.t) :
  Meta._id (actualizarCon incs m) = Meta._id m.
Proof. unfold actualizarCon. now destruct (buscarAporte _ incs). Qed.

Lemma mismo_id_misma_meta (l : list Meta.t) (a b : Meta.t) :
  NoDup (map Meta._id l) -> In a l -> In b l ->
  Meta._id a = Meta._id b -> a = b.
Proof.
  induction l as [|m l IH]; simpl; intros Hnd Ha Hb Hid; [contradiction|].
  inversion Hnd as [|x xs Hnotin Hnd']; subst.
  destruct Ha as [-> | Ha], Hb as [-> | Hb]; trivial.
  - exfalso. apply Hnotin. rewrite Hid. now apply in_map.
  - exfalso. apply Hnotin. rewrite <- Hid. now apply in_map.
  - now apply IH.
Qed.

(** ** The sort *)

Lemma insertar_perm (m : Meta.t) (l : list Meta.t) :
  Permutation (insertar m l) (m :: l).
Proof.
  induction l as [|x l IH]; simpl; [reflexivity|].
  destruct (noDespues m x); [reflexivity|].
  rewrite IH. apply perm_swap.
Qed.

Lemma ordenar_perm (l : list Meta.t) : Permutation (ordenar l) l.
Proof.
  induction l as [|m l IH]; simpl; [reflexivity|].
  rewrite insertar_perm. now constructor.
Qed.

Lemma compararPrioridad_rango (a b : Prioridad) :
  String.compare (valorPrioridad b) (valorPrioridad a)
  = Nat.compare (rangoAlmacen a) (rangoAlmacen b).
Proof. destruct a, b; reflexivity. Qed.


(** ** The allocator *)

Lemma filter_ids_NoDup (f : Meta.t -> bool) (l : list Meta.t) :
  NoDup (map Meta._id l) -> NoDup (map Meta._id (filter f l)).
Proof.
  induction l as [|m l IH]; simpl; intros Hnd; [constructor|].
  inversion Hnd as [|x xs Hnotin Hnd']; subst.
  destruct (f m); simpl; [|now apply IH].
  constructor; [|now apply IH].
  intros Hin. apply Hnotin. apply in_map_iff in Hin.
  destruct Hin as [g [Hid Hg]]. apply filter_In in Hg.
  rewrite <- Hid. apply in_map. tauto.
Qed.

Lemma metasProcesadas_perm (u : nat) (bd : BD) :
  Permutation (metasProcesadas u bd) (filter (esActivaDe u) (metas bd)).
Proof. apply ordenar_perm. Qed.

Lemma metasProcesadas_In (u : nat) (bd : BD) (g : Meta.t) :
  In g (metasProcesadas u bd) ->
  In g (metas bd) /\ esActivaDe u g = true.
Proof.
  intros H. apply (Permutation_in _ (metasProcesadas_perm u bd)) in H.
  now apply filter_In in H.
Qed.

Lemma metasProcesadas_NoDup (u : nat) (bd : BD) :
  NoDup (map Meta._id (metas bd)) ->
  NoDup (map Meta._id (metasProcesadas u bd)).
Proof.
  intros H. eapply Permutation_NoDup.
  - apply Permutation_map. symmetry. apply metasProcesadas_perm.
  - now apply filter_ids_NoDup.
Qed.

(** One run of the allocator: it resolves; when the query rejects nothing is
    updated; otherwise the updates of the loop are applied up to the first one
    that rejects; an error is written to the console. *)
Lemma actualizarMetasConIngreso_traza (fallos : Fallos) (u : nat) (m : Q)
    (bd : BD) :
  actualizarMetasConIngreso fallos u m bd
  = match fallos (OpMetaFind u) with
    | Some e =>
        (Resuelve tt,
         mkBD (metas bd) (transacciones bd)
              (consola bd ++ [("Error actualizando metas:"%string, e)]))
    | None =>
        let r := hastaFallo fallos (aportes (m * (1 # 10))
                                      (metasProcesadas u bd)) in
        (Resuelve tt,
         mkBD (aplicar (fst r) (metas bd)) (transacciones bd)
              (match snd r with
               | None => consola bd
               | Some e =>
                   consola bd ++ [("Error actualizando metas:"%string, e)]
               end))
    end.
Proof.
  unfold actualizarMetasConIngreso, tryCatch, bind, Meta_find_activas, bind,
    esperar.
  destruct (fallos (OpMetaFind u)) as [e|]; simpl; [reflexivity|].
  rewrite distribuir_traza. fold (metasProcesadas u bd).
  destruct (hastaFallo fallos _) as [p [e|]]; reflexivity.
Qed.

Lemma prefijo_NoDup (A : Type) (xs ys : list A) :
  NoDup (xs ++ ys) -> NoDup xs.
Proof.
  induction xs as [|x xs IH]; simpl; intros H; [constructor|].
  inversion H as [|z zs Hnotin Hnd]; subst. constructor; [|now apply IH].
  intros Hin. apply Hnotin. apply in_or_app. now left.
Qed.

Lemma hastaFallo_In (fallos : Fallos) (incs : list (nat * Q)) x :
  In x (fst (hastaFallo fallos incs)) -> In x incs.
Proof.
  destruct (hastaFallo_prefijo fallos incs) as [resto H].
  intros Hin. rewrite H. apply in_or_app. now left.
Qed.

Lemma hastaFallo_NoDup (fallos : Fallos) (incs : list (nat * Q)) :
  NoDup (map fst incs) -> NoDup (map fst (fst (hastaFallo fallos incs))).
Proof.
  destruct (hastaFallo_prefijo fallos incs) as [resto H].
  intros Hnd. rewrite H, map_app in Hnd. now apply prefijo_NoDup in Hnd.
Qed.

(** The goals of the store after a run, whatever calls reject. *)
Lemma metas_tras_asignacion (fallos : Fallos) (u : nat) (m : Q) (bd : BD) :
  NoDup (map Meta._id (metas bd)) ->
  exists incs,
    metas (snd (actualizarMetasConIngreso fallos u m bd))
    = map (actualizarCon incs) (metas bd)
    /\ (forall x, In x incs ->
                  In x (aportes (m * (1 # 10)) (metasProcesadas u bd))).
Proof.
  intros Hnd. rewrite actualizarMetasConIngreso_traza.
  destruct (fallos (OpMetaFind u)); simpl.
  - exists []. split; [|intros x []].
    unfold actualizarCon. simpl. now rewrite map_id.
  - eexists. split.
    + apply aplicar_map; trivial. apply hastaFallo_NoDup.
      apply aportes_ids_NoDup. now apply metasProcesadas_NoDup.
    + apply hastaFallo_In.
Qed.


(** A run of the allocator writes no transaction. *)
Lemma asignacion_sin_transacciones (fallos : Fallos) (u : nat) (m : Q)
    (bd : BD) :
  transacciones (snd (actualizarMetasConIngreso fallos u m bd))
  = transacciones bd.
Proof.
  rewrite actualizarMetasConIngreso_traza.
  now destruct (fallos (OpMetaFind u)).
Qed.

Lemma Forall2_map_derecha (A : Type) (R : A -> A -> Prop) (f : A -> A)
    (l : list A) :
  (forall x, In x l -> R x (f x)) -> Forall2 R l (map f l).
Proof.
  induction l as [|x l IH]; simpl; intros H; constructor.
  - apply H. now left.
  - apply IH. intros y Hy. apply H. now right.
Qed.

(** C6. A run of the allocator, whatever calls reject, leaves the collection
    of transactions as it was, and changes nothing in the collection of goals
    but the field [montoActual] of active goals of the user: every document
    keeps its place and all its other fields, [estado] among them, and the
    documents that are not active goals of the user are unchanged.  In
    particular every active goal of the user is, after the run, the same
    document but for its current amount, with [estado] still ['activa'],
    whatever amount it has received. *)
Theorem asignacion_solo_montoActual (fallos : Fallos) (usuarioId : nat)
    (montoIngreso : Q) (bd : BD) :
  NoDup (map Meta._id (metas bd)) ->
  let bd' := snd (actualizarMetasConIngreso fallos usuarioId montoIngreso bd) in
  transacciones bd' = transacciones bd
  /\ Forall2 (fun g g' =>
                Meta.conMontoActual g' (Meta.montoActual g) = g
                /\ (esActivaDe usuarioId g = false -> g' = g))
       (metas bd) (metas bd')
  /\ map Meta.estado (metas bd') = map Meta.estado (metas bd)
  /\ (forall g,
        In g (metas bd) ->
        esActivaDe usuarioId g = true ->
        exists g',
          buscarMeta (Meta._id g) (metas bd') = Some g'
          /\ Meta.conMontoActual g' (Meta.montoActual g) = g
          /\ Meta.estado g' = activa).
Proof.
  intros Hnd bd'. split; [|split; [|split]].
  - subst bd'. rewrite actualizarMetasConIngreso_traza.
    now destruct (fallos (OpMetaFind usuarioId)).
  - subst bd'.
    destruct (metas_tras_asignacion fallos usuarioId montoIngreso bd Hnd)
      as [incs [-> Hincs]].
    apply Forall2_map_derecha. intros g Hg. unfold actualizarCon.
    destruct (buscarAporte (Meta._id g) incs) as [q|] eqn:E.
    + split; [now destruct g|]. intros Hno.
      apply buscarAporte_In, Hincs, aportes_en_lista in E.
      destruct E as [g0 [Hg0 [Hid _]]].
      apply metasProcesadas_In in Hg0. destruct Hg0 as [Hg0 Hact].
      assert (g0 = g) by (eapply mismo_id_misma_meta; eassumption).
      subst g0. congruence.
    + split; [now destruct g | reflexivity].
  - subst bd'.
    destruct (metas_tras_asignacion fallos usuarioId montoIngreso bd Hnd)
      as [incs [-> _]].
    rewrite map_map. apply map_ext. intros g. unfold actualizarCon.
    now destruct (buscarAporte (Meta._id g) incs).
  - intros g Hg Hact. subst bd'.
    destruct (metas_tras_asignacion fallos usuarioId montoIngreso bd Hnd)
      as [incs [-> _]].
    exists (actualizarCon incs g).
    split; [apply buscarMeta_map; trivial; apply actualizarCon_id|].
    unfold esActivaDe in Hact. apply andb_true_iff in Hact.
    destruct Hact as [_ Hest].
    unfold actualizarCon.
    destruct (buscarAporte (Meta._id g) incs) as [q|]; simpl;
      (split; [now destruct g | now destruct (Meta.estado g)]).
Qed.

(** ** The routes of the transactions *)

Lemma actualizarMetasConIngreso_resuelve (fallos : Fallos) (u : nat) (m : Q)
    (bd : BD) :
  fst (actualizarMetasConIngreso fallos u m bd) = Resuelve tt.
Proof.
  rewrite actualizarMetasConIngreso_traza.
  now destruct (fallos (OpMetaFind u)).
Qed.

Lemma validacionTransaccion_tipo isLength (cuerpo c : CuerpoTransaccion) :
  validacionTransaccion isLength cuerpo = Some c ->
  c_tipo c = c_tipo cuerpo /\ c_monto c = c_monto cuerpo
  /\ c_descripcion c = trim (c_descripcion cuerpo)
  /\ c_categoria c = c_categoria cuerpo
  /\ c_subcategoria c = c_subcategoria cuerpo
  /\ c_activa c = c_activa cuerpo
  /\ c_usuario c = c_usuario cuerpo
  /\ 1 # 100 <= c_monto cuerpo.
Proof.
  unfold validacionTransaccion.
  destruct (isLength _ 3%nat 200%nat); simpl; [|discriminate].
  destruct (Qle_bool (1 # 100) (c_monto cuerpo)) eqn:E; [|discriminate].
  intros [= <-]. simpl. apply Qle_bool_iff in E. tauto.
Qed.

(** The answer of [POST /] to a valid body when the save and the populate
    resolve. *)
Lemma crearTransaccion_creada (toLowerCase : js_string -> js_string)
    (isLength : js_string -> nat -> nat -> bool) (fallos : Fallos)
    (u : nat) (cuerpo c : CuerpoTransaccion) (bd : BD) :
  validacionTransaccion isLength cuerpo = Some c ->
  let t := Transaccion.mk (nuevoId (transacciones bd)) u (c_tipo c)
             (trim (c_descripcion c)) (c_monto c)
             (categoriaFinal toLowerCase c)
             (option_map trim (c_subcategoria c))
             (activaInicial (c_activa c)) in
  let guardada := mkBD (metas bd) (transacciones bd ++ [t]) (consola bd) in
  Transaccion.valida t = true ->
  fallos OpTransaccionSave = None ->
  fallos OpTransaccionPopulate = None ->
  crearTransaccion toLowerCase isLength fallos u cuerpo bd
  = (Resuelve
       (mkRespuesta 201 (JTransaccion "Transacción creada exitosamente" t)),
     if tipo_eqb (c_tipo c) ingreso
     then snd (actualizarMetasConIngreso fallos u (c_monto c) guardada)
     else guardada).
Proof.
  intros Hval t guardada Hvalida Hsave Hpop.
  unfold crearTransaccion, tryCatch. rewrite Hval.
  unfold bind at 1. unfold Transaccion_new. unfold bind at 1.
  fold t. unfold Transaccion_save. rewrite Hvalida.
  unfold bind at 1. unfold esperar at 1. rewrite Hsave.
  unfold ret at 1. fold guardada. unfold bind at 1.
  change (Transaccion.tipo t) with (c_tipo c).
  destruct (tipo_eqb (c_tipo c) ingreso).
  - pose proof (actualizarMetasConIngreso_resuelve fallos u (c_monto c)
                  guardada) as Hres.
    change (Transaccion.monto t) with (c_monto c).
    destruct (actualizarMetasConIngreso fallos u (c_monto c) guardada)
      as [r bd'].
    simpl in Hres. subst r. simpl.
    unfold bind, esperar. rewrite Hpop. reflexivity.
  - unfold ret at 1. unfold bind, esperar. rewrite Hpop. reflexivity.
Qed.

Lemma actualizarTransaccion_metas (toLowerCase : js_string -> js_string)
    (isLength : js_string -> nat -> nat -> bool) (fallos : Fallos)
    (u id : nat) (cuerpo : CuerpoTransaccion) (bd : BD) :
  metas (snd (actualizarTransaccion toLowerCase isLength fallos u id cuerpo bd))
  = metas bd.
Proof.
  unfold actualizarTransaccion, tryCatch, bind,
    Transaccion_findOneAndUpdate, bind, esperar, console_error, lanzar, ret.
  destruct (validacionTransaccion isLength cuerpo) as [c|]; simpl;
    [|reflexivity].
  destruct (Transaccion.valida _); simpl; [|reflexivity].
  destruct (fallos (OpTransaccionFindOneAndUpdate id)) as [e|]; simpl.
  - now destruct e.
  - destruct (actualizarPrimera _ _ _ _) as [[t|] ts]; simpl;
      [|reflexivity].
    destruct (fallos OpTransaccionPopulate) as [e|]; simpl;
      [now destruct e | reflexivity].
Qed.

Lemma crearTransaccion_gasto_metas (toLowerCase : js_string -> js_string)
    (isLength : js_string -> nat -> nat -> bool) (fallos : Fallos)
    (u : nat) (cuerpo : CuerpoTransaccion) (bd : BD) :
  c_tipo cuerpo = gasto ->
  metas (snd (crearTransaccion toLowerCase isLength fallos u cuerpo bd))
  = metas bd.
Proof.
  intros Htipo.
  unfold crearTransaccion, tryCatch, bind, Transaccion_new,
    Transaccion_save, bind, esperar, console_error, lanzar, ret.
  destruct (validacionTransaccion isLength cuerpo) as [c|] eqn:Hval; simpl;
    [|reflexivity].
  destruct (validacionTransaccion_tipo _ _ _ Hval) as [Ht _].
  rewrite Htipo in Ht.
  destruct (Transaccion.valida _); simpl; [|reflexivity].
  destruct (fallos OpTransaccionSave) as [e|]; simpl; [now destruct e|].
  rewrite Ht. simpl.
  destruct (fallos OpTransaccionPopulate) as [e|]; simpl;
    [now destruct e | reflexivity].
Qed.

(** C10. [PUT /:id] leaves the collection of goals as it was, for every
    request, store and pattern of rejected calls, also when the body's [tipo]
    is ['ingreso']; so does [POST /] for a body whose [tipo] is ['gasto'].
    [POST /] for a valid body whose [tipo] is ['ingreso'], when the save and
    the populate resolve, leaves the goals as a run of the allocator on the
    saved amount leaves them. *)
Theorem actualizar_transaccion_no_asigna
    (toLowerCase : js_string -> js_string)
    (isLength : js_string -> nat -> nat -> bool) (fallos : Fallos)
    (usuarioId id : nat) (cuerpo : CuerpoTransaccion) (bd : BD) :
  metas (snd (actualizarTransaccion toLowerCase isLength fallos usuarioId id
                cuerpo bd))
  = metas bd
  /\ (c_tipo cuerpo = gasto ->
      metas (snd (crearTransaccion toLowerCase isLength fallos usuarioId
                    cuerpo bd))
      = metas bd)
  /\ (forall c,
        validacionTransaccion isLength cuerpo = Some c ->
        c_tipo cuerpo = ingreso ->
        let t := Transaccion.mk (nuevoId (transacciones bd)) usuarioId
                   ingreso (trim (c_descripcion c)) (c_monto cuerpo)
                   (categoriaFinal toLowerCase c)
             (option_map trim (c_subcategoria c))
             (activaInicial (c_activa c)) in
        Transaccion.valida t = true ->
        fallos OpTransaccionSave = None ->
        fallos OpTransaccionPopulate = None ->
        metas (snd (crearTransaccion toLowerCase isLength fallos usuarioId
                      cuerpo bd))
        = metas (snd (actualizarMetasConIngreso fallos usuarioId
                        (c_monto cuerpo)
                        (mkBD (metas bd) (transacciones bd ++ [t])
                              (consola bd))))).
Proof.
  split; [apply actualizarTransaccion_metas|].
  split; [apply crearTransaccion_gasto_metas|].
  intros c Hval Htipo t Hvalida Hsave Hpop.
  destruct (validacionTransaccion_tipo _ _ _ Hval) as [Ht [Hm _]].
  rewrite Htipo in Ht.
  pose proof (crearTransaccion_creada toLowerCase isLength fallos
                usuarioId cuerpo c bd Hval) as H.
  rewrite Ht, Hm in H. fold t in H.
  rewrite (H Hvalida Hsave Hpop). reflexivity.
Qed.

(** ** The manual contribution *)

Lemma validacionAporte_admisible isLength (cuerpo : CuerpoAporte) :
  1 # 100 <= a_monto cuerpo ->
  descripcionAdmisible isLength cuerpo ->
  validacionAporte isLength cuerpo
  = Some (mkCuerpoAporte (a_monto cuerpo)
            (option_map trim (a_descripcion cuerpo))).
Proof.
  intros Hm Hd. unfold validacionAporte. apply Qle_bool_iff in Hm.
  rewrite Hm. unfold descripcionAdmisible in Hd.
  destruct (a_descripcion cuerpo); simpl in *; [now rewrite Hd | reflexivity].
Qed.

Lemma trimStart_In (c : N) (s : js_string) :
  In c s -> esEspacio c = false -> In c (trimStart s).
Proof.
  induction s as [|a s IH]; simpl; intros Hin Hc; [contradiction|].
  destruct (esEspacio a) eqn:Ea.
  - destruct Hin as [-> | Hin]; [congruence | now apply IH].
  - exact Hin.
Qed.

Lemma trim_In (c : N) (s : js_string) :
  In c s -> esEspacio c = false -> In c (trim s).
Proof.
  intros Hin Hc. unfold trim, trimEnd.
  apply in_rev. rewrite rev_involutive.
  apply trimStart_In; trivial. apply -> in_rev.
  now apply trimStart_In.
Qed.



Lemma nuevoId_fresco (l : list Transaccion.t) :
  ~ In (nuevoId l) (map Transaccion._id l).
Proof.
  unfold nuevoId.
  assert (H : forall x, In x (map Transaccion._id l) ->
                        (x <= fold_right Nat.max 0 (map Transaccion._id l))%nat).
  { induction l as [|t l IH]; simpl; intros x Hx; [contradiction|].
    destruct Hx as [-> | Hx]; [lia|]. specialize (IH x Hx). lia. }
  intros Hin. apply H in Hin. lia.
Qed.


(** ** The development on the sample data *)

Lemma ejemplo_ids : NoDup (map Meta._id (metas Ejemplo.bd)).
Proof.
  simpl. repeat (apply NoDup_cons; [simpl; lia|]). apply NoDup_nil.
Qed.

Lemma sinFallos_ninguno (op : Operacion) : sinFallos op = None.
Proof. reflexivity. Qed.

Lemma actualizar_transaccion_no_asigna_witness :
  metas (snd (actualizarTransaccion toLowerCaseLatin1 isLengthUnidades
                sinFallos 9 1 Ejemplo.sueldo Ejemplo.bd))
  = metas Ejemplo.bd
  /\ metas (snd (crearTransaccion toLowerCaseLatin1 isLengthUnidades
                   sinFallos 9 Ejemplo.compra Ejemplo.bd))
     = metas Ejemplo.bd
  /\ metas (snd (crearTransaccion toLowerCaseLatin1 isLengthUnidades
                   sinFallos 9 Ejemplo.sueldo Ejemplo.bd))
     <> metas Ejemplo.bd.
Proof.
  destruct (actualizar_transaccion_no_asigna toLowerCaseLatin1
              isLengthUnidades sinFallos 9 1 Ejemplo.sueldo Ejemplo.bd)
    as [H1 [_ H3]].
  destruct (actualizar_transaccion_no_asigna toLowerCaseLatin1
              isLengthUnidades sinFallos 9 1 Ejemplo.compra Ejemplo.bd)
    as [_ [H2 _]].
  split; [exact H1|]. split; [apply H2; reflexivity|].
  rewrite (H3 (mkCuerpoTransaccion ingreso (utf16 "Sueldo de marzo") 500 None
                 None None None))
    by reflexivity.
  vm_compute. discriminate.
Defined.

Lemma asignacion_solo_montoActual_witness :
  transacciones (snd (actualizarMetasConIngreso sinFallos 9 500 Ejemplo.bd))
  = transacciones Ejemplo.bd
  /\ map Meta.estado
       (metas (snd (actualizarMetasConIngreso sinFallos 9 500 Ejemplo.bd)))
     = map Meta.estado (metas Ejemplo.bd)
  /\ exists g',
       buscarMeta 5
         (metas (snd (actualizarMetasConIngreso sinFallos 9 500 Ejemplo.bd)))
       = Some g'
       /\ Meta.conMontoActual g' (Meta.montoActual Ejemplo.metaCasiLlena)
          = Ejemplo.metaCasiLlena
       /\ Meta.estado g' = activa.
Proof.
  destruct (asignacion_solo_montoActual sinFallos 9 500 Ejemplo.bd
              ejemplo_ids) as [H1 [_ [H3 H4]]].
  split; [exact H1|]. split; [exact H3|].
  apply (H4 Ejemplo.metaCasiLlena).
  - simpl. tauto.
  - reflexivity.
Defined.

(** ** More on the allocator *)






(** ** More on the manual contribution *)

Lemma find_ninguno (A : Type) (p : A -> bool) (l : list A) :
  (forall x, In x l -> p x = false) -> find p l = None.
Proof.
  induction l as [|x l IH]; simpl; intros H; trivial.
  rewrite (H x) by now left. apply IH. intros y Hy. apply H. now right.
Qed.

(** The run of [POST /:id/agregar] when no active goal of the caller has the
    given [_id]. *)
Lemma agregarDinero_sin_meta (isLength : js_string -> nat -> nat -> bool)
    (fallos : Fallos) (u id : nat) (cuerpo : CuerpoAporte) (bd : BD) :
  1 # 100 <= a_monto cuerpo ->
  descripcionAdmisible isLength cuerpo ->
  fallos (OpMetaFindOne id) = None ->
  find (fun m => (Meta._id m =? id)%nat && esActivaDe u m) (metas bd) = None ->
  agregarDinero isLength fallos u id cuerpo bd
  = (Resuelve (mkRespuesta 404 (JError "Meta activa no encontrada")), bd).
Proof.
  intros Hm Hd Hfind Hnone. unfold agregarDinero, tryCatch.
  rewrite (validacionAporte_admisible _ _ Hm Hd). simpl.
  unfold bind at 1. unfold Meta_findOne_activa, bind, esperar.
  rewrite Hfind. simpl. now rewrite Hnone.
Qed.


(** ** More on the routes of the transactions *)

(** [POST /] for a body that does not pass the chain of validators. *)
Lemma crearTransaccion_invalida (toLowerCase : js_string -> js_string)
    (isLength : js_string -> nat -> nat -> bool) (fallos : Fallos)
    (u : nat) (cuerpo : CuerpoTransaccion) (bd : BD) :
  validacionTransaccion isLength cuerpo = None ->
  crearTransaccion toLowerCase isLength fallos u cuerpo bd
  = (Resuelve (mkRespuesta 400 (JErrorDetalles "Datos inválidos")), bd).
Proof.
  intros Hval. unfold crearTransaccion, tryCatch. now rewrite Hval.
Qed.

(** [POST /] when the save throws. *)
Lemma crearTransaccion_no_guardada (toLowerCase : js_string -> js_string)
    (isLength : js_string -> nat -> nat -> bool) (fallos : Fallos)
    (u : nat) (cuerpo c : CuerpoTransaccion) (bd : BD) :
  validacionTransaccion isLength cuerpo = Some c ->
  let t := Transaccion.mk (nuevoId (transacciones bd)) u (c_tipo c)
             (trim (c_descripcion c)) (c_monto c)
             (categoriaFinal toLowerCase c)
             (option_map trim (c_subcategoria c))
             (activaInicial (c_activa c)) in
  forall e,
    (Transaccion.valida t = false /\ e = ValidationError)
    \/ (Transaccion.valida t = true /\ fallos OpTransaccionSave = Some e) ->
    crearTransaccion toLowerCase isLength fallos u cuerpo bd
    = (Resuelve (respuestaError e),
       conConsola bd "Error creando transacción:" e).
Proof.
  intros Hval t e Hcaso.
  unfold crearTransaccion, tryCatch. rewrite Hval.
  unfold bind at 1. unfold Transaccion_new. unfold bind at 1.
  fold t. unfold Transaccion_save.
  destruct Hcaso as [[Hno ->] | [Hsi Hsave]].
  - rewrite Hno. reflexivity.
  - rewrite Hsi. unfold bind at 1. unfold esperar at 1. rewrite Hsave.
    unfold lanzar. now destruct e.
Qed.

(** [POST /] when the save resolves. *)
Lemma crearTransaccion_guardada (toLowerCase : js_string -> js_string)
    (isLength : js_string -> nat -> nat -> bool) (fallos : Fallos)
    (u : nat) (cuerpo c : CuerpoTransaccion) (bd : BD) :
  validacionTransaccion isLength cuerpo = Some c ->
  let t := Transaccion.mk (nuevoId (transacciones bd)) u (c_tipo c)
             (trim (c_descripcion c)) (c_monto c)
             (categoriaFinal toLowerCase c)
             (option_map trim (c_subcategoria c))
             (activaInicial (c_activa c)) in
  let guardada := mkBD (metas bd) (transacciones bd ++ [t]) (consola bd) in
  let despues :=
    if tipo_eqb (c_tipo c) ingreso
    then snd (actualizarMetasConIngreso fallos u (c_monto c) guardada)
    else guardada in
  Transaccion.valida t = true ->
  fallos OpTransaccionSave = None ->
  crearTransaccion toLowerCase isLength fallos u cuerpo bd
  = match fallos OpTransaccionPopulate with
    | None =>
        (Resuelve
           (mkRespuesta 201
              (JTransaccion "Transacción creada exitosamente" t)),
         despues)
    | Some e =>
        (Resuelve (respuestaError e),
         conConsola despues "Error creando transacción:" e)
    end.
Proof.
  intros Hval t guardada despues Hvalida Hsave.
  unfold crearTransaccion, tryCatch. rewrite Hval.
  unfold bind at 1. unfold Transaccion_new. unfold bind at 1.
  fold t. unfold Transaccion_save. rewrite Hvalida.
  unfold bind at 1. unfold esperar at 1. rewrite Hsave.
  unfold ret at 1. fold guardada. unfold bind at 1.
  change (Transaccion.tipo t) with (c_tipo c).
  subst despues.
  destruct (tipo_eqb (c_tipo c) ingreso).
  - pose proof (actualizarMetasConIngreso_resuelve fallos u (c_monto c)
                  guardada) as Hres.
    change (Transaccion.monto t) with (c_monto c).
    destruct (actualizarMetasConIngreso fallos u (c_monto c) guardada)
      as [r bd'].
    simpl in Hres. subst r. simpl.
    unfold bind, esperar.
    destruct (fallos OpTransaccionPopulate) as [e|]; [|reflexivity].
    now destruct e.
  - unfold ret at 1. unfold bind, esperar.
    destruct (fallos OpTransaccionPopulate) as [e|]; [|reflexivity].
    now destruct e.
Qed.

(** [POST /] always answers, and it stores one transaction or nothing.
    Either the collections of transactions and of goals are left as they were
    and the answer is 400 or 500; or exactly one transaction is added, valid,
    of the caller and with a fresh [_id], with the [activa] that the body
    gives and active when the body gives none.  Goals are funded only in the
    second case. *)
Theorem crearTransaccion_guarda_o_nada (toLowerCase : js_string -> js_string)
    (isLength : js_string -> nat -> nat -> bool) (fallos : Fallos)
    (usuarioId : nat) (cuerpo : CuerpoTransaccion) (bd : BD) :
  let r := crearTransaccion toLowerCase isLength fallos usuarioId cuerpo bd in
  exists respuesta,
    fst r = Resuelve respuesta
    /\ ((transacciones (snd r) = transacciones bd
         /\ metas (snd r) = metas bd
         /\ (status respuesta = 400 \/ status respuesta = 500)%nat)
        \/ exists t,
             transacciones (snd r) = transacciones bd ++ [t]
             /\ Transaccion.usuario t = usuarioId
             /\ Transaccion.activa t = activaInicial (c_activa cuerpo)
             /\ Transaccion.valida t = true
             /\ ~ In (Transaccion._id t)
                     (map Transaccion._id (transacciones bd))
             /\ (status respuesta = 201 \/ status respuesta = 400
                 \/ status respuesta = 500)%nat).
Proof.
  intros r. subst r.
  destruct (validacionTransaccion isLength cuerpo) as [c|] eqn:Hval.
  2:{ rewrite crearTransaccion_invalida by assumption.
      eexists. split; [reflexivity|]. left. simpl. tauto. }
  set (t := Transaccion.mk (nuevoId (transacciones bd)) usuarioId (c_tipo c)
              (trim (c_descripcion c)) (c_monto c)
              (categoriaFinal toLowerCase c)
              (option_map trim (c_subcategoria c))
              (activaInicial (c_activa c))).
  destruct (Transaccion.valida t) eqn:Hvalida.
  2:{ rewrite (crearTransaccion_no_guardada toLowerCase isLength fallos
                 usuarioId cuerpo c bd Hval ValidationError)
        by (left; split; [exact Hvalida | reflexivity]).
      eexists. split; [reflexivity|]. left. simpl. tauto. }
  destruct (fallos OpTransaccionSave) as [e|] eqn:Hsave.
  { rewrite (crearTransaccion_no_guardada toLowerCase isLength fallos
               usuarioId cuerpo c bd Hval e)
      by (right; split; assumption).
    eexists. split; [reflexivity|]. left. simpl.
    repeat split; trivial. destruct e; simpl; tauto. }
  rewrite (crearTransaccion_guardada toLowerCase isLength fallos usuarioId
             cuerpo c bd Hval Hvalida Hsave).
  fold t.
  assert (Htrans :
    transacciones
      (if tipo_eqb (c_tipo c) ingreso
       then snd (actualizarMetasConIngreso fallos usuarioId (c_monto c)
                   (mkBD (metas bd) (transacciones bd ++ [t]) (consola bd)))
       else mkBD (metas bd) (transacciones bd ++ [t]) (consola bd))
    = transacciones bd ++ [t]).
  { destruct (tipo_eqb (c_tipo c) ingreso); [|reflexivity].
    now rewrite asignacion_sin_transacciones. }
  assert (Hact : c_activa c = c_activa cuerpo)
    by (now destruct (validacionTransaccion_tipo _ _ _ Hval)
              as [_ [_ [_ [_ [_ [-> _]]]]]]).
  destruct (fallos OpTransaccionPopulate) as [e|].
  - eexists. split; [reflexivity|]. right. exists t. simpl.
    rewrite Htrans, Hact. repeat split; trivial.
    + apply nuevoId_fresco.
    + destruct e; simpl; tauto.
  - eexists. split; [reflexivity|]. right. exists t. simpl.
    rewrite Htrans, Hact. repeat split; trivial.
    + apply nuevoId_fresco.
    + tauto.
Qed.

(** [POST /] can answer an error for a transaction that it has stored: for a
    valid body whose save resolves and whose populate rejects, the answer is
    400 or 500, but the transaction is in the store and, for an income, the
    goals are as the allocator leaves them. *)
Theorem crearTransaccion_error_tras_guardar
    (toLowerCase : js_string -> js_string)
    (isLength : js_string -> nat -> nat -> bool) (fallos : Fallos)
    (usuarioId : nat) (cuerpo c : CuerpoTransaccion) (bd : BD)
    (e : ErrorJS) :
  validacionTransaccion isLength cuerpo = Some c ->
  let t := Transaccion.mk (nuevoId (transacciones bd)) usuarioId (c_tipo c)
             (trim (c_descripcion c)) (c_monto c)
             (categoriaFinal toLowerCase c)
             (option_map trim (c_subcategoria c))
             (activaInicial (c_activa c)) in
  let guardada := mkBD (metas bd) (transacciones bd ++ [t]) (consola bd) in
  Transaccion.valida t = true ->
  fallos OpTransaccionSave = None ->
  fallos OpTransaccionPopulate = Some e ->
  let r := crearTransaccion toLowerCase isLength fallos usuarioId cuerpo bd in
  fst r = Resuelve (respuestaError e)
  /\ (status (respuestaError e) = 400 \/ status (respuestaError e) = 500)%nat
  /\ transacciones (snd r) = transacciones bd ++ [t]
  /\ (c_tipo c = ingreso ->
      metas (snd r)
      = metas (snd (actualizarMetasConIngreso fallos usuarioId (c_monto c)
                      guardada)))
  /\ (c_tipo c = gasto -> metas (snd r) = metas bd).
Proof.
  intros Hval t guardada Hvalida Hsave Hpop r. subst r.
  rewrite (crearTransaccion_guardada toLowerCase isLength fallos usuarioId
             cuerpo c bd Hval Hvalida Hsave), Hpop.
  fold t. fold guardada. simpl.
  split; [reflexivity|]. split; [destruct e; simpl; tauto|].
  split; [|split].
  - destruct (tipo_eqb (c_tipo c) ingreso); [|reflexivity].
    now rewrite asignacion_sin_transacciones.
  - intros Ht. rewrite Ht. reflexivity.
  - intros Ht. rewrite Ht. reflexivity.
Qed.

Lemma crearTransaccion_error_tras_guardar_witness :
  let fallos := fun op => match op with
                          | OpTransaccionPopulate => Some MongoError
                          | _ => None
                          end in
  let r := crearTransaccion toLowerCaseLatin1 isLengthUnidades fallos 9
             Ejemplo.sueldo Ejemplo.bd in
  (exists respuesta, fst r = Resuelve respuesta /\ status respuesta = 500%nat)
  /\ List.length (transacciones (snd r)) = 1%nat
  /\ metas (snd r) <> metas Ejemplo.bd.
Proof.
  intros fallos r.
  destruct (crearTransaccion_error_tras_guardar toLowerCaseLatin1
              isLengthUnidades fallos 9 Ejemplo.sueldo
              (mkCuerpoTransaccion ingreso (utf16 "Sueldo de marzo") 500 None
                 None None None)
              Ejemplo.bd MongoError)
    as [H1 [_ [H3 [H4 _]]]]; try reflexivity.
  fold r in H1, H3, H4.
  split; [eexists; split; [exact H1 | reflexivity]|].
  split; [now rewrite H3|].
  rewrite H4 by reflexivity. vm_compute. discriminate.
Defined.

Lemma actualizarPrimera_marco (id u : nat) (k : Cambios)
    (l : list Transaccion.t) :
  let r := actualizarPrimera id u k l in
  Forall2 (fun t t' =>
             Transaccion._id t' = Transaccion._id t
             /\ ((Transaccion._id t =? id)%nat
                 && (Transaccion.usuario t =? u)%nat
                 && Transaccion.activa t = false -> t' = t))
    l (snd r)
  /\ (fst r = None -> snd r = l).
Proof.
  induction l as [|d l IH]; simpl.
  - split; [constructor | reflexivity].
  - destruct ((Transaccion._id d =? id)%nat
              && (Transaccion.usuario d =? u)%nat
              && Transaccion.activa d) eqn:E; simpl.
    + split; [|discriminate]. constructor.
      * split; [reflexivity | intros H; congruence].
      * clear IH. induction l as [|x l IHl]; constructor; tauto.
    + destruct (actualizarPrimera id u k l) as [res r'] eqn:Er.
      simpl in *. destruct IH as [IH1 IH2]. split.
      * constructor; [tauto | exact IH1].
      * intros Hres. now rewrite (IH2 Hres).
Qed.

(** [PUT /:id] touches at most the one transaction it is asked for: whatever
    the body and whatever calls reject, every document keeps its place and its
    [_id], and every document that is not the active transaction [id] of the
    caller (a transaction of another user, a deleted one, any other [_id]) is
    left exactly as it was.  The answer 404 means that no document was
    changed; so does every answer other than 200 when the populate of the
    updated document resolves.  (When that populate rejects, the answer is an
    error and the document has been updated.) *)
Theorem actualizarTransaccion_solo_la_propia
    (toLowerCase : js_string -> js_string)
    (isLength : js_string -> nat -> nat -> bool) (fallos : Fallos)
    (usuarioId id : nat) (cuerpo : CuerpoTransaccion) (bd : BD) :
  let r :=
    actualizarTransaccion toLowerCase isLength fallos usuarioId id cuerpo bd in
  Forall2 (fun t t' =>
             Transaccion._id t' = Transaccion._id t
             /\ ((Transaccion._id t =? id)%nat
                 && (Transaccion.usuario t =? usuarioId)%nat
                 && Transaccion.activa t = false -> t' = t))
    (transacciones bd) (transacciones (snd r))
  /\ exists respuesta,
       fst r = Resuelve respuesta
       /\ (status respuesta = 404%nat ->
           transacciones (snd r) = transacciones bd)
       /\ (fallos OpTransaccionPopulate = None ->
           status respuesta <> 200%nat ->
           transacciones (snd r) = transacciones bd).
Proof.
  intros r. subst r.
  assert (Hid : Forall2 (fun t t' =>
             Transaccion._id t' = Transaccion._id t
             /\ ((Transaccion._id t =? id)%nat
                 && (Transaccion.usuario t =? usuarioId)%nat
                 && Transaccion.activa t = false -> t' = t))
             (transacciones bd) (transacciones bd)).
  { induction (transacciones bd); constructor; tauto. }
  unfold actualizarTransaccion, tryCatch, bind,
    Transaccion_findOneAndUpdate, bind, esperar, console_error, lanzar, ret.
  destruct (validacionTransaccion isLength cuerpo) as [c|]; simpl.
  2:{ split; [exact Hid|]. eexists. split; [reflexivity|]. split; reflexivity. }
  destruct (Transaccion.valida _); simpl.
  2:{ split; [exact Hid|]. eexists. split; [reflexivity|]. split; reflexivity. }
  destruct (fallos (OpTransaccionFindOneAndUpdate id)) as [e|]; simpl.
  { destruct e; simpl; (split; [exact Hid|]); eexists;
      (split; [reflexivity|]); split; reflexivity. }
  match goal with
  | |- context [actualizarPrimera ?a ?b ?k ?l] =>
      pose proof (actualizarPrimera_marco a b k l) as Hm;
      destruct (actualizarPrimera a b k l) as [[t|] ts]
  end; cbv zeta in Hm; simpl in *.
  - destruct (fallos OpTransaccionPopulate) as [e|]; simpl.
    + destruct e; simpl; (split; [tauto|]); eexists;
        (split; [reflexivity|]); simpl; split; intros; discriminate.
    + split; [tauto|]. eexists. split; [reflexivity|]. simpl.
      split; [discriminate | congruence].
  - split; [tauto|]. eexists. split; [reflexivity|].
    split; intros; now apply Hm.
Qed.

(** ** More on the categorizers *)

Lemma Subcadena_trans (a b c : js_string) :
  Subcadena a b -> Subcadena b c -> Subcadena a c.
Proof.
  intros [p1 [q1 ->]] [p2 [q2 ->]]. exists (p2 ++ p1), (q1 ++ q2).
  now rewrite <- !app_assoc.
Qed.

Lemma includes_mas_texto (t t' p : js_string) :
  Subcadena t t' -> includes t p = true -> includes t' p = true.
Proof.
  intros Ht Hp. apply includes_spec. apply includes_spec in Hp.
  eapply Subcadena_trans; eassumption.
Qed.

Lemma existsb_mas_texto (t t' : js_string) (ps : list js_string) :
  Subcadena t t' ->
  existsb (fun p => includes t p) ps = true ->
  existsb (fun p => includes t' p) ps = true.
Proof.
  intros Ht H. apply existsb_exists in H. destruct H as [p [Hin Hp]].
  apply existsb_exists. exists p. split; trivial.
  eapply includes_mas_texto; eassumption.
Qed.

Lemma primeraEntrada_mas_texto (t t' : js_string)
    (tabla : list (Categoria * list js_string)) :
  Subcadena t t' -> (primeraEntrada t' tabla <= primeraEntrada t tabla)%nat.
Proof.
  intros Ht. induction tabla as [|[c ps] tabla IH]; simpl; [lia|].
  destruct (existsb (fun p => includes t p) ps) eqn:E.
  - now rewrite (existsb_mas_texto t t' ps Ht E).
  - destruct (existsb (fun p => includes t' p) ps); lia.
Qed.

Lemma primeraEntrada_cota (t : js_string)
    (tabla : list (Categoria * list js_string)) :
  (primeraEntrada t tabla <= List.length tabla)%nat.
Proof.
  induction tabla as [|[c ps] tabla IH]; simpl; [lia|].
  destruct (existsb _ ps); lia.
Qed.

Lemma recorrerCategorias_primeraEntrada (t : js_string)
    (tabla : list (Categoria * list js_string)) :
  recorrerCategorias t tabla
  = nth (primeraEntrada t tabla) (map fst tabla) otros.
Proof.
  induction tabla as [|[c ps] tabla IH]; simpl; trivial.
  now destruct (existsb _ ps).
Qed.

Lemma posicion_recorrerCategorias (t : js_string) :
  posicion (recorrerCategorias t categorias) = primeraEntrada t categorias.
Proof.
  rewrite recorrerCategorias_primeraEntrada.
  pose proof (primeraEntrada_cota t categorias) as H.
  change (List.length categorias) with 8%nat in H.
  change (map fst categorias)
    with [alimentacion; transporte; entretenimiento; servicios; salud; ropa;
          educacion; hogar].
  destruct (primeraEntrada t categorias) as [|[|[|[|[|[|[|[|[|n]]]]]]]]];
    try reflexivity; lia.
Qed.

(** Adding text to a description can only move its category towards the
    front of the keyword table.  If a normalized text is part of a longer
    one, the longer one is classified in the same category or in one declared
    earlier; in particular a text that has a category other than ['otros']
    never falls back to ['otros'] by being extended. *)
Theorem recorrerCategorias_mas_texto (texto texto' : js_string) :
  Subcadena texto texto' ->
  (posicion (recorrerCategorias texto' categorias)
   <= posicion (recorrerCategorias texto categorias))%nat
  /\ (recorrerCategorias texto categorias <> otros ->
      recorrerCategorias texto' categorias <> otros).
Proof.
  intros Ht.
  assert (H : (posicion (recorrerCategorias texto' categorias)
               <= posicion (recorrerCategorias texto categorias))%nat).
  { rewrite !posicion_recorrerCategorias.
    now apply primeraEntrada_mas_texto. }
  split; [exact H|].
  intros Hno Hsi. rewrite Hsi in H.
  remember (recorrerCategorias texto categorias) as c eqn:Ec.
  destruct c; simpl in H; try lia. now apply Hno.
Qed.

Lemma recorrerCategorias_mas_texto_witness :
  (posicion (recorrerCategorias (utf16 "pago de luz y taxi") categorias)
   <= posicion (recorrerCategorias (utf16 "luz") categorias))%nat
  /\ recorrerCategorias (utf16 "luz") categorias = servicios
  /\ recorrerCategorias (utf16 "pago de luz y taxi") categorias = transporte.
Proof.
  split; [|split; reflexivity].
  apply (recorrerCategorias_mas_texto (utf16 "luz")
           (utf16 "pago de luz y taxi")).
  exists (utf16 "pago de "), (utf16 " y taxi"). reflexivity.
Defined.

Lemma trimStart_app (pre r : js_string) (a : N) :
  esEspacio a = false ->
  trimStart (pre ++ a :: r) = trimStart pre ++ a :: r.
Proof.
  intros Ha. induction pre as [|x pre IH]; simpl.
  - now rewrite Ha.
  - destruct (esEspacio x); [exact IH | reflexivity].
Qed.

(** A keyword that neither begins nor ends with white space is in the
    trimmed text when it is in the text. *)
Lemma trim_conserva (k s : js_string) (a z : N) (k1 k2 : js_string) :
  k = a :: k1 -> rev k = z :: k2 ->
  esEspacio a = false -> esEspacio z = false ->
  Subcadena k s -> Subcadena k (trim s).
Proof.
  intros Hk Hrk Ha Hz [pre [post ->]].
  unfold trim, trimEnd.
  assert (H1 : trimStart (pre ++ k ++ post) = trimStart pre ++ k ++ post).
  { rewrite Hk. exact (trimStart_app pre (k1 ++ post) a Ha). }
  rewrite H1.
  assert (H2 : rev (trimStart pre ++ k ++ post)
               = rev post ++ z :: (k2 ++ rev (trimStart pre))).
  { rewrite !rev_app_distr, Hrk. simpl. now rewrite <- app_assoc. }
  rewrite H2. rewrite trimStart_app by assumption.
  exists (trimStart pre), (rev (trimStart (rev post))).
  rewrite rev_app_distr. simpl. rewrite rev_app_distr, rev_involutive.
  rewrite <- !app_assoc. f_equal.
  replace (rev k2 ++ [z] ++ rev (trimStart (rev post)))
    with (rev (z :: k2) ++ rev (trimStart (rev post)))
    by (simpl; now rewrite <- app_assoc).
  now rewrite <- Hrk, rev_involutive.
Qed.

Lemma includes_trim (k s : js_string) (a z : N) (k1 k2 : js_string) :
  k = a :: k1 -> rev k = z :: k2 ->
  esEspacio a = false -> esEspacio z = false ->
  includes s k = true -> includes (trim s) k = true.
Proof.
  intros Hk Hrk Ha Hz H. apply includes_spec.
  eapply trim_conserva; eauto. now apply includes_spec.
Qed.

(** The categorizer of [gastos.js] and that of [transacciones.js], for every
    [toLowerCase] and description.  A description that the first classifies
    as alimentación the second classifies as alimentación too.  They
    disagree on the descriptions that contain 'agua' and none of the
    keywords that the first checks before it: the first answers servicios,
    the second alimentación. *)
Theorem categorizadores_comparados (toLowerCase : js_string -> js_string)
    (desc : js_string) :
  (Gastos.clasificarCategoria toLowerCase desc = alimentacion ->
   clasificarCategoria toLowerCase desc = alimentacion)
  /\ (includes (toLowerCase desc) (utf16 "agua") = true ->
      (forall k,
         In k (map utf16 ["comida"; "restaurante"; "transporte"; "uber";
                          "taxi"; "cine"; "ocio"; "pelicula"]%string) ->
         includes (toLowerCase desc) k = false) ->
      Gastos.clasificarCategoria toLowerCase desc = servicios
      /\ clasificarCategoria toLowerCase desc = alimentacion).
Proof.
  assert (Hrico : forall k a z k1 k2,
            In k (map utf16 ["comida"; "restaurante"; "agua"]%string) ->
            k = a :: k1 -> rev k = z :: k2 ->
            esEspacio a = false -> esEspacio z = false ->
            includes (toLowerCase desc) k = true ->
            clasificarCategoria toLowerCase desc = alimentacion).
  { intros k a z k1 k2 Hin Hk Hrk Ha Hz H.
    unfold clasificarCategoria.
    destruct categorias as [|[c ps] resto] eqn:Etabla; [discriminate|].
    injection Etabla as <- <- <-.
    apply (recorrerCategorias_antes _ [] _ alimentacion).
    - intros c' ps' [].
    - exists k. split.
      + simpl in Hin. simpl.
        destruct Hin as [<- | [<- | [<- | []]]]; tauto.
      + apply includes_spec. eapply includes_trim; eauto. }
  split.
  - unfold Gastos.clasificarCategoria.
    destruct (includes (toLowerCase desc) (utf16 "comida")) eqn:E1.
    + intros _. eapply (Hrico (utf16 "comida")); try reflexivity; trivial.
      simpl. tauto.
    + destruct (includes (toLowerCase desc) (utf16 "restaurante")) eqn:E2.
      * intros _.
        eapply (Hrico (utf16 "restaurante")); try reflexivity; trivial.
        simpl. tauto.
      * simpl.
        repeat match goal with
               | |- context [if ?b then _ else _] => destruct b
               end; discriminate.
  - intros Hagua Hno. split.
    + unfold Gastos.clasificarCategoria.
      rewrite Hagua. rewrite !Hno by (simpl; tauto). simpl.
      now rewrite orb_true_r.
    + eapply (Hrico (utf16 "agua")); try reflexivity; trivial.
      simpl. tauto.
Qed.

Lemma categorizadores_comparados_witness :
  clasificarCategoria toLowerCaseLatin1 (utf16 "Comida rápida") = alimentacion
  /\ (Gastos.clasificarCategoria toLowerCaseLatin1 (utf16 "Recibo de AGUA")
      = servicios
      /\ clasificarCategoria toLowerCaseLatin1 (utf16 "Recibo de AGUA")
         = alimentacion).
Proof.
  split.
  - apply (proj1 (categorizadores_comparados toLowerCaseLatin1
                    (utf16 "Comida rápida"))).
    reflexivity.
  - apply (proj2 (categorizadores_comparados toLowerCaseLatin1
                    (utf16 "Recibo de AGUA"))).
    + reflexivity.
    + intros k Hk. simpl in Hk.
      repeat (destruct Hk as [<- | Hk]; [reflexivity|]). contradiction.
Defined.

(** ** Deleting and reading a transaction *)

Lemma desactivarPrimera_marco (id u : nat) (l : list Transaccion.t) :
  let r := desactivarPrimera id u l in
  Forall2 (fun t t' =>
             t' = t \/ (esVisible u id t = true /\ t' = desactivada t))
    l (snd r)
  /\ (fst r = None -> snd r = l)
  /\ (forall t', fst r = Some t' ->
        In t' (snd r) /\ Transaccion.activa t' = false
        /\ Transaccion._id t' = id /\ Transaccion.usuario t' = u
        /\ exists t, In t l /\ t' = desactivada t).
Proof.
  induction l as [|d l IH]; simpl.
  - split; [constructor|]. split; [reflexivity | discriminate].
  - fold (esVisible u id d).
    destruct (esVisible u id d) eqn:E; simpl.
    + split; [|split; [discriminate|]].
      * constructor; [right; split; [exact E | reflexivity]|].
        clear IH. induction l; constructor; tauto.
      * intros t' [= <-]. unfold esVisible in E.
        repeat rewrite andb_true_iff in E. destruct E as [[Ei Eu] _].
        apply Nat.eqb_eq in Ei, Eu. simpl.
        repeat split; trivial; [now left|].
        exists d. split; [now left | reflexivity].
    + destruct (desactivarPrimera id u l) as [res r'] eqn:Er.
      simpl in *. destruct IH as [IH1 [IH2 IH3]].
      split; [|split].
      * constructor; [now left | exact IH1].
      * intros Hres. now rewrite (IH2 Hres).
      * intros t' Hres. destruct (IH3 t' Hres) as [H1 [H2 [H3 [H4 [t [H5 H6]]]]]].
        repeat split; trivial; [now right|].
        exists t. split; [now right | exact H6].
Qed.


Lemma desactivarPrimera_invisible (id u : nat) (l : list Transaccion.t) t' :
  NoDup (map Transaccion._id l) ->
  fst (desactivarPrimera id u l) = Some t' ->
  forall x, In x (snd (desactivarPrimera id u l)) ->
            (Transaccion._id x =? id)%nat && Transaccion.activa x = false.
Proof.
  induction l as [|d l IH]; simpl; intros Hnd; [discriminate|].
  inversion Hnd as [|a b Hnotin Hnd']; subst.
  destruct ((Transaccion._id d =? id)%nat
            && (Transaccion.usuario d =? u)%nat
            && Transaccion.activa d) eqn:E; simpl.
  - intros _ x [<- | Hx]; simpl; [apply andb_false_r|].
    repeat rewrite andb_true_iff in E. destruct E as [[Ei _] _].
    apply Nat.eqb_eq in Ei.
    destruct (Transaccion._id x =? id)%nat eqn:Ex; trivial.
    apply Nat.eqb_eq in Ex. exfalso. apply Hnotin.
    rewrite Ei, <- Ex. now apply in_map.
  - destruct (desactivarPrimera id u l) as [res r'] eqn:Er. simpl in *.
    intros Hres x [<- | Hx].
    + destruct (Transaccion._id d =? id)%nat eqn:Ei; trivial. simpl.
      destruct (Transaccion.activa d) eqn:Ea; trivial.
      rewrite andb_true_r in E. simpl in E.
      pose proof (desactivarPrimera_marco id u l) as Hm. rewrite Er in Hm.
      cbv zeta in Hm. simpl in Hm.
      destruct Hm as [_ [_ H3]].
      destruct (H3 t' Hres) as [_ [_ [Hc [_ [t [Ht ->]]]]]].
      simpl in Hc. apply Nat.eqb_eq in Ei. exfalso. apply Hnotin.
      rewrite Ei, <- Hc. now apply in_map.
    + now apply IH.
Qed.

Lemma obtenerTransaccion_ninguna (fallos : FallosL) (u id : nat) (bd : BD) :
  fallos (LTransaccionFindOne id) = None ->
  find (esVisible u id) (transacciones bd) = None ->
  obtenerTransaccion fallos u id bd
  = (Resuelve (mkContestacion 404 (CError "Transacción no encontrada")), bd).
Proof.
  intros Hf Hn. unfold obtenerTransaccion, tryCatch, bind,
    Transaccion_findOne, bind, esperarL.
  rewrite Hf. simpl. now rewrite Hn.
Qed.

Lemma desactivarPrimera_ninguna (id u : nat) (l : list Transaccion.t) :
  (forall x, In x l -> esVisible u id x = false) ->
  desactivarPrimera id u l = (None, l).
Proof.
  induction l as [|d l IH]; simpl; intros H; trivial.
  fold (esVisible u id d). rewrite (H d) by now left.
  rewrite IH; trivial. intros x Hx. apply H. now right.
Qed.

Lemma actualizarPrimera_ninguna (id u : nat) (k : Cambios)
    (l : list Transaccion.t) :
  (forall x, In x l -> esVisible u id x = false) ->
  actualizarPrimera id u k l = (None, l).
Proof.
  induction l as [|d l IH]; simpl; intros H; trivial.
  fold (esVisible u id d). rewrite (H d) by now left.
  rewrite IH; trivial. intros x Hx. apply H. now right.
Qed.

(** A deleted transaction is gone for the routes.  After [DELETE /:id] has
    answered 200, in a store with distinct [_id]s and when the calls
    resolve: [GET /:id] answers 404, a second [DELETE /:id] answers 404, and
    [PUT /:id] with a valid body answers 404; each leaves the store as it
    is. *)
Theorem transaccion_eliminada_no_se_encuentra
    (toLowerCase : js_string -> js_string)
    (isLength : js_string -> nat -> nat -> bool) (fallos : FallosL)
    (usuarioId id : nat) (bd : BD) (message : string) (t : Transaccion.t) :
  NoDup (map Transaccion._id (transacciones bd)) ->
  fallos (LTransaccionFindOne id) = None ->
  fallos (LBasica (OpTransaccionFindOneAndUpdate id)) = None ->
  fst (eliminarTransaccion fallos usuarioId id bd)
  = Resuelve (mkRespuesta 200 (JTransaccion message t)) ->
  let bd1 := snd (eliminarTransaccion fallos usuarioId id bd) in
  obtenerTransaccion fallos usuarioId id bd1
  = (Resuelve (mkContestacion 404 (CError "Transacción no encontrada")), bd1)
  /\ eliminarTransaccion fallos usuarioId id bd1
     = (Resuelve (mkRespuesta 404 (JError "Transacción no encontrada")), bd1)
  /\ (forall cuerpo c,
        validacionTransaccion isLength cuerpo = Some c ->
        Transaccion.valida
          (Transaccion.mk id usuarioId (c_tipo c) (trim (c_descripcion c))
             (c_monto c) (categoriaFinal toLowerCase c)
             (option_map trim (c_subcategoria c)) true) = true ->
        actualizarTransaccion toLowerCase isLength (basicos fallos)
          usuarioId id cuerpo bd1
        = (Resuelve (mkRespuesta 404 (JError "Transacción no encontrada")),
           bd1)).
Proof.
  intros Hnd Hfo Hfu Hok bd1.
  assert (Hinv : forall x, In x (transacciones bd1) ->
                           esVisible usuarioId id x = false).
  { subst bd1. revert Hok.
    unfold eliminarTransaccion, tryCatch, bind, Transaccion_desactivar,
      bind, esperar, basicos.
    rewrite Hfu. simpl.
    pose proof (desactivarPrimera_invisible id usuarioId (transacciones bd))
      as Hi.
    destruct (desactivarPrimera id usuarioId (transacciones bd))
      as [[t'|] ts]; simpl in *; [|discriminate].
    intros _ x Hx. specialize (Hi t' Hnd eq_refl x Hx).
    unfold esVisible.
    destruct (Transaccion._id x =? id)%nat; simpl in *; trivial.
    rewrite Hi. apply andb_false_r. }
  split; [|split].
  - apply obtenerTransaccion_ninguna; trivial. now apply find_ninguno.
  - unfold eliminarTransaccion, tryCatch, bind, Transaccion_desactivar,
      bind, esperar, basicos.
    rewrite Hfu. simpl. rewrite desactivarPrimera_ninguna by assumption.
    simpl. now destruct bd1.
  - intros cuerpo c Hval Hvalida.
    unfold actualizarTransaccion, tryCatch. rewrite Hval.
    unfold bind, Transaccion_findOneAndUpdate. cbn [castCambios k_tipo
      k_descripcion k_monto k_categoria k_subcategoria].
    rewrite Hvalida.
    unfold bind, esperar, basicos. rewrite Hfu. simpl.
    rewrite actualizarPrimera_ninguna by assumption.
    simpl. now destruct bd1.
Qed.

(** [GET /:id] reads and never writes, and it shows a transaction only to its
    owner: whatever calls reject, the collections are left as they were, and
    an answer 200 carries a document of the store that has the [_id] asked
    for, belongs to the caller and is active. *)
Theorem obtenerTransaccion_solo_propias (fallos : FallosL)
    (usuarioId id : nat) (bd : BD) :
  let r := obtenerTransaccion fallos usuarioId id bd in
  metas (snd r) = metas bd
  /\ transacciones (snd r) = transacciones bd
  /\ exists respuesta,
       fst r = Resuelve respuesta
       /\ (codigo respuesta = 200%nat
           <-> exists t, contenido respuesta = CDocTransaccion t)
       /\ (forall t,
             contenido respuesta = CDocTransaccion t ->
             In t (transacciones bd)
             /\ Transaccion._id t = id
             /\ Transaccion.usuario t = usuarioId
             /\ Transaccion.activa t = true).
Proof.
  intros r. subst r.
  unfold obtenerTransaccion, tryCatch, bind, Transaccion_findOne, bind,
    esperarL, console_error, lanzar, ret.
  destruct (fallos (LTransaccionFindOne id)) as [e|]; simpl.
  { destruct e; simpl; repeat split; trivial;
      eexists; (split; [reflexivity|]); simpl;
      (split; [split; [discriminate | intros [t Ht]; discriminate]|]);
      discriminate. }
  destruct (find (esVisible usuarioId id) (transacciones bd)) as [t|] eqn:E;
    simpl.
  - repeat split; trivial. eexists. split; [reflexivity|]. simpl.
    split; [split; [intros _; now exists t | reflexivity]|].
    intros t' [= <-]. apply find_some in E. destruct E as [Hin Hv].
    unfold esVisible in Hv. repeat rewrite andb_true_iff in Hv.
    destruct Hv as [[Hi Hu] Ha]. apply Nat.eqb_eq in Hi, Hu. tauto.
  - repeat split; trivial. eexists. split; [reflexivity|]. simpl.
    split; [split; [discriminate | intros [t Ht]; discriminate]|].
    discriminate.
Qed.

Lemma transaccion_eliminada_no_se_encuentra_witness :
  let bd1 := snd (eliminarTransaccion sinFallosL 9 1 Ejemplo2.bdConCompra) in
  obtenerTransaccion sinFallosL 9 1 bd1
  = (Resuelve (mkContestacion 404 (CError "Transacción no encontrada")), bd1)
  /\ eliminarTransaccion sinFallosL 9 1 bd1
     = (Resuelve (mkRespuesta 404 (JError "Transacción no encontrada")), bd1).
Proof.
  intros bd1.
  assert (Hnd : NoDup (map Transaccion._id
                         (transacciones Ejemplo2.bdConCompra))).
  { repeat constructor; simpl; tauto. }
  destruct (transaccion_eliminada_no_se_encuentra toLowerCaseLatin1
              isLengthUnidades sinFallosL 9 1 Ejemplo2.bdConCompra _ _
              Hnd eq_refl eq_refl eq_refl) as [H1 [H2 _]].
  split; [exact H1 | exact H2].
Defined.

Lemma find_al_final (A : Type) (p : A -> bool) (l : list A) (t : A) :
  (forall x, In x l -> p x = false) ->
  find p (l ++ [t]) = if p t then Some t else None.
Proof.
  induction l as [|x l IH]; simpl; intros H; trivial.
  rewrite (H x) by now left. apply IH. intros y Hy. apply H. now right.
Qed.

(** A transaction that [POST /] has created active is read back by its
    owner, and by no one else: when [POST /] answers 201 with a transaction
    whose [activa] is [true] (the default, when the body does not set it),
    [GET /:id] for its [_id] by the same user answers 200 with that same
    document, and by any other user 404. *)
Theorem transaccion_creada_se_obtiene (toLowerCase : js_string -> js_string)
    (isLength : js_string -> nat -> nat -> bool) (fallos : FallosL)
    (usuarioId : nat) (cuerpo : CuerpoTransaccion) (bd : BD)
    (message : string) (t : Transaccion.t) :
  fst (crearTransaccion toLowerCase isLength (basicos fallos) usuarioId
         cuerpo bd)
  = Resuelve (mkRespuesta 201 (JTransaccion message t)) ->
  Transaccion.activa t = true ->
  fallos (LTransaccionFindOne (Transaccion._id t)) = None ->
  let bd1 := snd (crearTransaccion toLowerCase isLength (basicos fallos)
                    usuarioId cuerpo bd) in
  obtenerTransaccion fallos usuarioId (Transaccion._id t) bd1
  = (Resuelve (mkContestacion 200 (CDocTransaccion t)), bd1)
  /\ (forall otro, otro <> usuarioId ->
        obtenerTransaccion fallos otro (Transaccion._id t) bd1
        = (Resuelve (mkContestacion 404 (CError "Transacción no encontrada")),
           bd1)).
Proof.
  intros Hok Ha Hfo bd1.
  assert (H : transacciones bd1 = transacciones bd ++ [t]
              /\ t = Transaccion.mk (nuevoId (transacciones bd)) usuarioId
                       (Transaccion.tipo t) (Transaccion.descripcion t)
                       (Transaccion.monto t) (Transaccion.categoria t)
                       (Transaccion.subcategoria t) (Transaccion.activa t)).
  { subst bd1. revert Hok.
    destruct (validacionTransaccion isLength cuerpo) as [c|] eqn:Hval.
    2:{ rewrite crearTransaccion_invalida by assumption. discriminate. }
    set (t0 := Transaccion.mk (nuevoId (transacciones bd)) usuarioId
                 (c_tipo c) (trim (c_descripcion c)) (c_monto c)
                 (categoriaFinal toLowerCase c)
                 (option_map trim (c_subcategoria c))
                 (activaInicial (c_activa c))).
    destruct (Transaccion.valida t0) eqn:Hvalida.
    2:{ rewrite (crearTransaccion_no_guardada toLowerCase isLength
                   (basicos fallos) usuarioId cuerpo c bd Hval
                   ValidationError)
          by (left; split; [exact Hvalida | reflexivity]).
        discriminate. }
    destruct (basicos fallos OpTransaccionSave) as [e|] eqn:Hsave.
    { rewrite (crearTransaccion_no_guardada toLowerCase isLength
                 (basicos fallos) usuarioId cuerpo c bd Hval e)
        by (right; split; assumption).
      destruct e; discriminate. }
    rewrite (crearTransaccion_guardada toLowerCase isLength (basicos fallos)
               usuarioId cuerpo c bd Hval Hvalida Hsave).
    fold t0.
    destruct (basicos fallos OpTransaccionPopulate) as [e|];
      [destruct e; discriminate|].
    simpl. intros [= _ <-]. split; [|reflexivity].
    destruct (tipo_eqb (c_tipo c) ingreso); [|reflexivity].
    now rewrite asignacion_sin_transacciones. }
  destruct H as [Htrans Ht].
  assert (Hfind : forall u,
            find (esVisible u (Transaccion._id t)) (transacciones bd1)
            = if (u =? usuarioId)%nat then Some t else None).
  { intros u. rewrite Htrans.
    assert (Hviejas : forall x, In x (transacciones bd) ->
                      esVisible u (Transaccion._id t) x = false).
    { intros x Hx. unfold esVisible.
      destruct (Transaccion._id x =? Transaccion._id t)%nat eqn:E; trivial.
      apply Nat.eqb_eq in E. exfalso.
      apply (nuevoId_fresco (transacciones bd)).
      rewrite Ht in E. simpl in E. rewrite <- E. now apply in_map. }
    assert (Hu : Transaccion.usuario t = usuarioId)
      by (rewrite Ht; reflexivity).
    rewrite (find_al_final _ _ _ _ Hviejas).
    unfold esVisible. rewrite Nat.eqb_refl, Hu, Ha.
    rewrite (Nat.eqb_sym usuarioId u). simpl.
    destruct (u =? usuarioId)%nat; reflexivity. }
  split.
  - pose proof (Hfind usuarioId) as Hf. rewrite Nat.eqb_refl in Hf.
    unfold obtenerTransaccion, tryCatch, bind, Transaccion_findOne, bind,
      esperarL.
    rewrite Hfo. unfold ret. rewrite Hf. reflexivity.
  - intros otro Hotro. apply obtenerTransaccion_ninguna; trivial.
    rewrite Hfind. apply Nat.eqb_neq in Hotro. now rewrite Hotro.
Qed.

Lemma transaccion_creada_se_obtiene_witness :
  exists t,
    obtenerTransaccion sinFallosL 9 (Transaccion._id t) Ejemplo2.bdConCompra
    = (Resuelve (mkContestacion 200 (CDocTransaccion t)),
       Ejemplo2.bdConCompra)
    /\ obtenerTransaccion sinFallosL 7 (Transaccion._id t)
         Ejemplo2.bdConCompra
       = (Resuelve (mkContestacion 404 (CError "Transacción no encontrada")),
          Ejemplo2.bdConCompra).
Proof.
  eexists.
  pose proof (transaccion_creada_se_obtiene toLowerCaseLatin1
                isLengthUnidades sinFallosL 9 Ejemplo.compra Ejemplo.bd _ _
                eq_refl eq_refl eq_refl) as [H1 H2].
  split; [exact H1 | apply H2; discriminate].
Defined.

(** ** Listing the transactions *)

Lemma techoCociente_cotas (t n : nat) :
  (1 <= n)%nat ->
  (t <= techoCociente t n * n)%nat /\ (techoCociente t n * n < t + n)%nat.
Proof.
  intros Hn. unfold techoCociente.
  assert (Hc : Qceiling (inject_Z (Z.of_nat t) / inject_Z (Z.of_nat n))
               = (- ((- Z.of_nat t) / Z.of_nat n))%Z).
  { destruct (Z.of_nat n) as [|p|p] eqn:En; try lia.
    unfold Qceiling, Qfloor, Qdiv, Qmult, Qinv, Qopp, inject_Z. simpl.
    rewrite Z.mul_1_r. reflexivity. }
  rewrite Hc.
  assert (Hpos : (0 < Z.of_nat n)%Z) by lia.
  pose proof (Z.div_mod (- Z.of_nat t) (Z.of_nat n)) as Hdm.
  pose proof (Z.mod_pos_bound (- Z.of_nat t) (Z.of_nat n) Hpos) as Hmod.
  assert (Hq : (0 <= - ((- Z.of_nat t) / Z.of_nat n))%Z).
  { assert ((- Z.of_nat t) / Z.of_nat n <= 0)%Z; [|lia].
    apply Z.div_le_upper_bound; lia. }
  set (c := (- ((- Z.of_nat t) / Z.of_nat n))%Z) in *.
  assert (Hcn : (Z.of_nat t <= c * Z.of_nat n
                 /\ c * Z.of_nat n < Z.of_nat t + Z.of_nat n)%Z).
  { subst c. nia. }
  assert (Hnat : Z.of_nat (Z.to_nat c * n) = (c * Z.of_nat n)%Z).
  { rewrite Nat2Z.inj_mul, Z2Nat.id by lia. reflexivity. }
  lia.
Qed.

Lemma firstn_skipn_suma (A : Type) (a b : nat) (l : list A) :
  firstn a l ++ firstn b (skipn a l) = firstn (a + b) l.
Proof.
  revert l; induction a as [|a IH]; intros l; simpl; trivial.
  destruct l as [|x l]; simpl.
  - now rewrite firstn_nil.
  - now rewrite IH.
Qed.

Lemma concat_paginas (A : Type) (n k : nat) (l : list A) :
  List.concat (map (fun p => firstn n (skipn ((p - 1) * n) l)) (seq 1 k))
  = firstn (k * n) l.
Proof.
  induction k as [|k IH]; simpl seq.
  - reflexivity.
  - change (1 :: seq 2 k)%nat with (seq 1 (S k)).
    rewrite seq_S, map_app, concat_app, IH. simpl.
    rewrite app_nil_r, Nat.sub_0_r, firstn_skipn_suma.
    f_equal. lia.
Qed.

Lemma In_pagina (A : Type) (n k : nat) (l : list A) (x : A) :
  In x (firstn n (skipn k l)) -> In x l.
Proof.
  intros H.
  rewrite <- (firstn_skipn k l). apply in_or_app. right.
  rewrite <- (firstn_skipn n (skipn k l)). apply in_or_app. now left.
Qed.

Lemma grupoDe_agruparPorTipo (tp : Tipo) (l : list Transaccion.t) :
  grupoDe tp (agruparPorTipo l)
  = (sumaMontos (filter (fun t => tipo_eqb (Transaccion.tipo t) tp) l),
     List.length (filter (fun t => tipo_eqb (Transaccion.tipo t) tp) l)).
Proof.
  unfold grupoDe, agruparPorTipo. simpl flat_map.
  destruct tp;
    destruct (filter (fun t => tipo_eqb (Transaccion.tipo t) ingreso) l)
      eqn:Ei;
    destruct (filter (fun t => tipo_eqb (Transaccion.tipo t) gasto) l)
      eqn:Eg; reflexivity.
Qed.

(** The answer of [GET /] to a valid query when its three calls resolve. *)
Lemma listarTransacciones_respuesta (fallos : FallosL)
    (ordenarRecientes : list Transaccion.t -> list Transaccion.t)
    (u : nat) (q : ConsultaLista) (bd : BD) :
  validacionLista q = true ->
  fallos (LTransaccionFind u) = None ->
  fallos (LTransaccionCount u) = None ->
  fallos (LTransaccionAggregate u) = None ->
  let pagina := match q_pagina q with Some p => p | None => 1%nat end in
  let limite := match q_limite q with Some l => l | None => 20%nat end in
  let coinciden := filter (filtroLista u q) (transacciones bd) in
  let ingresos := filter (fun t => tipo_eqb (Transaccion.tipo t) ingreso)
                    coinciden in
  let gastos := filter (fun t => tipo_eqb (Transaccion.tipo t) gasto)
                  coinciden in
  listarTransacciones fallos ordenarRecientes u q bd
  = (Resuelve
       (mkContestacion 200
          (CListado
             (firstn limite
                (skipn ((pagina - 1) * limite) (ordenarRecientes coinciden)))
             (mkPaginacion pagina
                (techoCociente (List.length coinciden) limite)
                (List.length coinciden) limite)
             (mkEstadisticas (sumaMontos ingresos) (sumaMontos gastos)
                (sumaMontos ingresos - sumaMontos gastos)
                (List.length ingresos) (List.length gastos)))),
     bd).
Proof.
  intros Hval Hf Hc Ha pagina limite coinciden ingresos gastos.
  unfold listarTransacciones, tryCatch. rewrite Hval. simpl negb.
  cbv iota. unfold bind, Transaccion_find_pagina, Transaccion_countDocuments,
    Transaccion_aggregate_tipo, bind, esperarL.
  rewrite Hf, Hc, Ha. unfold ret. cbn [negb]. cbv beta iota zeta.
  rewrite !grupoDe_agruparPorTipo. reflexivity.
Qed.

Lemma sumaMontos_por_tipo (l : list Transaccion.t) :
  sumaMontos l
  == sumaMontos (filter (fun t => tipo_eqb (Transaccion.tipo t) ingreso) l)
     + sumaMontos (filter (fun t => tipo_eqb (Transaccion.tipo t) gasto) l)
  /\ List.length l
     = (List.length
          (filter (fun t => tipo_eqb (Transaccion.tipo t) ingreso) l)
        + List.length
            (filter (fun t => tipo_eqb (Transaccion.tipo t) gasto) l))%nat.
Proof.
  induction l as [|t l [IH1 IH2]]; simpl.
  - split; [ring | reflexivity].
  - fold (sumaMontos l).
    destruct (Transaccion.tipo t); simpl;
      repeat match goal with
             | |- context [fold_right _ 0 ?x] =>
                 change (fold_right
                           (fun t acc => Transaccion.monto t + acc) 0 x)
                   with (sumaMontos x)
             end; split; try lia; rewrite IH1; ring.
Qed.

(** [GET /] shows a user nothing but their own active transactions that match
    the filters, and it writes nothing.  For a query with [pagina],
    [limite], [tipo] and [categoria] (no date range, no search text):
    whatever calls reject, the
    collections are left as they were; and when the store's sort returns
    documents of its input only, every transaction of an answer is a
    document of the store that belongs to the caller, is active and has the
    [tipo] and the [categoria] asked for. *)
Theorem listarTransacciones_solo_propias (fallos : FallosL)
    (ordenarRecientes : list Transaccion.t -> list Transaccion.t)
    (usuarioId : nat) (q : ConsultaLista) (bd : BD) :
  (forall l x, In x (ordenarRecientes l) -> In x l) ->
  let r := listarTransacciones fallos ordenarRecientes usuarioId q bd in
  metas (snd r) = metas bd
  /\ transacciones (snd r) = transacciones bd
  /\ exists respuesta,
       fst r = Resuelve respuesta
       /\ forall ts pag est t,
            contenido respuesta = CListado ts pag est ->
            In t ts ->
            In t (transacciones bd)
            /\ Transaccion.usuario t = usuarioId
            /\ Transaccion.activa t = true
            /\ (forall tp, q_tipo q = Some tp -> Transaccion.tipo t = tp)
            /\ (forall c, q_categoria q = Some c ->
                          Transaccion.categoria t = c).
Proof.
  intros Hord r. subst r.
  unfold listarTransacciones, tryCatch.
  destruct (validacionLista q); simpl negb; cbv iota.
  2:{ simpl. repeat split; trivial. eexists. split; [reflexivity|].
      intros ts pag est t Hc. discriminate. }
  unfold bind, Transaccion_find_pagina, Transaccion_countDocuments,
    Transaccion_aggregate_tipo, bind, esperarL, console_error, lanzar, ret.
  destruct (fallos (LTransaccionFind usuarioId)); simpl.
  { repeat split; trivial. eexists. split; [reflexivity|].
    intros ts pag est t Hc. discriminate. }
  destruct (fallos (LTransaccionCount usuarioId)); simpl.
  { repeat split; trivial. eexists. split; [reflexivity|].
    intros ts pag est t Hc. discriminate. }
  destruct (fallos (LTransaccionAggregate usuarioId)); simpl.
  { repeat split; trivial. eexists. split; [reflexivity|].
    intros ts pag est t Hc. discriminate. }
  repeat split; trivial. eexists. split; [reflexivity|].
  intros ts pag est t [= <- _ _] Hin.
  apply In_pagina, Hord, filter_In in Hin.
  destruct Hin as [Hin Hf]. unfold filtroLista in Hf.
  repeat rewrite andb_true_iff in Hf.
  destruct Hf as [[[Hu Ha] Ht] Hc]. apply Nat.eqb_eq in Hu.
  repeat split; trivial.
  - intros tp Hq. rewrite Hq in Ht.
    destruct (Transaccion.tipo t), tp; trivial; discriminate.
  - intros c Hq. rewrite Hq in Hc.
    destruct (Transaccion.categoria t), c; trivial; discriminate.
Qed.

Lemma listarTransacciones_solo_propias_witness :
  exists respuesta,
    fst (listarTransacciones sinFallosL (fun l => rev l) 9
           (mkConsultaLista None None (Some gasto) None) Ejemplo2.bdConCompra)
    = Resuelve respuesta
    /\ forall ts pag est t,
         contenido respuesta = CListado ts pag est ->
         In t ts -> Transaccion.usuario t = 9%nat.
Proof.
  destruct (listarTransacciones_solo_propias sinFallosL (fun l => rev l) 9
              (mkConsultaLista None None (Some gasto) None)
              Ejemplo2.bdConCompra)
    as [_ [_ [respuesta [H1 H2]]]].
  - intros l x Hx. now apply in_rev.
  - exists respuesta. split; [exact H1|].
    intros ts pag est t Hc Hin. now apply (H2 ts pag est t Hc Hin).
Defined.

(** The pages of [GET /] cut the result without loss or repetition.  For a
    query with [limite], [tipo] and [categoria] (no date range, no search
    text) and a
    valid [limite] (or the default 20), when the calls resolve and the store's
    sort keeps the number of documents: the pages 1 to [totalPaginas], one
    after the other, are exactly the sorted list of the caller's matching
    transactions; every page has at most [limite] of them; and every page
    after [totalPaginas] is empty. *)
Theorem listarTransacciones_paginas
    (ordenarRecientes : list Transaccion.t -> list Transaccion.t)
    (usuarioId : nat) (q : ConsultaLista) (bd : BD) :
  (forall l, List.length (ordenarRecientes l) = List.length l) ->
  match q_limite q with
  | Some l => (1 <= l <= 100)%nat
  | None => True
  end ->
  let limite := match q_limite q with Some l => l | None => 20%nat end in
  let todas :=
    ordenarRecientes
      (filter (filtroLista usuarioId q) (transacciones bd)) in
  let total := techoCociente (List.length todas) limite in
  List.concat (map (paginaDe ordenarRecientes usuarioId q bd) (seq 1 total))
  = todas
  /\ (forall p, (List.length (paginaDe ordenarRecientes usuarioId q bd p)
                 <= limite)%nat)
  /\ (forall p, (total < p)%nat ->
                paginaDe ordenarRecientes usuarioId q bd p = []).
Proof.
  intros Hlen Hlim limite todas total.
  assert (Hl1 : (1 <= limite)%nat).
  { subst limite. destruct (q_limite q); lia. }
  assert (Hpag : forall p, (1 <= p)%nat ->
            paginaDe ordenarRecientes usuarioId q bd p
            = firstn limite (skipn ((p - 1) * limite) todas)).
  { intros p Hp. unfold paginaDe.
    rewrite listarTransacciones_respuesta; try reflexivity.
    unfold validacionLista. cbn [q_pagina q_limite].
    apply Nat.leb_le in Hp. rewrite Hp. cbn [andb].
    destruct (q_limite q) as [l|]; trivial.
    destruct Hlim as [H1 H2]. apply Nat.leb_le in H1, H2.
    now rewrite H1, H2. }
  assert (Hpag0 : paginaDe ordenarRecientes usuarioId q bd 0 = []).
  { unfold paginaDe, listarTransacciones, tryCatch. reflexivity. }
  destruct (techoCociente_cotas (List.length todas) limite Hl1) as [Hc1 Hc2].
  fold total in Hc1, Hc2.
  split; [|split].
  - rewrite (map_ext_in _ (fun p => firstn limite
                                      (skipn ((p - 1) * limite) todas))).
    + rewrite concat_paginas. apply firstn_all2. exact Hc1.
    + intros p Hp. apply in_seq in Hp. apply Hpag. lia.
  - intros p. destruct p as [|p].
    + rewrite Hpag0. simpl. lia.
    + rewrite Hpag by lia. rewrite length_firstn. lia.
  - intros p Hp. rewrite Hpag by lia.
    rewrite skipn_all2; [now rewrite firstn_nil|].
    assert (total * limite <= (p - 1) * limite)%nat by nia. lia.
Qed.

Lemma listarTransacciones_paginas_witness :
  List.concat (map (paginaDe (fun l => rev l) 9
                 (mkConsultaLista None (Some 1%nat) None None)
                 Ejemplo2.bdConCompra)
            (seq 1 (techoCociente
                      (List.length
                         (rev (filter
                                 (filtroLista 9
                                    (mkConsultaLista None (Some 1%nat) None
                                       None))
                                 (transacciones Ejemplo2.bdConCompra))))
                      1)))
  = rev (filter (filtroLista 9 (mkConsultaLista None (Some 1%nat) None None))
           (transacciones Ejemplo2.bdConCompra)).
Proof.
  apply (listarTransacciones_paginas (fun l => rev l) 9
           (mkConsultaLista None (Some 1%nat) None None) Ejemplo2.bdConCompra).
  - intros l. apply length_rev.
  - simpl. lia.
Defined.

Lemma filtroLista_otro_tipo (usuarioId : nat) (q : ConsultaLista)
    (l : list Transaccion.t) (tp otro : Tipo) :
  q_tipo q = Some tp -> tipo_eqb tp otro = false ->
  filter (fun t => tipo_eqb (Transaccion.tipo t) otro)
    (filter (filtroLista usuarioId q) l) = [].
Proof.
  intros Hq Hne.
  induction l as [|t l IH]; simpl; trivial.
  destruct (filtroLista usuarioId q t) eqn:E; trivial. simpl.
  unfold filtroLista in E. rewrite Hq in E.
  repeat rewrite andb_true_iff in E. destruct E as [[_ Et] _].
  destruct (Transaccion.tipo t), tp, otro; simpl in *;
    try discriminate; exact IH.
Qed.

(** The statistics of [GET /] count every matching transaction once.  For a
    valid query with [pagina], [limite], [tipo] and [categoria] (no date
    range, no search text) whose calls resolve: [cantidadIngresos] and
    [cantidadGastos] together are [totalElementos], the number of all the
    caller's matching transactions, on whatever page the answer is; and
    under the filter [tipo = gasto] the income side is zero, as is the
    expense side under [tipo = ingreso].  (Nothing is said of the sums of
    amounts, which the store computes in floating point.) *)
Theorem listarTransacciones_estadisticas (fallos : FallosL)
    (ordenarRecientes : list Transaccion.t -> list Transaccion.t)
    (usuarioId : nat) (q : ConsultaLista) (bd : BD) :
  validacionLista q = true ->
  fallos (LTransaccionFind usuarioId) = None ->
  fallos (LTransaccionCount usuarioId) = None ->
  fallos (LTransaccionAggregate usuarioId) = None ->
  exists ts pag est,
    listarTransacciones fallos ordenarRecientes usuarioId q bd
    = (Resuelve (mkContestacion 200 (CListado ts pag est)), bd)
    /\ (cantidadIngresos est + cantidadGastos est)%nat = totalElementos pag
    /\ totalElementos pag
       = List.length (filter (filtroLista usuarioId q) (transacciones bd))
    /\ (q_tipo q = Some gasto ->
        totalIngresos est = 0 /\ cantidadIngresos est = 0%nat)
    /\ (q_tipo q = Some ingreso ->
        totalGastos est = 0 /\ cantidadGastos est = 0%nat).
Proof.
  intros Hval Hf Hc Ha.
  rewrite (listarTransacciones_respuesta fallos ordenarRecientes usuarioId q
             bd Hval Hf Hc Ha).
  cbv zeta. do 3 eexists. split; [reflexivity|]. simpl.
  destruct (sumaMontos_por_tipo
              (filter (filtroLista usuarioId q) (transacciones bd)))
    as [Hs Hl].
  split; [now rewrite Hl|]. split; [reflexivity|].
  split; intros Hq.
  - now rewrite (filtroLista_otro_tipo usuarioId q (transacciones bd) gasto
                   ingreso Hq eq_refl).
  - now rewrite (filtroLista_otro_tipo usuarioId q (transacciones bd) ingreso
                   gasto Hq eq_refl).
Qed.

Lemma listarTransacciones_estadisticas_witness :
  exists ts pag est,
    listarTransacciones sinFallosL (fun l => rev l) 9
      (mkConsultaLista None None (Some gasto) None) Ejemplo2.bdConCompra
    = (Resuelve (mkContestacion 200 (CListado ts pag est)),
       Ejemplo2.bdConCompra)
    /\ totalIngresos est = 0
    /\ totalElementos pag = 1%nat.
Proof.
  destruct (listarTransacciones_estadisticas sinFallosL (fun l => rev l) 9
              (mkConsultaLista None None (Some gasto) None)
              Ejemplo2.bdConCompra)
    as [ts [pag [est [H1 [_ [H5 [H6 _]]]]]]]; try reflexivity.
  exists ts, pag, est. split; [exact H1|].
  split; [now apply H6|]. rewrite H5. reflexivity.
Defined.

(** ** The summary by categories *)

Lemma insertarGrupo_permutacion (g : GrupoCategoria)
    (l : list GrupoCategoria) :
  Permutation (insertarGrupo g l) (g :: l).
Proof.
  induction l as [|x l IH]; simpl.
  - apply Permutation_refl.
  - destruct (Qle_bool (g_total x) (g_total g)).
    + apply Permutation_refl.
    + eapply Permutation_trans; [apply perm_skip, IH | apply perm_swap].
Qed.

Lemma ordenarGrupos_permutacion (l : list GrupoCategoria) :
  Permutation (ordenarGrupos l) l.
Proof.
  induction l as [|g l IH]; simpl.
  - apply Permutation_refl.
  - eapply Permutation_trans;
      [apply insertarGrupo_permutacion | apply perm_skip, IH].
Qed.

Lemma insertarGrupo_ordenado (g : GrupoCategoria)
    (l : list GrupoCategoria) :
  Sorted (fun a b => g_total b <= g_total a) l ->
  Sorted (fun a b => g_total b <= g_total a) (insertarGrupo g l).
Proof.
  induction l as [|x l IH]; simpl; intros Hs.
  - repeat constructor.
  - destruct (Qle_bool (g_total x) (g_total g)) eqn:E.
    + constructor; trivial. constructor. now apply Qle_bool_iff.
    + assert (Hlt : g_total g <= g_total x).
      { destruct (Qlt_le_dec (g_total g) (g_total x)) as [H|H].
        - now apply Qlt_le_weak.
        - apply Qle_bool_iff in H. congruence. }
      inversion Hs as [|? ? Hs' Hhd]; subst.
      constructor; [now apply IH|].
      destruct l as [|y l]; simpl.
      * now constructor.
      * destruct (Qle_bool (g_total y) (g_total g)); constructor; trivial.
        now inversion Hhd.
Qed.

Lemma ordenarGrupos_ordenado (l : list GrupoCategoria) :
  Sorted (fun a b => g_total b <= g_total a) (ordenarGrupos l).
Proof.
  induction l as [|g l IH]; simpl.
  - constructor.
  - now apply insertarGrupo_ordenado.
Qed.

Lemma agruparPorCategoria_grupos (l : list Transaccion.t)
    (g : GrupoCategoria) :
  In g (agruparPorCategoria l) ->
  let docs :=
    filter (fun t => categoria_eqb (Transaccion.categoria t) (g_id g)) l in
  g_total g = sumaMontos docs
  /\ g_cantidad g = List.length docs
  /\ (1 <= g_cantidad g)%nat
  /\ g_promedio g = sumaMontos docs / inject_Z (Z.of_nat (List.length docs)).
Proof.
  unfold agruparPorCategoria. intros H. apply in_flat_map in H.
  destruct H as [c [_ H]].
  destruct (filter (fun t => categoria_eqb (Transaccion.categoria t) c) l)
    as [|d ds] eqn:E; [contradiction|].
  destruct H as [<-|[]]. cbn [g_id g_total g_cantidad g_promedio].
  cbv zeta. rewrite E. repeat split. simpl. lia.
Qed.

Lemma agruparPorCategoria_distintas (l : list Transaccion.t) :
  NoDup (map g_id (agruparPorCategoria l)).
Proof.
  unfold agruparPorCategoria, todasCategorias. cbn [flat_map].
  repeat match goal with
         | |- context [filter ?f l] =>
             let E := fresh "E" in
             destruct (filter f l) eqn:E
         end;
    cbn [app map g_id];
    repeat (constructor; [cbn [In]; intuition discriminate|]);
    constructor.
Qed.

Lemma categoria_eqb_refl (c : Categoria) : categoria_eqb c c = true.
Proof. now destruct c. Qed.

Lemma agruparPorCategoria_cubre (l : list Transaccion.t)
    (t : Transaccion.t) :
  In t l -> In (Transaccion.categoria t) (map g_id (agruparPorCategoria l)).
Proof.
  intros Hin. apply in_map_iff.
  assert (Hf : In t (filter
                       (fun x => categoria_eqb (Transaccion.categoria x)
                                   (Transaccion.categoria t)) l)).
  { apply filter_In. split; trivial. apply categoria_eqb_refl. }
  destruct (filter
              (fun x => categoria_eqb (Transaccion.categoria x)
                          (Transaccion.categoria t)) l) as [|d ds] eqn:E;
    [contradiction|].
  exists (mkGrupoCategoria (Transaccion.categoria t) (sumaMontos (d :: ds))
            (List.length (d :: ds))
            (sumaMontos (d :: ds)
             / inject_Z (Z.of_nat (List.length (d :: ds))))).
  split; [reflexivity|].
  unfold agruparPorCategoria. apply in_flat_map.
  exists (Transaccion.categoria t). split.
  - unfold todasCategorias. destruct (Transaccion.categoria t); simpl; tauto.
  - rewrite E. now left.
Qed.

(** [GET /resumen/categorias] groups without loss.  For a request without
    a date range, when the aggregation resolves, the answer is 200 and the
    store is unchanged; the groups come by descending [total], one for each
    category in which the caller has an active transaction of the [tipo]
    asked for and none twice; and in each group [cantidad] is the number, at
    least 1, of the transactions of its category.  (Nothing is said of the
    values of [total], [promedio] and [totalGeneral], which are sums and
    quotients in floating point.) *)
Theorem resumenPorCategorias_totales (fallos : FallosL) (usuarioId : nat)
    (tipo : option Tipo) (bd : BD) :
  fallos (LTransaccionAggregate usuarioId) = None ->
  let docs := filter (filtroResumen usuarioId tipo) (transacciones bd) in
  exists resumen totalGeneral,
    resumenPorCategorias fallos usuarioId tipo bd
    = (Resuelve
         (mkContestacion 200 (CResumenCategorias resumen totalGeneral)), bd)
    /\ Sorted (fun a b => g_total b <= g_total a) resumen
    /\ NoDup (map g_id resumen)
    /\ (forall t, In t docs ->
                  In (Transaccion.categoria t) (map g_id resumen))
    /\ (forall g, In g resumen ->
          let suyas :=
            filter (fun t => categoria_eqb (Transaccion.categoria t) (g_id g))
              docs in
          g_cantidad g = List.length suyas
          /\ (1 <= g_cantidad g)%nat).
Proof.
  intros Hf docs.
  unfold resumenPorCategorias, tryCatch, bind,
    Transaccion_aggregate_categoria, bind, esperarL.
  rewrite Hf. unfold ret. cbv beta iota. fold docs.
  do 2 eexists. split; [reflexivity|].
  pose proof (ordenarGrupos_permutacion (agruparPorCategoria docs)) as Hp.
  split; [|split; [|split]].
  - apply ordenarGrupos_ordenado.
  - eapply Permutation_NoDup;
      [apply Permutation_sym, Permutation_map, Hp|].
    apply agruparPorCategoria_distintas.
  - intros t Hin.
    eapply Permutation_in;
      [apply Permutation_sym, Permutation_map, Hp|].
    now apply agruparPorCategoria_cubre.
  - intros g Hg. apply (Permutation_in _ Hp) in Hg.
    destruct (agruparPorCategoria_grupos docs g Hg) as [H1 [H2 [H3 H4]]].
    cbv zeta. split; trivial.
Qed.

Lemma resumenPorCategorias_totales_witness :
  exists resumen totalGeneral,
    resumenPorCategorias sinFallosL 9 (Some gasto) Ejemplo2.bdConCompra
    = (Resuelve
         (mkContestacion 200 (CResumenCategorias resumen totalGeneral)),
       Ejemplo2.bdConCompra)
    /\ NoDup (map g_id resumen)
    /\ In alimentacion (map g_id resumen).
Proof.
  destruct (resumenPorCategorias_totales sinFallosL 9 (Some gasto)
              Ejemplo2.bdConCompra eq_refl)
    as [resumen [totalGeneral [H1 [_ [H3 [H4 _]]]]]].
  exists resumen, totalGeneral. split; [exact H1|]. split; [exact H3|].
  apply (H4 (Transaccion.mk 1 9 gasto (utf16 "Supermercado") 40
               alimentacion None true)).
  simpl. now left.
Defined.

(** ** The state and the removal of a goal *)

Lemma cambiarPrimera_marco (id u : nat) (e : Estado) (l : list Meta.t) :
  Forall2
    (fun m m' =>
       m' = m
       \/ (Meta._id m = id /\ Meta.usuario m = u /\ m' = Meta.conEstado m e))
    l (snd (cambiarPrimera id u e l))
  /\ match fst (cambiarPrimera id u e l) with
     | Some m' =>
         In m' (snd (cambiarPrimera id u e l))
         /\ exists m, In m l /\ Meta._id m = id /\ Meta.usuario m = u
                      /\ m' = Meta.conEstado m e
     | None => snd (cambiarPrimera id u e l) = l
     end.
Proof.
  induction l as [|x l [IH1 IH2]]; simpl.
  - split; [constructor | reflexivity].
  - destruct ((Meta._id x =? id)%nat && (Meta.usuario x =? u)%nat) eqn:E.
    + apply andb_true_iff in E. destruct E as [E1 E2].
      apply Nat.eqb_eq in E1, E2. simpl. split.
      * constructor; [now right|].
        clear. induction l; constructor; auto.
      * split; [now left|]. exists x. repeat split; trivial. now left.
    + destruct (cambiarPrimera id u e l) as [res r'] eqn:Er. simpl in *.
      split; [constructor; [now left | exact IH1]|].
      destruct res as [m'|].
      * destruct IH2 as [Hin [m [Hm Hr]]]. split; [now right|].
        exists m. split; [now right | exact Hr].
      * now rewrite IH2.
Qed.

Lemma marco_ids (R : Meta.t -> Meta.t -> Prop) (l l' : list Meta.t) :
  (forall m m', R m m' -> Meta._id m' = Meta._id m) ->
  Forall2 R l l' -> map Meta._id l' = map Meta._id l.
Proof.
  intros HR H. induction H; simpl; trivial. f_equal; auto.
Qed.

(** [PATCH /:id/estado] changes nothing but the [estado] of the caller's goal
    of that [_id].  Whatever the call does, the transactions are as before,
    and every goal of the store is either untouched or is the caller's goal
    of that [_id] with its [estado] set: no amount, target, owner or deadline
    changes and no goal of another user is touched; and unless the answer is
    200 the goals are exactly as before. *)
Theorem cambiarEstado_solo_estado (fallos : FallosL) (usuarioId id : nat)
    (e : Estado) (bd : BD) :
  let r := cambiarEstado fallos usuarioId id e bd in
  transacciones (snd r) = transacciones bd
  /\ Forall2
       (fun m m' =>
          m' = m
          \/ (Meta._id m = id /\ Meta.usuario m = usuarioId
              /\ m' = Meta.conEstado m e))
       (metas bd) (metas (snd r))
  /\ exists c, fst r = Resuelve c
               /\ (codigo c = 200%nat \/ metas (snd r) = metas bd).
Proof.
  assert (Hid : Forall2
                  (fun m m' : Meta.t =>
                     m' = m
                     \/ (Meta._id m = id /\ Meta.usuario m = usuarioId
                         /\ m' = Meta.conEstado m e))
                  (metas bd) (metas bd)).
  { induction (metas bd); constructor; auto. }
  unfold cambiarEstado, tryCatch, bind, Meta_cambiarEstado, bind, esperarL.
  destruct (fallos (LMetaFindOneAndUpdate id)); simpl.
  - repeat split; trivial. eexists. split; [reflexivity | now right].
  - destruct (cambiarPrimera_marco id usuarioId e (metas bd)) as [H1 H2].
    destruct (cambiarPrimera id usuarioId e (metas bd)) as [res ms].
    simpl in *. destruct res as [m'|]; simpl.
    + repeat split; trivial. eexists. split; [reflexivity | now left].
    + repeat split; trivial. eexists. split; [reflexivity | now right].
Qed.

Lemma cambiarPrimera_encontrada (id u : nat) (e : Estado) (l : list Meta.t)
    (m : Meta.t) :
  NoDup (map Meta._id l) ->
  In m l -> Meta._id m = id -> Meta.usuario m = u ->
  fst (cambiarPrimera id u e l) = Some (Meta.conEstado m e)
  /\ (Meta.estado m <> activa ->
      activasDe u (snd (cambiarPrimera id u activa l)) = S (activasDe u l)).
Proof.
  intros Hnd Hin Hid Hu. induction l as [|x l IH]; [contradiction|].
  simpl.
  destruct ((Meta._id x =? id)%nat && (Meta.usuario x =? u)%nat) eqn:E.
  - apply andb_true_iff in E. destruct E as [E1 E2].
    apply Nat.eqb_eq in E1.
    assert (x = m).
    { apply (mismo_id_misma_meta (x :: l)); trivial; [now left | congruence]. }
    subst x. split; [reflexivity|]. simpl.
    unfold activasDe. simpl. intros Hne.
    assert (Hno : esActivaDe u m = false).
    { unfold esActivaDe. rewrite E2. simpl.
      destruct (Meta.estado m); trivial. now elim Hne. }
    assert (Hsi : esActivaDe u (Meta.conEstado m activa) = true).
    { unfold esActivaDe. simpl. now rewrite E2. }
    now rewrite Hno, Hsi.
  - assert (Hm : In m l).
    { destruct Hin as [->|Hin]; trivial.
      rewrite Hid, Hu, !Nat.eqb_refl in E. discriminate. }
    inversion Hnd as [|? ? _ Hnd']; subst.
    destruct (IH Hnd' Hm) as [IH1 IH2].
    destruct (cambiarPrimera (Meta._id m) (Meta.usuario m) e l)
      as [res r'] eqn:Er.
    split; [exact IH1|]. intros Hne. specialize (IH2 Hne).
    destruct (cambiarPrimera (Meta._id m) (Meta.usuario m) activa l)
      as [res2 r2] eqn:Er2.
    simpl in *. unfold activasDe in *. simpl.
    destruct (esActivaDe (Meta.usuario m) x); simpl; now rewrite IH2.
Qed.

(** Reactivating a goal is not subject to the limit of ten active goals.
    In a store with distinct [_id]s, [PATCH /:id/estado] with [activa] on a
    goal of the caller that is not active answers 200 with the goal set
    active, and the caller has one active goal more than before, however
    many there were. *)
Theorem reactivar_sin_limite (fallos : FallosL) (usuarioId id : nat)
    (bd : BD) (m : Meta.t) :
  NoDup (map Meta._id (metas bd)) ->
  fallos (LMetaFindOneAndUpdate id) = None ->
  In m (metas bd) -> Meta._id m = id -> Meta.usuario m = usuarioId ->
  Meta.estado m <> activa ->
  let r := cambiarEstado fallos usuarioId id activa bd in
  fst r
  = Resuelve
      (mkContestacion 200
         (CMensajeMeta "Meta activa exitosamente" (Meta.conEstado m activa)))
  /\ activasDe usuarioId (metas (snd r))
     = S (activasDe usuarioId (metas bd)).
Proof.
  intros Hnd Hf Hin Hid Hu Hne.
  destruct (cambiarPrimera_encontrada id usuarioId activa (metas bd) m Hnd
              Hin Hid Hu) as [H1 H2].
  specialize (H2 Hne).
  unfold cambiarEstado, tryCatch, bind, Meta_cambiarEstado, bind, esperarL.
  rewrite Hf. simpl.
  destruct (cambiarPrimera id usuarioId activa (metas bd)) as [res ms].
  simpl in *. subst res. simpl. split; [reflexivity | exact H2].
Qed.

Lemma reactivar_sin_limite_witness :
  let r := cambiarEstado sinFallosL 9 5 activa Ejemplo2.bdPausada in
  fst r
  = Resuelve
      (mkContestacion 200
         (CMensajeMeta "Meta activa exitosamente" Ejemplo.metaCasiLlena))
  /\ activasDe 9 (metas (snd r)) = 2%nat.
Proof.
  apply (reactivar_sin_limite sinFallosL 9 5 Ejemplo2.bdPausada
           (Meta.conEstado Ejemplo.metaCasiLlena pausada)).
  - repeat constructor; simpl; intuition discriminate.
  - reflexivity.
  - simpl. tauto.
  - reflexivity.
  - reflexivity.
  - discriminate.
Defined.

(** A goal that is not active receives nothing.  After
    [PATCH /:id/estado] has answered 200 for a state other than [activa], in
    a store with distinct [_id]s: every later run of the allocator, for any
    user, any income and any rejected calls, leaves that goal as it is; and a
    valid contribution to it is answered 404, the store unchanged. *)
Theorem meta_no_activa_no_recibe (isLength : js_string -> nat -> nat -> bool)
    (fallos : FallosL) (usuarioId id : nat) (e : Estado) (bd : BD)
    (message : string) (meta : Meta.t) :
  NoDup (map Meta._id (metas bd)) ->
  e <> activa ->
  fst (cambiarEstado fallos usuarioId id e bd)
  = Resuelve (mkContestacion 200 (CMensajeMeta message meta)) ->
  let bd1 := snd (cambiarEstado fallos usuarioId id e bd) in
  (forall (f : Fallos) (u : nat) (montoIngreso : Q),
     buscarMeta id
       (metas (snd (actualizarMetasConIngreso f u montoIngreso bd1)))
     = Some meta)
  /\ (forall (f : Fallos) (cuerpo : CuerpoAporte),
        1 # 100 <= a_monto cuerpo ->
        descripcionAdmisible isLength cuerpo ->
        f (OpMetaFindOne id) = None ->
        agregarDinero isLength f usuarioId id cuerpo bd1
        = (Resuelve (mkRespuesta 404 (JError "Meta activa no encontrada")),
           bd1)).
Proof.
  intros Hnd He Hok bd1.
  assert (H : In meta (metas bd1) /\ Meta._id meta = id
              /\ Meta.estado meta = e
              /\ map Meta._id (metas bd1) = map Meta._id (metas bd)).
  { subst bd1. revert Hok.
    unfold cambiarEstado, tryCatch, bind, Meta_cambiarEstado, bind, esperarL.
    destruct (fallos (LMetaFindOneAndUpdate id)); simpl;
      [intros Hx; discriminate|].
    destruct (cambiarPrimera_marco id usuarioId e (metas bd)) as [H1 H2].
    destruct (cambiarPrimera id usuarioId e (metas bd)) as [res ms].
    simpl in *. destruct res as [m'|]; simpl; [|intros Hx; discriminate].
    intros [= _ <-]. destruct H2 as [Hin [m [_ [Hid [_ ->]]]]].
    repeat split; trivial.
    eapply marco_ids; [|exact H1].
    intros a b [->|[_ [_ ->]]]; reflexivity. }
  destruct H as [Hin [Hid [Hest Hids]]].
  assert (Hnd1 : NoDup (map Meta._id (metas bd1))) by now rewrite Hids.
  split.
  - intros f u montoIngreso.
    destruct (metas_tras_asignacion f u montoIngreso bd1 Hnd1)
      as [incs [-> Hincs]].
    rewrite <- Hid.
    rewrite (buscarMeta_map (actualizarCon incs) (metas bd1) meta
               (actualizarCon_id incs) Hnd1 Hin).
    f_equal. unfold actualizarCon.
    destruct (buscarAporte (Meta._id meta) incs) as [q|] eqn:E; trivial.
    apply buscarAporte_In, Hincs, aportes_en_lista in E.
    destruct E as [g [Hg [Hgid _]]].
    apply metasProcesadas_In in Hg. destruct Hg as [Hg Hact].
    assert (g = meta) by now apply (mismo_id_misma_meta (metas bd1)).
    subst g. unfold esActivaDe in Hact. rewrite Hest in Hact.
    apply andb_true_iff in Hact. destruct Hact as [_ Hact].
    destruct e; try discriminate. contradiction.
  - intros f cuerpo Hm Hd Hf. apply agregarDinero_sin_meta; trivial.
    apply find_ninguno. intros x Hx.
    destruct (Meta._id x =? id)%nat eqn:Eid; trivial. simpl.
    apply Nat.eqb_eq in Eid.
    assert (x = meta).
    { apply (mismo_id_misma_meta (metas bd1)); trivial. congruence. }
    subst x. unfold esActivaDe. rewrite Hest.
    destruct e; try apply andb_false_r. contradiction.
Qed.

Lemma meta_no_activa_no_recibe_witness :
  buscarMeta 5
    (metas (snd (actualizarMetasConIngreso sinFallos 9 500
                   Ejemplo2.bdPausada)))
  = Some (Meta.conEstado Ejemplo.metaCasiLlena pausada)
  /\ agregarDinero isLengthUnidades sinFallos 9 5 (mkCuerpoAporte 5 None)
       Ejemplo2.bdPausada
     = (Resuelve (mkRespuesta 404 (JError "Meta activa no encontrada")),
        Ejemplo2.bdPausada).
Proof.
  destruct (meta_no_activa_no_recibe isLengthUnidades sinFallosL 9 5 pausada
              Ejemplo.bd "Meta pausada exitosamente"
              (Meta.conEstado Ejemplo.metaCasiLlena pausada))
    as [H1 H2].
  - exact ejemplo_ids.
  - discriminate.
  - reflexivity.
  - split.
    + apply H1.
    + apply H2.
      * unfold Qle; simpl; lia.
      * exact I.
      * reflexivity.
Defined.

Lemma quitarPrimera_marco (id u : nat) (l : list Meta.t) :
  NoDup (map Meta._id l) ->
  match fst (quitarPrimera id u l) with
  | Some m =>
      In m l /\ Meta._id m = id /\ Meta.usuario m = u
      /\ snd (quitarPrimera id u l)
         = filter (fun x => negb (Meta._id x =? id)%nat) l
  | None =>
      snd (quitarPrimera id u l) = l
      /\ forall x, In x l ->
           (Meta._id x =? id)%nat && (Meta.usuario x =? u)%nat = false
  end.
Proof.
  induction l as [|x l IH]; simpl; intros Hnd.
  - split; [reflexivity | intros x []].
  - inversion Hnd as [|? ? Hx Hnd']; subst. specialize (IH Hnd').
    destruct ((Meta._id x =? id)%nat && (Meta.usuario x =? u)%nat) eqn:E.
    + apply andb_true_iff in E. destruct E as [E1 E2]. rewrite E1. simpl.
      apply Nat.eqb_eq in E1, E2. repeat split; trivial; [now left|].
      symmetry. apply forallb_filter_id. apply forallb_forall.
      intros y Hy. apply negb_true_iff, Nat.eqb_neq. intros Hyid.
      apply Hx. rewrite E1, <- Hyid. now apply in_map.
    + destruct (quitarPrimera id u l) as [res r'] eqn:Er. simpl in *.
      destruct res as [m|].
      * destruct IH as [Hin [Hid [Hu Hs]]].
        repeat split; trivial; [now right|].
        destruct (Meta._id x =? id)%nat eqn:Eid; simpl; [|now rewrite Hs].
        exfalso. apply Hx. apply Nat.eqb_eq in Eid. rewrite Eid, <- Hid.
        now apply in_map.
      * destruct IH as [-> Hno]. split; trivial.
        intros y [<-|Hy]; auto.
Qed.

(** [DELETE /:id] removes the document for good, and it alone.  In a store
    with distinct [_id]s, whatever the call does: the transactions are as
    before, so the contributions recorded for the goal stay in the history;
    and either the answer is 200 with a goal of the caller of that [_id],
    which is then no longer in the store while all other goals are, in their
    order, or the answer is not 200 and the goals are exactly as before. *)
Theorem eliminarMeta_definitiva (fallos : FallosL) (usuarioId id : nat)
    (bd : BD) :
  NoDup (map Meta._id (metas bd)) ->
  let r := eliminarMeta fallos usuarioId id bd in
  transacciones (snd r) = transacciones bd
  /\ exists c,
       fst r = Resuelve c
       /\ ((exists m,
              c = mkContestacion 200
                    (CMensajeMeta "Meta eliminada exitosamente" m)
              /\ In m (metas bd) /\ Meta._id m = id
              /\ Meta.usuario m = usuarioId
              /\ metas (snd r)
                 = filter (fun x => negb (Meta._id x =? id)%nat) (metas bd)
              /\ buscarMeta id (metas (snd r)) = None)
           \/ (codigo c <> 200%nat /\ metas (snd r) = metas bd)).
Proof.
  intros Hnd.
  unfold eliminarMeta, tryCatch, bind, Meta_findOneAndDelete, bind, esperarL.
  destruct (fallos (LMetaFindOneAndDelete id)) as [err|]; simpl.
  - destruct err; simpl; (split; [reflexivity|]); eexists;
      (split; [reflexivity|]); right;
      (split; [simpl; discriminate | reflexivity]).
  - pose proof (quitarPrimera_marco id usuarioId (metas bd) Hnd) as H.
    destruct (quitarPrimera id usuarioId (metas bd)) as [res ms].
    simpl in *. destruct res as [m|]; simpl.
    + destruct H as [Hin [Hid [Hu Hs]]]. split; trivial.
      eexists. split; [reflexivity|]. left. exists m.
      repeat split; trivial. subst ms. unfold buscarMeta.
      apply find_ninguno. intros x Hx. apply filter_In in Hx.
      destruct Hx as [_ Hx]. now apply negb_true_iff in Hx.
    + destruct H as [-> _]. split; trivial.
      eexists. split; [reflexivity|]. right.
      split; [simpl; discriminate | reflexivity].
Qed.

Lemma eliminarMeta_definitiva_witness :
  exists c,
    fst (eliminarMeta sinFallosL 9 5 Ejemplo.bd) = Resuelve c
    /\ ((exists m,
           c = mkContestacion 200
                 (CMensajeMeta "Meta eliminada exitosamente" m)
           /\ In m (metas Ejemplo.bd) /\ Meta._id m = 5%nat
           /\ Meta.usuario m = 9%nat
           /\ metas (snd (eliminarMeta sinFallosL 9 5 Ejemplo.bd))
              = filter (fun x => negb (Meta._id x =? 5)%nat)
                  (metas Ejemplo.bd)
           /\ buscarMeta 5 (metas (snd (eliminarMeta sinFallosL 9 5
                                          Ejemplo.bd))) = None)
        \/ (codigo c <> 200%nat
            /\ metas (snd (eliminarMeta sinFallosL 9 5 Ejemplo.bd))
               = metas Ejemplo.bd)).
Proof.
  apply (eliminarMeta_definitiva sinFallosL 9 5 Ejemplo.bd). exact ejemplo_ids.
Defined.

(** ** Creating and editing a goal *)

Lemma activasDe_app (u : nat) (l l' : list Meta.t) :
  activasDe u (l ++ l') = (activasDe u l + activasDe u l')%nat.
Proof. unfold activasDe. now rewrite filter_app, length_app. Qed.

Lemma nuevoIdMeta_fresco (l : list Meta.t) :
  ~ In (nuevoIdMeta l) (map Meta._id l).
Proof.
  assert (H : forall i, In i (map Meta._id l) ->
                        (i <= fold_right Nat.max 0%nat (map Meta._id l))%nat).
  { induction l as [|m l IH]; simpl; intros i Hi; [contradiction|].
    destruct Hi as [<-|Hi]; [lia|]. specialize (IH i Hi). lia. }
  intros Hin. apply H in Hin. unfold nuevoIdMeta in Hin. lia.
Qed.

(** The runs of [POST /metas]: either the goals are left as they were and
    the answer is not 201, or the caller had fewer than ten active goals and
    one new document was appended. *)
Lemma crearMeta_casos (isLength : js_string -> nat -> nat -> bool)
    (fallos : FallosL) (ahora : Z) (u : nat) (cuerpo : CuerpoMeta)
    (bd : BD) :
  let r := crearMeta isLength fallos ahora u cuerpo bd in
  transacciones (snd r) = transacciones bd
  /\ exists c,
       fst r = Resuelve c
       /\ ((metas (snd r) = metas bd /\ codigo c <> 201%nat)
           \/ (exists doc,
                 metas (snd r) = metas bd ++ [doc]
                 /\ (activasDe u (metas bd) < 10)%nat
                 /\ Meta._id doc = nuevoIdMeta (metas bd)
                 /\ Meta.usuario doc = u
                 /\ Meta.titulo doc = trim (trim (cm_titulo cuerpo))
                 /\ Meta.montoObjetivo doc = cm_montoObjetivo cuerpo
                 /\ Meta.montoActual doc = 0
                 /\ Meta.fechaLimite doc = cm_fechaLimite cuerpo
                 /\ Meta.estado doc = activa
                 /\ metaValida doc = true
                 /\ (c = mkContestacion 201
                           (CMensajeMeta "Meta creada exitosamente" doc)
                     \/ (400 <= codigo c)%nat))).
Proof.
  unfold crearMeta, tryCatch, validacionMeta.
  destruct (isLength (trim (cm_titulo cuerpo)) 3 100
            && Qle_bool 1 (cm_montoObjetivo cuerpo)
            && match cm_fechaLimite cuerpo with
               | Some v => (ahora <? v)%Z
               | None => true
               end)%nat.
  2:{ simpl. split; trivial. eexists. split; [reflexivity|]. left.
      split; [reflexivity | simpl; discriminate]. }
  unfold bind, Meta_countActivas, bind, esperarL, Meta_new, Meta_nueva_save,
    bind, esperarL, ret, lanzar, console_error.
  destruct (fallos (LMetaCount u)) as [err|].
  { destruct err; simpl; (split; [reflexivity|]); eexists;
      (split; [reflexivity|]); left;
      (split; [reflexivity | simpl; discriminate]). }
  cbv beta iota zeta. fold (activasDe u (metas bd)).
  destruct (10 <=? activasDe u (metas bd))%nat eqn:E.
  { simpl. split; trivial. eexists. split; [reflexivity|]. left.
      split; [reflexivity | simpl; discriminate]. }
  apply Nat.leb_gt in E. cbv beta iota zeta.
  cbn [cm_titulo cm_montoObjetivo cm_fechaLimite cm_prioridad
       Meta.fechaLimite].
  set (doc := Meta.mk (nuevoIdMeta (metas bd)) u
                (trim (trim (cm_titulo cuerpo))) (cm_montoObjetivo cuerpo) 0
                (cm_fechaLimite cuerpo)
                match cm_prioridad cuerpo with
                | Some p => p
                | None => media
                end activa).
  destruct (metaValida doc
            && match cm_fechaLimite cuerpo with
               | Some v => (ahora <? v)%Z
               | None => true
               end) eqn:Ev.
  2:{ simpl. split; trivial. eexists. split; [reflexivity|]. left.
      split; [reflexivity | simpl; discriminate]. }
  apply andb_true_iff in Ev. destruct Ev as [Ev _].
  destruct (fallos LMetaNuevaSave) as [err|].
  { destruct err; simpl; (split; [reflexivity|]); eexists;
      (split; [reflexivity|]); left;
      (split; [reflexivity | simpl; discriminate]). }
  cbv beta iota zeta.
  destruct (fallos LMetaPopulate) as [err|].
  - destruct err; cbv beta iota zeta; cbn [fst snd metas transacciones];
      (split; [reflexivity|]); eexists; (split; [reflexivity|]);
      right; exists doc; repeat split; trivial; right; simpl; lia.
  - cbv beta iota zeta. cbn [fst snd metas transacciones].
    split; [reflexivity|]. eexists. split; [reflexivity|].
    right. exists doc. repeat split; trivial. now left.
Qed.

(** [POST /metas] keeps the limit of ten active goals.  For a body that
    gives [titulo], [montoObjetivo] and optionally [fechaLimite] and
    [prioridad], whatever calls reject: a caller with at most ten active
    goals has at most ten afterwards; for a caller with ten or more the goals
    are left exactly as they were; the number of active goals of every other
    user is as before; and no transaction is touched. *)
Theorem crearMeta_limite (isLength : js_string -> nat -> nat -> bool)
    (fallos : FallosL) (ahora : Z) (usuarioId : nat) (cuerpo : CuerpoMeta)
    (bd : BD) :
  let r := crearMeta isLength fallos ahora usuarioId cuerpo bd in
  transacciones (snd r) = transacciones bd
  /\ ((activasDe usuarioId (metas bd) <= 10)%nat ->
      (activasDe usuarioId (metas (snd r)) <= 10)%nat)
  /\ ((10 <= activasDe usuarioId (metas bd))%nat ->
      metas (snd r) = metas bd)
  /\ (forall otro, otro <> usuarioId ->
        activasDe otro (metas (snd r)) = activasDe otro (metas bd)).
Proof.
  destruct (crearMeta_casos isLength fallos ahora usuarioId cuerpo bd)
    as [Ht [c [_ H]]].
  cbv zeta. split; [exact Ht|].
  destruct H as [[-> _]|[doc [-> [Hlt [_ [Hu _]]]]]].
  - repeat split; trivial.
  - split; [|split].
    + intros _. rewrite activasDe_app. unfold activasDe at 2. simpl.
      destruct (esActivaDe usuarioId doc); simpl; lia.
    + intros Hge. lia.
    + intros otro Hne. rewrite activasDe_app. unfold activasDe at 2. simpl.
      unfold esActivaDe. rewrite Hu.
      destruct (Nat.eqb_spec usuarioId otro) as [Heq|_]; simpl; [|lia].
      now elim Hne.
Qed.

(** The goal that [POST /metas] creates.  For a body that gives [titulo],
    [montoObjetivo] and optionally [fechaLimite] and [prioridad], when the
    answer is 201: the goal of the answer is the one new document of the
    store, at its end; it belongs to the caller, has nothing saved, is
    active and passes the schema's validators; its [_id] is that of no
    earlier goal, so distinct [_id]s stay distinct; the caller had fewer than
    ten active goals and now has one more; and the allocator will consider
    the goal on the caller's next income. *)
Theorem crearMeta_creada (isLength : js_string -> nat -> nat -> bool)
    (fallos : FallosL) (ahora : Z) (usuarioId : nat) (cuerpo : CuerpoMeta)
    (bd : BD) (message : string) (meta : Meta.t) :
  fst (crearMeta isLength fallos ahora usuarioId cuerpo bd)
  = Resuelve (mkContestacion 201 (CMensajeMeta message meta)) ->
  let bd1 := snd (crearMeta isLength fallos ahora usuarioId cuerpo bd) in
  metas bd1 = metas bd ++ [meta]
  /\ Meta.usuario meta = usuarioId
  /\ Meta.montoActual meta = 0
  /\ Meta.estado meta = activa
  /\ Meta.montoObjetivo meta = cm_montoObjetivo cuerpo
  /\ metaValida meta = true
  /\ ~ In (Meta._id meta) (map Meta._id (metas bd))
  /\ (NoDup (map Meta._id (metas bd)) -> NoDup (map Meta._id (metas bd1)))
  /\ (activasDe usuarioId (metas bd) < 10)%nat
  /\ activasDe usuarioId (metas bd1) = S (activasDe usuarioId (metas bd))
  /\ In meta (metasProcesadas usuarioId bd1).
Proof.
  intros Hok bd1. subst bd1.
  destruct (crearMeta_casos isLength fallos ahora usuarioId cuerpo bd)
    as [_ [c [Hc H]]].
  cbv zeta in Hc, H. rewrite Hc in Hok. injection Hok as ->.
  destruct H as [[_ Hno]|[doc [Hm [Hlt [Hid [Hu [_ [Hobj [Hact [_ [He [Hv
                   [Hc'|Hc']]]]]]]]]]]]];
    [now elim Hno | | simpl in Hc'; lia].
  injection Hc' as _ <-.
  assert (Hfresco : ~ In (Meta._id meta) (map Meta._id (metas bd))).
  { rewrite Hid. apply nuevoIdMeta_fresco. }
  assert (Hact' : esActivaDe usuarioId meta = true).
  { unfold esActivaDe. now rewrite Hu, He, Nat.eqb_refl. }
  repeat split; trivial.
  - intros Hnd. rewrite Hm, map_app. simpl.
    apply NoDup_app; repeat constructor; trivial.
    + intros [].
    + intros x Hx [<-|[]]. contradiction.
  - rewrite Hm, activasDe_app. unfold activasDe at 2. simpl.
    rewrite Hact'. simpl. lia.
  - unfold metasProcesadas.
    apply (Permutation_in _ (Permutation_sym (ordenar_perm _))).
    apply filter_In. split; trivial. rewrite Hm. apply in_or_app.
    right. now left.
Qed.

Lemma crearMeta_creada_witness :
  exists meta,
    metas (snd (crearMeta isLengthUnidades sinFallosL 0 9
                  (mkCuerpoMeta (utf16 " Bicicleta ") 250 (Some 40%Z) None)
                  Ejemplo.bd))
    = metas Ejemplo.bd ++ [meta]
    /\ Meta.montoActual meta = 0
    /\ Meta.estado meta = activa
    /\ activasDe 9 (metas (snd (crearMeta isLengthUnidades sinFallosL 0 9
                                  (mkCuerpoMeta (utf16 " Bicicleta ") 250
                                     (Some 40%Z) None)
                                  Ejemplo.bd))) = 3%nat.
Proof.
  eexists.
  destruct (crearMeta_creada isLengthUnidades sinFallosL 0 9
              (mkCuerpoMeta (utf16 " Bicicleta ") 250 (Some 40%Z) None)
              Ejemplo.bd _ _ eq_refl)
    as [H1 [_ [H3 [H4 [_ [_ [_ [_ [_ [H10 _]]]]]]]]]].
  split; [exact H1 | split; [exact H3 | split; [exact H4 | exact H10]]].
Defined.

(** ** Editing a goal *)

Lemma Forall2_igual (A : Type) (R : A -> A -> Prop) (l : list A) :
  (forall x, R x x) -> Forall2 R l l.
Proof. intros H. induction l; constructor; auto. Qed.

Lemma Forall2_seguido (A : Type) (R1 R2 R : A -> A -> Prop)
    (l l1 l2 : list A) :
  (forall a b c, R1 a b -> R2 b c -> R a c) ->
  Forall2 R1 l l1 -> Forall2 R2 l1 l2 -> Forall2 R l l2.
Proof.
  intros H H1. revert l2. induction H1; intros l2 H2; inversion H2; subst;
    constructor; eauto.
Qed.

(** What [findOneAndUpdate] of [PUT /:id] does to a document. *)
Lemma modificarPrimera_marco (id u : nat) (c : CuerpoMetaCambios)
    (l : list Meta.t) :
  Forall2
    (fun m m' =>
       m' = m
       \/ (Meta._id m = id /\ Meta.usuario m = u
           /\ Meta._id m' = Meta._id m /\ Meta.usuario m' = Meta.usuario m
           /\ Meta.montoActual m' = Meta.montoActual m
           /\ Meta.fechaLimite m' = Meta.fechaLimite m
           /\ Meta.estado m' = Meta.estado m
           /\ Meta.montoObjetivo m' = cc_montoObjetivo c))
    l (snd (modificarPrimera id u c l))
  /\ match fst (modificarPrimera id u c l) with
     | Some m' =>
         In m' (snd (modificarPrimera id u c l))
         /\ Meta._id m' = id /\ Meta.usuario m' = u
     | None => snd (modificarPrimera id u c l) = l
     end.
Proof.
  induction l as [|x l [IH1 IH2]]; simpl.
  - split; [constructor | reflexivity].
  - destruct ((Meta._id x =? id)%nat && (Meta.usuario x =? u)%nat) eqn:E.
    + apply andb_true_iff in E. destruct E as [E1 E2].
      apply Nat.eqb_eq in E1, E2. simpl. split.
      * constructor; [right; repeat split; trivial|].
        apply Forall2_igual. now left.
      * split; [now left | split; [exact E1 | exact E2]].
    + destruct (modificarPrimera id u c l) as [res r'] eqn:Er. simpl in *.
      split; [constructor; [now left | exact IH1]|].
      destruct res as [m'|].
      * destruct IH2 as [Hin Hid]. split; [now right | exact Hid].
      * now rewrite IH2.
Qed.

(** What [save] does after [estado] was assigned on a document of the
    store. *)
Lemma reemplazar_marco (m : Meta.t) (e : Estado) (l : list Meta.t) :
  NoDup (map Meta._id l) -> In m l ->
  Forall2 (fun x y => y = x \/ (x = m /\ y = Meta.conEstado m e))
    l (reemplazar (Meta.conEstado m e) l).
Proof.
  induction l as [|x l IH]; simpl; intros Hnd Hin; [contradiction|].
  inversion Hnd as [|? ? Hx Hnd']; subst.
  destruct (Meta._id x =? Meta._id m)%nat eqn:E.
  - apply Nat.eqb_eq in E.
    assert (x = m).
    { apply (mismo_id_misma_meta (x :: l)); trivial. now left. }
    subst x. constructor.
    + right. split; reflexivity.
    + apply Forall2_igual. now left.
  - destruct Hin as [->|Hin]; [now rewrite Nat.eqb_refl in E|].
    constructor; [now left | now apply IH].
Qed.

(** [PUT /:id] never touches the amount saved, and it never reopens a goal.
    For a body that gives [titulo], [montoObjetivo] and optionally
    [prioridad], in a store with distinct [_id]s and whatever calls reject:
    the transactions are as before; every goal keeps its [_id], its owner,
    its [montoActual] and its [fechaLimite]; only the caller's goal of that
    [_id] can change at all; and the [estado] of a goal is either as before
    or has gone from [activa] to [completada], the latter only when the amount
    saved has reached the target the document then has. *)
Theorem actualizarMeta_estado (isLength : js_string -> nat -> nat -> bool)
    (fallos : FallosL) (usuarioId id : nat) (cuerpo : CuerpoMetaCambios)
    (bd : BD) :
  NoDup (map Meta._id (metas bd)) ->
  let r := actualizarMeta isLength fallos usuarioId id cuerpo bd in
  transacciones (snd r) = transacciones bd
  /\ Forall2
       (fun m m' =>
          Meta._id m' = Meta._id m
          /\ Meta.usuario m' = Meta.usuario m
          /\ Meta.montoActual m' = Meta.montoActual m
          /\ Meta.fechaLimite m' = Meta.fechaLimite m
          /\ (m' = m \/ (Meta._id m = id /\ Meta.usuario m = usuarioId))
          /\ (Meta.estado m' = Meta.estado m
              \/ (Meta.estado m = activa /\ Meta.estado m' = completada
                  /\ Meta.montoObjetivo m' <= Meta.montoActual m')))
       (metas bd) (metas (snd r)).
Proof.
  intros Hnd.
  set (R := fun m m' : Meta.t =>
          Meta._id m' = Meta._id m
          /\ Meta.usuario m' = Meta.usuario m
          /\ Meta.montoActual m' = Meta.montoActual m
          /\ Meta.fechaLimite m' = Meta.fechaLimite m
          /\ (m' = m \/ (Meta._id m = id /\ Meta.usuario m = usuarioId))
          /\ (Meta.estado m' = Meta.estado m
              \/ (Meta.estado m = activa /\ Meta.estado m' = completada
                  /\ Meta.montoObjetivo m' <= Meta.montoActual m'))).
  assert (Hrefl : Forall2 R (metas bd) (metas bd)).
  { apply Forall2_igual. intros x. unfold R. repeat split; auto. }
  unfold actualizarMeta, tryCatch, validacionMetaCambios.
  destruct (isLength (trim (cc_titulo cuerpo)) 3 100
            && Qle_bool 1 (cc_montoObjetivo cuerpo))%nat.
  2:{ simpl. split; trivial. }
  unfold bind, Meta_findOneAndUpdate, Meta_save_estado, bind, esperarL,
    esperar, basicos, ret, lanzar, console_error.
  cbn [cc_titulo cc_montoObjetivo cc_prioridad].
  set (c := mkCuerpoMetaCambios (trim (cc_titulo cuerpo))
              (cc_montoObjetivo cuerpo) (cc_prioridad cuerpo)).
  destruct (negb (List.length (trim (trim (cc_titulo cuerpo))) =? 0)%nat
            && (List.length (trim (trim (cc_titulo cuerpo))) <=? 100)%nat
            && Qle_bool 1 (cc_montoObjetivo cuerpo)).
  2:{ simpl. split; trivial. }
  destruct (fallos (LMetaFindOneAndUpdate id)) as [err|].
  { destruct err; simpl; split; trivial. }
  cbv beta iota zeta.
  destruct (modificarPrimera_marco id usuarioId c (metas bd)) as [H1 H2].
  assert (Hids : map Meta._id (snd (modificarPrimera id usuarioId c (metas bd)))
                 = map Meta._id (metas bd)).
  { eapply marco_ids; [|exact H1].
    intros a b [->|[_ [_ [Hab _]]]]; trivial. }
  assert (HR1 : Forall2 R (metas bd)
                  (snd (modificarPrimera id usuarioId c (metas bd)))).
  { eapply Forall2_impl; [|exact H1].
    intros a b [->|[Ha [Hu [Hi [Hus [Hma [Hfe [Hes _]]]]]]]]; unfold R.
    - repeat split; auto.
    - repeat split; auto. }
  destruct (modificarPrimera id usuarioId c (metas bd)) as [res ms].
  simpl in H1, H2, Hids, HR1. destruct res as [m'|].
  2:{ simpl. subst ms. split; trivial. }
  destruct H2 as [Hin [Hid' Hu']].
  destruct (Qle_bool (Meta.montoObjetivo m') (Meta.montoActual m')
            && estado_eqb (Meta.estado m') activa) eqn:Econd.
  2:{ simpl. split; trivial. }
  apply andb_true_iff in Econd. destruct Econd as [Ele Eact].
  apply Qle_bool_iff in Ele.
  assert (Hest : Meta.estado m' = activa)
    by (destruct (Meta.estado m'); trivial; discriminate).
  cbn [Meta._id Meta.conEstado].
  destruct (fallos (LBasica (OpMetaSave (Meta._id m')))) as [err|].
  { destruct err; simpl; split; trivial. }
  cbv beta iota zeta. cbn [fst snd metas transacciones]. split; trivial.
  assert (Hnd1 : NoDup (map Meta._id ms)) by now rewrite Hids.
  eapply Forall2_seguido;
    [|exact HR1 | exact (reemplazar_marco m' completada ms Hnd1 Hin)].
  intros a b x Hab [->|[-> ->]]; trivial.
  unfold R in *. destruct Hab as [Hi [Hu [Hm [Hf [Hmod Hes]]]]].
  simpl. repeat split; trivial.
  - right. destruct Hmod as [<-|Hmod]; [split|]; trivial.
  - right. repeat split; trivial. destruct Hes as [Hes|[_ [Hes _]]];
      congruence.
Qed.

Lemma actualizarMeta_estado_witness :
  Forall2
    (fun m m' =>
       Meta.montoActual m' = Meta.montoActual m
       /\ (Meta.estado m' = Meta.estado m
           \/ (Meta.estado m = activa /\ Meta.estado m' = completada
               /\ Meta.montoObjetivo m' <= Meta.montoActual m')))
    (metas Ejemplo.bd)
    (metas (snd (actualizarMeta isLengthUnidades sinFallosL 9 5
                   (mkCuerpoMetaCambios (utf16 "Casa propia") 80 None)
                   Ejemplo.bd))).
Proof.
  eapply Forall2_impl;
    [|apply (actualizarMeta_estado isLengthUnidades sinFallosL 9 5
               (mkCuerpoMetaCambios (utf16 "Casa propia") 80 None)
               Ejemplo.bd ejemplo_ids)].
  intros a b [_ [_ [H1 [_ [_ H2]]]]]. split; [exact H1 | exact H2].
Defined.







(** ** The dashboard and the progress of a goal *)

Lemma compararFecha_antisim (a b : option Z) :
  compararFecha a b = Gt -> compararFecha b a <> Gt.
Proof.
  destruct a as [x|], b as [y|]; simpl; try discriminate.
  intros H. rewrite Z.compare_antisym, H. discriminate.
Qed.

Lemma insertarPorFecha_permutacion (m : Meta.t) (l : list Meta.t) :
  Permutation (insertarPorFecha m l) (m :: l).
Proof.
  induction l as [|x l IH]; simpl.
  - apply Permutation_refl.
  - destruct (compararFecha (Meta.fechaLimite m) (Meta.fechaLimite x));
      try apply Permutation_refl.
    eapply Permutation_trans; [apply perm_skip, IH | apply perm_swap].
Qed.

Lemma ordenarPorFecha_permutacion (l : list Meta.t) :
  Permutation (ordenarPorFecha l) l.
Proof.
  induction l as [|m l IH]; simpl.
  - apply Permutation_refl.
  - eapply Permutation_trans;
      [apply insertarPorFecha_permutacion | apply perm_skip, IH].
Qed.

Lemma insertarPorFecha_ordenada (m : Meta.t) (l : list Meta.t) :
  Sorted (fun a b => compararFecha (Meta.fechaLimite a) (Meta.fechaLimite b)
                     <> Gt) l ->
  Sorted (fun a b => compararFecha (Meta.fechaLimite a) (Meta.fechaLimite b)
                     <> Gt) (insertarPorFecha m l).
Proof.
  induction l as [|x l IH]; simpl; intros Hs.
  - repeat constructor.
  - destruct (compararFecha (Meta.fechaLimite m) (Meta.fechaLimite x)) eqn:E.
    + constructor; trivial. constructor. congruence.
    + constructor; trivial. constructor. congruence.
    + inversion Hs as [|? ? Hs' Hhd]; subst.
      constructor; [now apply IH|].
      destruct l as [|y l]; simpl.
      * constructor. now apply compararFecha_antisim.
      * destruct (compararFecha (Meta.fechaLimite m) (Meta.fechaLimite y));
          constructor; try (now apply compararFecha_antisim);
          now inversion Hhd.
Qed.

Lemma ordenarPorFecha_ordenada (l : list Meta.t) :
  Sorted (fun a b => compararFecha (Meta.fechaLimite a) (Meta.fechaLimite b)
                     <> Gt) (ordenarPorFecha l).
Proof.
  induction l as [|m l IH]; simpl.
  - constructor.
  - now apply insertarPorFecha_ordenada.
Qed.

Lemma contarEstado_total (l : list Meta.t) :
  List.length l
  = (contarEstado activa l + contarEstado completada l
     + contarEstado pausada l + contarEstado cancelada l)%nat.
Proof.
  unfold contarEstado. induction l as [|m l IH]; simpl; trivial.
  destruct (Meta.estado m); simpl; lia.
Qed.

Lemma contarEstado_activasDe (u : nat) (l : list Meta.t) :
  contarEstado activa (filter (fun m => (Meta.usuario m =? u)%nat) l)
  = activasDe u l.
Proof.
  unfold contarEstado, activasDe, esActivaDe.
  induction l as [|m l IH]; simpl; trivial.
  destruct (Meta.usuario m =? u)%nat; simpl; trivial.
  destruct (estado_eqb (Meta.estado m) activa); simpl; now rewrite IH.
Qed.

(** The dashboard counts every goal of the caller once and lists the goals
    that are due.  When the two queries resolve, the answer is 200 and the
    store is unchanged; [total] is the number of the caller's goals and the
    sum of the four counts by [estado]; [activas] is the number the limit of
    [POST /] counts; for a caller without goals the two amounts and
    [progresoGeneral] are 0; and [metasProximasVencer] is sorted by deadline
    and holds exactly the caller's active goals with a deadline not after
    the date thirty days ahead, among them the goals whose deadline has
    already passed.  (Nothing is said of the two amounts and of
    [progresoGeneral] otherwise: they are sums and a quotient in floating
    point.) *)
Theorem dashboardMetas_resumen (fallos : FallosL) (enTreintaDias : Z)
    (usuarioId : nat) (bd : BD) :
  fallos (LMetaFind usuarioId) = None ->
  let suyas :=
    filter (fun m => (Meta.usuario m =? usuarioId)%nat) (metas bd) in
  exists resumen proximas,
    dashboardMetas fallos enTreintaDias usuarioId bd
    = (Resuelve (mkContestacion 200 (CDashboard resumen proximas)), bd)
    /\ r_total resumen = List.length suyas
    /\ r_total resumen
       = (r_activas resumen + r_completadas resumen + r_pausadas resumen
          + r_canceladas resumen)%nat
    /\ r_activas resumen = activasDe usuarioId (metas bd)
    /\ (suyas = [] ->
        montoTotalObjetivos resumen = 0
        /\ montoTotalAhorrado resumen = 0
        /\ progresoGeneral resumen = 0)
    /\ Sorted (fun a b => compararFecha (Meta.fechaLimite a)
                            (Meta.fechaLimite b) <> Gt) proximas
    /\ (forall m,
          In m proximas <->
          In m (metas bd) /\ esActivaDe usuarioId m = true
          /\ exists d, Meta.fechaLimite m = Some d
                       /\ (d <= enTreintaDias)%Z).
Proof.
  intros Hf suyas.
  unfold dashboardMetas, tryCatch, bind, Meta_find_usuario,
    Meta_find_proximas, bind, esperarL.
  rewrite Hf. unfold ret. cbv beta iota zeta. fold suyas.
  do 2 eexists. split; [reflexivity|].
  unfold resumirMetas.
  cbn [r_total r_activas r_completadas r_pausadas r_canceladas
       montoTotalObjetivos montoTotalAhorrado progresoGeneral].
  split; [reflexivity|]. split; [apply contarEstado_total|].
  split; [apply contarEstado_activasDe|].
  split; [|split].
  - intros Hvacia. rewrite Hvacia. simpl. repeat split.
  - apply ordenarPorFecha_ordenada.
  - intros m. split.
    + intros Hin.
      apply (Permutation_in _ (ordenarPorFecha_permutacion _)) in Hin.
      apply filter_In in Hin. destruct Hin as [Hin Hc].
      apply andb_true_iff in Hc. destruct Hc as [Ha Hd].
      repeat split; trivial.
      destruct (Meta.fechaLimite m) as [d|]; [|discriminate].
      exists d. split; trivial. now apply Z.leb_le.
    + intros [Hin [Ha [d [Hd Hle]]]].
      apply (Permutation_in _
               (Permutation_sym (ordenarPorFecha_permutacion _))).
      apply filter_In. split; trivial. rewrite Ha, Hd. simpl.
      now apply Z.leb_le.
Qed.

Lemma dashboardMetas_resumen_witness :
  exists resumen proximas,
    dashboardMetas sinFallosL 25 9 Ejemplo.bd
    = (Resuelve (mkContestacion 200 (CDashboard resumen proximas)),
       Ejemplo.bd)
    /\ r_total resumen = 2%nat
    /\ (In Ejemplo.metaCasiLlena proximas
        /\ ~ In Ejemplo.metaPorLlenar proximas).
Proof.
  destruct (dashboardMetas_resumen sinFallosL 25 9 Ejemplo.bd eq_refl)
    as [resumen [proximas [H1 [H2 [_ [_ [_ [_ H10]]]]]]]].
  exists resumen, proximas. split; [exact H1|]. split; [exact H2|].
  split.
  - apply H10. split; [simpl; tauto|]. split; [reflexivity|].
    exists 20%Z. split; [reflexivity | lia].
  - intros Hin. apply H10 in Hin.
    destruct Hin as [_ [_ [d [Hd Hle]]]]. simpl in Hd.
    injection Hd as <-. lia.
Defined.



(** ** The middlewares *)

Lemma errorHandler_estado (e : Middleware.ErrorExpress) :
  (400 <= fst (Middleware.errorHandler e))%nat.
Proof.
  unfold Middleware.errorHandler.
  repeat match goal with
         | |- context [if ?b then _ else _] => destruct b
         end; simpl; lia.
Qed.

Lemma errorHandler_desconocido (e : Middleware.ErrorExpress) :
  Middleware.code e <> Some 11000%Z ->
  ~ In (Middleware.name e)
      ["ValidationError"; "CastError"; "AuthError"; "RateLimitError";
       "ExternalAPIError"; "NotFoundError"; "ForbiddenError"]%string ->
  Middleware.errorHandler e = (500%nat, "INTERNAL_SERVER_ERROR"%string).
Proof.
  intros Hc Hn. unfold Middleware.errorHandler.
  assert (Hcode : match Middleware.code e with
                  | Some c => (c =? 11000)%Z
                  | None => false
                  end = false).
  { destruct (Middleware.code e) as [c|]; trivial.
    apply Z.eqb_neq. congruence. }
  rewrite Hcode.
  repeat match goal with
         | |- context [String.eqb (Middleware.name e) ?s] =>
             let E := fresh "E" in
             destruct (String.eqb (Middleware.name e) s) eqn:E;
             [apply String.eqb_eq in E; exfalso; apply Hn; rewrite E;
              simpl; tauto|]
         end.
  reflexivity.
Qed.

(** The protected routes run only for an active user of the collection.
    [authenticateToken] followed by [errorHandler] never passes a request on
    without [req.usuario] and never leaves an error unanswered.  It passes a
    request on exactly with the data of an active user whose [_id] is the one
    that the verified token names, and without a [rol]; otherwise it answers
    with a status of at least 400: 401 [TOKEN_REQUIRED] when the header is
    missing or has no second word; 401 [USER_INVALID] when the token
    verifies and the lookup resolves; and 500 [INTERNAL_SERVER_ERROR] when
    verifying throws an error whose name [errorHandler] does not know. *)
Theorem autenticar_resultados
    (verify : js_string -> Middleware.ErrorExpress + nat)
    (usuarios : list Middleware.UsuarioDoc)
    (falloUsuarios : option Middleware.ErrorExpress)
    (authHeader : option js_string) :
  match Middleware.autenticar verify usuarios falloUsuarios authHeader with
  | Middleware.Siguiente None => False
  | Middleware.Siguiente (Some u) =>
      exists token doc,
        Middleware.tokenDe authHeader = Some token /\ token <> []
        /\ verify token = inr (Middleware.id u)
        /\ falloUsuarios = None
        /\ In doc usuarios /\ Middleware._id doc = Middleware.id u
        /\ Middleware.activo doc = true
        /\ u = Middleware.usuarioDe doc
        /\ Middleware.rol u = None
  | Middleware.SiguienteError _ => False
  | Middleware.Responde status codigoRespuesta =>
      (400 <= status)%nat
      /\ (Middleware.tokenDe authHeader = None
          \/ Middleware.tokenDe authHeader = Some [] ->
          status = 401%nat /\ codigoRespuesta = "TOKEN_REQUIRED"%string)
      /\ (forall token decodedId,
            Middleware.tokenDe authHeader = Some token -> token <> [] ->
            verify token = inr decodedId -> falloUsuarios = None ->
            status = 401%nat /\ codigoRespuesta = "USER_INVALID"%string)
      /\ (forall token e,
            Middleware.tokenDe authHeader = Some token -> token <> [] ->
            verify token = inl e ->
            Middleware.code e <> Some 11000%Z ->
            ~ In (Middleware.name e)
                ["ValidationError"; "CastError"; "AuthError";
                 "RateLimitError"; "ExternalAPIError"; "NotFoundError";
                 "ForbiddenError"]%string ->
            status = 500%nat
            /\ codigoRespuesta = "INTERNAL_SERVER_ERROR"%string)
  end.
Proof.
  unfold Middleware.autenticar, Middleware.authenticateToken.
  destruct (Middleware.tokenDe authHeader) as [[|c t]|] eqn:Et.
  - simpl. split; [lia|]. split; [auto|]. split.
    + intros token d [= <-] Hne. now elim Hne.
    + intros token e [= <-] Hne. now elim Hne.
  - destruct (verify (c :: t)) as [e|d] eqn:Ev.
    + split; [apply errorHandler_estado|]. split.
      * intros [H|H]; discriminate.
      * split.
        -- intros token d [= <-] _ Hv. congruence.
        -- intros token e' [= <-] _ Hv Hc Hn.
           assert (e' = e) by congruence. subst e'.
           rewrite (errorHandler_desconocido e Hc Hn). auto.
    + destruct falloUsuarios as [e|] eqn:Ef.
      * split; [apply errorHandler_estado|]. split.
        -- intros [H|H]; discriminate.
        -- split.
           ++ intros token d' _ _ _ Hf. discriminate.
           ++ intros token e' [= <-] _ Hv. congruence.
      * destruct (find (fun u => (Middleware._id u =? d)%nat) usuarios)
          as [doc|] eqn:Efind.
        -- apply find_some in Efind. destruct Efind as [Hin Hid].
           apply Nat.eqb_eq in Hid.
           destruct (Middleware.activo doc) eqn:Ea.
           ++ exists (c :: t), doc. simpl.
              repeat split; trivial; try discriminate; congruence.
           ++ simpl. split; [lia|]. split.
              ** intros [H|H]; discriminate.
              ** split; [auto|].
                 intros token e' [= <-] _ Hv. congruence.
        -- simpl. split; [lia|]. split.
           ++ intros [H|H]; discriminate.
           ++ split; [auto|].
              intros token e' [= <-] _ Hv. congruence.
  - simpl. split; [lia|]. split; [auto|]. split.
    + intros token d H. discriminate.
    + intros token e H. discriminate.
Qed.

(** [optionalAuth] never stops a request, and it recognises exactly the
    users that [authenticateToken] lets through: it always calls [next()],
    with the same [req.usuario] when [authenticateToken] would pass the
    request on and with [null] in every other case. *)
Theorem optionalAuth_como_authenticateToken
    (verify : js_string -> Middleware.ErrorExpress + nat)
    (usuarios : list Middleware.UsuarioDoc)
    (falloUsuarios : option Middleware.ErrorExpress)
    (authHeader : option js_string) :
  Middleware.optionalAuth verify usuarios falloUsuarios authHeader
  = Middleware.Siguiente
      match Middleware.authenticateToken verify usuarios falloUsuarios
              authHeader with
      | Middleware.Siguiente u => u
      | _ => None
      end.
Proof.
  unfold Middleware.optionalAuth, Middleware.authenticateToken.
  destruct (Middleware.tokenDe authHeader) as [[|c t]|]; trivial.
  destruct (verify (c :: t)) as [e|d]; trivial.
  destruct falloUsuarios as [e|]; trivial.
  destruct (find (fun u => (Middleware._id u =? d)%nat) usuarios)
    as [doc|]; trivial.
  now destruct (Middleware.activo doc).
Qed.

(** No user has a role yet.  For a user that [authenticateToken] has let
    through, [checkRole] with an empty list of roles passes the request on,
    and with any list of role names that is not empty it answers 403
    [FORBIDDEN], whatever the names. *)
Theorem checkRole_tras_autenticar
    (verify : js_string -> Middleware.ErrorExpress + nat)
    (usuarios : list Middleware.UsuarioDoc)
    (falloUsuarios : option Middleware.ErrorExpress)
    (authHeader : option js_string) (rolesPermitidos : list js_string)
    (u : option Middleware.UsuarioReq) :
  Middleware.authenticateToken verify usuarios falloUsuarios authHeader
  = Middleware.Siguiente u ->
  Middleware.checkRole rolesPermitidos u
  = match rolesPermitidos with
    | [] => Middleware.Siguiente u
    | _ :: _ => Middleware.Responde 403 "FORBIDDEN"
    end.
Proof.
  intros H.
  assert (Hu : exists doc, u = Some (Middleware.usuarioDe doc)).
  { revert H. unfold Middleware.authenticateToken.
    destruct (Middleware.tokenDe authHeader) as [[|c t]|];
      try (intros Hx; discriminate).
    destruct (verify (c :: t)) as [e|d]; [intros Hx; discriminate|].
    destruct falloUsuarios as [e|]; [intros Hx; discriminate|].
    destruct (find (fun u => (Middleware._id u =? d)%nat) usuarios)
      as [doc|]; [|intros Hx; discriminate].
    destruct (Middleware.activo doc); [|intros Hx; discriminate].
    intros [= <-]. now exists doc. }
  destruct Hu as [doc ->]. unfold Middleware.checkRole. simpl.
  destruct rolesPermitidos; reflexivity.
Qed.

Lemma checkRole_tras_autenticar_witness :
  Middleware.checkRole [utf16 "admin"]
    (Some (Middleware.usuarioDe Ejemplo2.ana))
  = Middleware.Responde 403 "FORBIDDEN".
Proof.
  apply (checkRole_tras_autenticar Ejemplo2.verify [Ejemplo2.ana] None
           (Some (utf16 "Bearer abc")) [utf16 "admin"]
           (Some (Middleware.usuarioDe Ejemplo2.ana))).
  reflexivity.
Defined.
(** * The allocator and the contribution on binary64 amounts *)

(** ** Comparisons and [Math.min] *)

Lemma SFcompare_antisim (x y : Numero.t) :
  SFcompare y x = option_map CompOpp (SFcompare x y).
Proof.
  destruct x as [sx|sx| |sx mx ex], y as [sy|sy| |sy my ey]; simpl;
    try reflexivity;
    try (destruct sx; reflexivity); try (destruct sy; reflexivity);
    try (destruct sx, sy; reflexivity).
  destruct sx, sy; simpl; try reflexivity.
  - rewrite (Z.compare_antisym ex ey).
    destruct (ex ?= ey)%Z; simpl; try reflexivity.
    change (Pos.compare_cont Eq my mx) with (Pos.compare my mx).
    change (Pos.compare_cont Eq mx my) with (Pos.compare mx my).
    now rewrite (Pos.compare_antisym mx my).
  - rewrite (Z.compare_antisym ex ey).
    destruct (ex ?= ey)%Z; simpl; try reflexivity.
    change (Pos.compare_cont Eq my mx) with (Pos.compare my mx).
    change (Pos.compare_cont Eq mx my) with (Pos.compare mx my).
    now rewrite (Pos.compare_antisym mx my).
Qed.

Lemma SFcompare_refl (x : Numero.t) :
  Numero.esNaN x = false -> SFcompare x x = Some Eq.
Proof.
  destruct x as [s|s| |s m e]; simpl; intros H; try reflexivity;
    try discriminate.
  - now destruct s.
  - rewrite Z.compare_refl.
    change (Pos.compare_cont Eq m m) with (Pos.compare m m).
    rewrite Pos.compare_refl. now destruct s.
Qed.

Lemma SFcompare_sin_NaN (x y : Numero.t) :
  Numero.esNaN x = false -> Numero.esNaN y = false ->
  exists c, SFcompare x y = Some c.
Proof.
  destruct x, y; simpl; intros Hx Hy; try discriminate; eexists;
    reflexivity.
Qed.

(** [x < y] implies [x <= y]. *)
Lemma menor_menorIgual (x y : Numero.t) :
  Numero.menor x y = true -> Numero.menorIgual x y = true.
Proof.
  unfold Numero.menor, Numero.menorIgual, SFltb, SFleb.
  now destruct (SFcompare x y) as [[| |]|].
Qed.

(** A comparison that holds has no [NaN] operand. *)
Lemma menor_sin_NaN (x y : Numero.t) :
  Numero.menor x y = true -> Numero.esNaN x = false /\ Numero.esNaN y = false.
Proof.
  unfold Numero.menor, SFltb. destruct x, y; simpl; try discriminate; auto.
Qed.

Lemma menorIgual_sin_NaN (x y : Numero.t) :
  Numero.menorIgual x y = true ->
  Numero.esNaN x = false /\ Numero.esNaN y = false.
Proof.
  unfold Numero.menorIgual, SFleb. destruct x, y; simpl; try discriminate;
    auto.
Qed.

Lemma menorIgual_refl (x : Numero.t) :
  Numero.esNaN x = false -> Numero.menorIgual x x = true.
Proof.
  intros H. unfold Numero.menorIgual, SFleb. now rewrite SFcompare_refl.
Qed.

(** Numbers that are not [NaN] are comparable. *)
Lemma no_menor_menorIgual (x y : Numero.t) :
  Numero.esNaN x = false -> Numero.esNaN y = false ->
  Numero.menor y x = false -> Numero.menorIgual x y = true.
Proof.
  intros Hx Hy. unfold Numero.menor, Numero.menorIgual, SFltb, SFleb.
  rewrite (SFcompare_antisim x y).
  destruct (SFcompare_sin_NaN x y Hx Hy) as [c ->]. simpl.
  now destruct c.
Qed.

Lemma no_menorIgual_menor (x y : Numero.t) :
  Numero.esNaN x = false -> Numero.esNaN y = false ->
  Numero.menorIgual x y = false -> Numero.menor y x = true.
Proof.
  intros Hx Hy. unfold Numero.menor, Numero.menorIgual, SFltb, SFleb.
  rewrite (SFcompare_antisim x y).
  destruct (SFcompare_sin_NaN x y Hx Hy) as [c ->]. simpl.
  now destruct c.
Qed.

Lemma menor_no_menorIgual (x y : Numero.t) :
  Numero.menor x y = true -> Numero.menorIgual y x = false.
Proof.
  unfold Numero.menor, Numero.menorIgual, SFltb, SFleb.
  rewrite (SFcompare_antisim x y).
  now destruct (SFcompare x y) as [[| |]|].
Qed.

(** [Math.min] returns one of its arguments, or [NaN] when one is [NaN]. *)
Lemma min_NaN (x y : Numero.t) :
  Numero.esNaN (Numero.min x y) = Numero.esNaN x || Numero.esNaN y.
Proof.
  unfold Numero.min.
  destruct (Numero.esNaN x) eqn:Ex; simpl; [reflexivity|].
  destruct (Numero.esNaN y) eqn:Ey; simpl; [reflexivity|].
  destruct (Numero.menor y x); [exact Ey|].
  destruct x as [[|]|[|]| |sx mx ex]; try exact Ex;
    destruct y as [[|]|[|]| |sy my ey]; try exact Ex; exact Ey.
Qed.

Lemma min_positivos (x y : Numero.t) :
  Numero.menor Numero.cero x = true ->
  Numero.esNaN y = false ->
  Numero.min x y = if Numero.menor y x then y else x.
Proof.
  intros Hx Hy. unfold Numero.min.
  destruct (menor_sin_NaN _ _ Hx) as [_ Ex]. rewrite Ex, Hy. simpl.
  destruct (Numero.menor y x); [reflexivity|].
  destruct x as [[|]|[|]| |sx mx ex]; try reflexivity; discriminate.
Qed.

(** [x - x] is [+0] for a finite [x]. *)
Lemma resta_mismo (x : Numero.t) :
  Numero.esFinito x = true -> Numero.resta x x = Numero.cero.
Proof.
  destruct x as [s|s| |s m e]; simpl; intros H; try discriminate.
  - now destruct s.
  - unfold Numero.resta, SFsub. rewrite Z.sub_diag. reflexivity.
Qed.

(** The guards of the loop: a pool and a missing amount that are numbers and
    not [<= 0] are positive. *)
Lemma no_menorIgual_cero (x : Numero.t) :
  Numero.esNaN x = false ->
  Numero.menorIgual x Numero.cero = false ->
  Numero.menor Numero.cero x = true.
Proof. intros Hx. now apply no_menorIgual_menor. Qed.

Lemma menor_cero_guardia (x : Numero.t) :
  Numero.menor Numero.cero x = true ->
  Numero.menorIgual x Numero.cero = false.
Proof. apply menor_no_menorIgual. Qed.

(** ** The sign of a rounded result *)

Lemma shr_1_no_negativo (mrs : shr_record) :
  (0 <= shr_m mrs)%Z -> (0 <= shr_m (shr_1 mrs))%Z.
Proof.
  destruct mrs as [m r s]. destruct m as [|p|p]; simpl; intros H;
    [lia | destruct p; simpl; lia | lia].
Qed.

Lemma iter_shr_1_no_negativo (n : positive) (mrs : shr_record) :
  (0 <= shr_m mrs)%Z -> (0 <= shr_m (iter_pos shr_1 n mrs))%Z.
Proof.
  revert mrs; induction n as [n IH|n IH|]; intros mrs H; simpl.
  - now apply IH, IH, shr_1_no_negativo.
  - now apply IH, IH.
  - now apply shr_1_no_negativo.
Qed.

Lemma shr_fexp_no_negativo (m e : Z) (l : location) :
  (0 <= m)%Z ->
  (0 <= shr_m (fst (shr_fexp Numero.prec Numero.emax m e l)))%Z.
Proof.
  intros H. unfold shr_fexp, shr.
  assert (H0 : (0 <= shr_m (shr_record_of_loc m l))%Z)
    by (destruct l as [|[| |]]; exact H).
  destruct (fexp Numero.prec Numero.emax (Zdigits2 m + e) - e)%Z;
    simpl; trivial.
  now apply iter_shr_1_no_negativo.
Qed.

Lemma round_nearest_even_no_negativo (m : Z) (l : location) :
  (0 <= m)%Z -> (0 <= round_nearest_even m l)%Z.
Proof.
  intros H. destruct l as [|[| |]]; simpl; trivial; try lia.
  destruct (Z.even m); lia.
Qed.

(** The result of rounding a mantissa that is not negative is a zero, a
    finite number or an infinity of the sign given; it is not [NaN]. *)
Lemma binary_round_aux_signo (sx : bool) (mx ex : Z) (lx : location) :
  (0 <= mx)%Z ->
  match binary_round_aux Numero.prec Numero.emax sx mx ex lx with
  | S754_zero s | S754_infinity s | S754_finite s _ _ => s = sx
  | S754_nan => False
  end.
Proof.
  intros H. unfold binary_round_aux.
  pose proof (shr_fexp_no_negativo mx ex lx H) as H1.
  destruct (shr_fexp Numero.prec Numero.emax mx ex lx) as [mrs' e'].
  simpl in H1.
  pose proof (round_nearest_even_no_negativo (shr_m mrs')
                (loc_of_shr_record mrs') H1) as H2.
  pose proof (shr_fexp_no_negativo _ e' loc_Exact H2) as H3.
  destruct (shr_fexp Numero.prec Numero.emax
              (round_nearest_even (shr_m mrs') (loc_of_shr_record mrs')) e'
              loc_Exact) as [mrs'' e''].
  simpl in H3. destruct (shr_m mrs'') as [|p|p]; [reflexivity | | lia].
  now destruct (e'' <=? Numero.emax - Numero.prec)%Z.
Qed.

Lemma binary_round_signo (sx : bool) (mx : positive) (ex : Z) :
  match binary_round Numero.prec Numero.emax sx mx ex with
  | S754_zero s | S754_infinity s | S754_finite s _ _ => s = sx
  | S754_nan => False
  end.
Proof.
  unfold binary_round.
  destruct (shl_align mx ex _) as [mz ez].
  apply binary_round_aux_signo. lia.
Qed.

Lemma noNegativo_casos (x : Numero.t) :
  Numero.noNegativo x = true <->
  match x with
  | S754_zero _ => True
  | S754_infinity s | S754_finite s _ _ => s = false
  | S754_nan => False
  end.
Proof.
  unfold Numero.noNegativo.
  destruct x as [s|s| |s m e]; simpl; try tauto;
    try (split; [discriminate | contradiction]);
    destruct s; simpl; split; trivial; discriminate.
Qed.

(** The sum of two numbers that are not negative is not negative. *)
Lemma suma_no_negativa (x y : Numero.t) :
  Numero.noNegativo x = true -> Numero.noNegativo y = true ->
  Numero.noNegativo (Numero.suma x y) = true.
Proof.
  intros Hx Hy. apply noNegativo_casos in Hx, Hy. apply noNegativo_casos.
  destruct x as [sx|sx| |sx mx ex], y as [sy|sy| |sy my ey];
    try contradiction; subst; simpl; trivial;
    try (now destruct sx, sy); try (now destruct sx); try (now destruct sy).
  unfold Numero.suma, SFadd, cond_Zopp.
  destruct (shl_align mx ex (Z.min ex ey)) as [m1 e1].
  destruct (shl_align my ey (Z.min ex ey)) as [m2 e2]. simpl.
  pose proof (binary_round_signo false (m1 + m2) (Z.min ex ey)) as H.
  destruct (binary_round Numero.prec Numero.emax false (m1 + m2)
              (Z.min ex ey)); trivial.
Qed.

(** ** Differences of canonical numbers *)

Lemma digits2_pos_cotas (p : positive) :
  (2 ^ (Z.pos (digits2_pos p) - 1) <= Z.pos p < 2 ^ Z.pos (digits2_pos p))%Z.
Proof.
  induction p as [p IH|p IH|]; simpl digits2_pos.
  - rewrite Pos2Z.inj_succ.
    replace (Z.succ (Z.pos (digits2_pos p)) - 1)%Z
      with (Z.succ (Z.pos (digits2_pos p) - 1))%Z by lia.
    rewrite !Z.pow_succ_r by lia. lia.
  - rewrite Pos2Z.inj_succ.
    replace (Z.succ (Z.pos (digits2_pos p)) - 1)%Z
      with (Z.succ (Z.pos (digits2_pos p) - 1))%Z by lia.
    rewrite !Z.pow_succ_r by lia. lia.
  - simpl. lia.
Qed.

Lemma iter_xO_valor (m d : positive) :
  Z.pos (Pos.iter xO m d) = (Z.pos m * 2 ^ Z.pos d)%Z.
Proof.
  induction d as [|d IH] using Pos.peano_ind.
  - simpl. lia.
  - rewrite Pos.iter_succ, Pos2Z.inj_succ, Z.pow_succ_r by lia.
    rewrite Pos2Z.inj_xO, IH. lia.
Qed.

Lemma shl_align_valor (m : positive) (e ez : Z) :
  (ez <= e)%Z ->
  Z.pos (fst (shl_align m e ez)) = (Z.pos m * 2 ^ (e - ez))%Z.
Proof.
  intros H. unfold shl_align.
  destruct (ez - e)%Z as [|d|d] eqn:E; simpl.
  - replace (e - ez)%Z with 0%Z by lia. simpl. lia.
  - lia.
  - replace (e - ez)%Z with (Z.pos d) by lia. apply iter_xO_valor.
Qed.

(** A canonical mantissa has at most 53 bits, and 53 above the smallest
    exponent. *)
Lemma canonico_cotas (s : bool) (m : positive) (e : Z) :
  valid_binary Numero.prec Numero.emax (S754_finite s m e) = true ->
  (Z.pos m < 2 ^ 53)%Z
  /\ (-1074 <= e)%Z
  /\ (-1074 < e -> 2 ^ 52 <= Z.pos m)%Z.
Proof.
  unfold valid_binary, bounded, canonical_mantissa, fexp, emin,
    Numero.prec, Numero.emax.
  intros H. apply andb_true_iff in H. destruct H as [H _].
  apply Z.eqb_eq in H.
  pose proof (digits2_pos_cotas m) as [Hlo Hhi].
  assert (Hd : (Z.pos (digits2_pos m) <= 53)%Z) by lia.
  split; [|split; [lia|]].
  - eapply Z.lt_le_trans; [exact Hhi|].
    apply Z.pow_le_mono_r; lia.
  - intros He.
    assert (Z.pos (digits2_pos m) = 53)%Z by lia.
    replace 52%Z with (Z.pos (digits2_pos m) - 1)%Z by lia. exact Hlo.
Qed.

(** For canonical numbers [0 < f < r], the difference [r - f] is not
    negative. *)
Lemma resta_no_negativa (r f : Numero.t) :
  valid_binary Numero.prec Numero.emax r = true ->
  valid_binary Numero.prec Numero.emax f = true ->
  Numero.menor Numero.cero f = true ->
  Numero.menor f r = true ->
  Numero.noNegativo (Numero.resta r f) = true.
Proof.
  intros Vr Vf Hf Hfr. apply noNegativo_casos.
  destruct f as [sf|sf| |sf mf ef]; try discriminate;
    destruct sf; try discriminate;
    destruct r as [sr|sr| |sr mr er]; try discriminate;
    destruct sr; try discriminate; try reflexivity.
  destruct (canonico_cotas _ _ _ Vr) as [Hr1 [Hr2 Hr3]].
  destruct (canonico_cotas _ _ _ Vf) as [Hf1 [Hf2 Hf3]].
  unfold Numero.menor, SFltb, SFcompare in Hfr.
  assert (Hdif : (Z.pos (fst (shl_align mf ef (Z.min er ef)))
                  < Z.pos (fst (shl_align mr er (Z.min er ef))))%Z).
  { rewrite !shl_align_valor by lia.
    destruct (Z.compare_spec ef er) as [E|E|E]; try discriminate.
    - subst ef. rewrite Z.min_id, Z.sub_diag, Z.pow_0_r, !Z.mul_1_r.
      change (Pos.compare_cont Eq mf mr) with (Pos.compare mf mr) in Hfr.
      destruct (Pos.compare_spec mf mr); try discriminate. lia.
    - rewrite Z.min_r by lia. rewrite Z.sub_diag, Z.pow_0_r, Z.mul_1_r.
      assert (H2 : (2 ^ 1 <= 2 ^ (er - ef))%Z)
        by (apply Z.pow_le_mono_r; lia).
      assert (H52 : (2 ^ 52 <= Z.pos mr)%Z) by (apply Hr3; lia).
      rewrite Z.pow_1_r in H2.
      replace (2 ^ 53)%Z with (2 * 2 ^ 52)%Z in Hf1 by reflexivity.
      clear - Hf1 H2 H52.
      set (P := (2 ^ 52)%Z) in *. set (K := (2 ^ (er - ef))%Z) in *.
      clearbody P K. nia. }
  unfold Numero.resta, SFsub, cond_Zopp.
  destruct (Z.pos (fst (shl_align mr er (Z.min er ef)))
            - Z.pos (fst (shl_align mf ef (Z.min er ef))))%Z
    as [|d|d] eqn:Ed; try lia.
  unfold binary_normalize.
  pose proof (binary_round_signo false d (Z.min er ef)) as H.
  destruct (binary_round Numero.prec Numero.emax false d (Z.min er ef));
    trivial.
Qed.

(** The pool of an income that is not negative is not negative. *)
Lemma producto_decimo_no_negativo (x : Numero.t) :
  Numero.noNegativo x = true ->
  Numero.noNegativo (Numero.producto x Numero.decimo) = true.
Proof.
  intros Hx. apply noNegativo_casos in Hx. apply noNegativo_casos.
  assert (Hd : Numero.decimo = S754_finite false 7205759403792794 (-56))
    by (vm_compute; reflexivity).
  rewrite Hd.
  destruct x as [s|s| |s m e]; try contradiction; subst; simpl; trivial.
  unfold Numero.producto, SFmul. simpl xorb.
  pose proof (binary_round_aux_signo false
                (Z.pos (m * 7205759403792794)) (e + -56) loc_Exact) as H.
  destruct (binary_round_aux Numero.prec Numero.emax false
              (Z.pos (m * 7205759403792794)) (e + -56) loc_Exact);
    trivial; apply H; lia.
Qed.
(** ** The allocator's loop on binary64 amounts

    In this section the names of the routes, of the documents and of the
    store are those of the module [Doble]. *)

Section AsignacionDoble.

Import Doble.

(** *** The store's updates *)

Lemma incrementar_ids_doble (id : nat) (q : Numero.t) (l : list Meta.t) :
  map Meta._id (incrementar id q l) = map Meta._id l.
Proof.
  induction l as [|m l IH]; simpl; trivial.
  destruct (Meta._id m =? id)%nat; simpl; [reflexivity | now rewrite IH].
Qed.

Lemma incrementar_map_doble (id : nat) (q : Numero.t) (l : list Meta.t) :
  NoDup (map Meta._id l) ->
  incrementar id q l
  = map (fun m => if (Meta._id m =? id)%nat
                  then Meta.conMontoActual m
                         (Numero.suma (Meta.montoActual m) q)
                  else m) l.
Proof.
  induction l as [|m l IH]; simpl; intros Hnd; trivial.
  inversion Hnd as [|x xs Hnotin Hnd']; subst.
  destruct (Meta._id m =? id)%nat eqn:E.
  - f_equal. apply Nat.eqb_eq in E. subst id.
    clear IH Hnd Hnd'. induction l as [|x l IH]; simpl; trivial.
    simpl in Hnotin.
    destruct (Meta._id x =? Meta._id m)%nat eqn:E.
    + apply Nat.eqb_eq in E. exfalso. apply Hnotin. now left.
    + f_equal. apply IH. intros H. apply Hnotin. now right.
  - f_equal. now apply IH.
Qed.

Lemma buscarAporte_None_doble (id : nat) (incs : list (nat * Numero.t)) :
  ~ In id (map fst incs) -> buscarAporte id incs = None.
Proof.
  induction incs as [|[i q] incs IH]; simpl; intros H; trivial.
  destruct (i =? id)%nat eqn:E.
  - apply Nat.eqb_eq in E. exfalso. apply H. now left.
  - apply IH. intros Hin. apply H. now right.
Qed.

(** With distinct [_id]s, applying the updates one after the other is updating
    every document once. *)
Lemma aplicar_map_doble (incs : list (nat * Numero.t)) (l : list Meta.t) :
  NoDup (map Meta._id l) ->
  NoDup (map fst incs) ->
  aplicar incs l = map (actualizarCon incs) l.
Proof.
  revert l; induction incs as [|[i q] incs IH]; intros l Hl Hincs; simpl.
  - unfold actualizarCon. simpl. now rewrite map_id.
  - inversion Hincs as [|x xs Hnotin Hincs']; subst.
    rewrite IH; [| now rewrite incrementar_ids_doble | assumption].
    rewrite incrementar_map_doble by assumption. rewrite map_map.
    apply map_ext. intros m. unfold actualizarCon. simpl.
    rewrite (Nat.eqb_sym i).
    destruct (Meta._id m =? i)%nat eqn:E.
    + apply Nat.eqb_eq in E. destruct m; simpl in *. subst i.
      now rewrite (buscarAporte_None_doble _ _ Hnotin).
    + reflexivity.
Qed.

(** ** The loop as a list of updates *)

Lemma hastaFallo_prefijo_doble (fallos : Fallos)
    (incs : list (nat * Numero.t)) :
  exists resto, incs = fst (hastaFallo fallos incs) ++ resto.
Proof.
  induction incs as [|[i q] incs [resto IH]]; simpl.
  - now exists [].
  - destruct (falloDe fallos i q).
    + now eexists.
    + destruct (hastaFallo fallos incs) as [p e]. simpl in *.
      exists resto. now rewrite IH at 1.
Qed.

(** The loop performs the updates [aportes] up to the first one that
    rejects, and throws that one's error. *)
Lemma distribuir_traza_doble (fallos : Fallos) (l : list Meta.t)
    (pool : Numero.t) (bd : BD) :
  distribuir fallos pool l bd
  = (match snd (hastaFallo fallos (aportes pool l)) with
     | None => Resuelve tt
     | Some e => Rechaza e
     end,
     mkBD (aplicar (fst (hastaFallo fallos (aportes pool l))) (metas bd))
          (transacciones bd) (consola bd)).
Proof.
  revert pool bd; induction l as [|m l IH]; intros pool bd; simpl.
  - now destruct bd.
  - destruct (Numero.menorIgual pool Numero.cero); [now destruct bd|].
    fold (faltante m).
    destruct (Numero.menorIgual (faltante m) Numero.cero); [apply IH|].
    simpl. unfold bind, Meta_findByIdAndUpdate_inc, falloDe.
    destruct (Numero.esNaN (Numero.min pool (faltante m)));
      [now destruct bd|].
    unfold bind, esperar.
    destruct (fallos (OpMetaFindByIdAndUpdate (Meta._id m))) as [e|].
    + simpl. now destruct bd.
    + simpl. rewrite IH. simpl.
      now destruct (hastaFallo fallos _) as [p e].
Qed.

Lemma aportes_en_lista_doble (l : list Meta.t) (pool : Numero.t) (i : nat)
    (q : Numero.t) :
  In (i, q) (aportes pool l) -> exists g, In g l /\ Meta._id g = i.
Proof.
  revert pool; induction l as [|m l IH]; intros pool; simpl; [contradiction|].
  destruct (Numero.menorIgual pool Numero.cero); [contradiction|].
  destruct (Numero.menorIgual (faltante m) Numero.cero).
  - intros H. destruct (IH _ H) as [g [Hg H']]. exists g. tauto.
  - intros [[= <- <-] | H].
    + exists m. split; [now left | reflexivity].
    + destruct (IH _ H) as [g [Hg H']]. exists g. tauto.
Qed.

Lemma aportes_ids_NoDup_doble (l : list Meta.t) (pool : Numero.t) :
  NoDup (map Meta._id l) -> NoDup (map fst (aportes pool l)).
Proof.
  revert pool; induction l as [|m l IH]; intros pool Hnd; simpl.
  - constructor.
  - inversion Hnd as [|x xs Hnotin Hnd']; subst.
    destruct (Numero.menorIgual pool Numero.cero); [constructor|].
    destruct (Numero.menorIgual (faltante m) Numero.cero); [now apply IH|].
    simpl. constructor; [|now apply IH].
    intros Hin. apply in_map_iff in Hin. destruct Hin as [[i q] [Hi Hin]].
    simpl in Hi. subst i.
    destruct (aportes_en_lista_doble _ _ _ _ Hin) as [g [Hg Hid]].
    apply Hnotin. rewrite <- Hid. now apply in_map.
Qed.

Lemma restanteTras_agotado_doble (pool : Numero.t) (l : list Meta.t) :
  Numero.menorIgual pool Numero.cero = true -> restanteTras pool l = pool.
Proof.
  intros H. induction l as [|m l IH]; simpl; trivial.
  unfold siguienteRestante, pasaDeLargo. now rewrite H.
Qed.

Lemma aportes_agotado_doble (pool : Numero.t) (l : list Meta.t) :
  Numero.menorIgual pool Numero.cero = true -> aportes pool l = [].
Proof. intros H. destruct l; simpl; trivial. now rewrite H. Qed.

Lemma aportes_app_doble (pool : Numero.t) (pre post : list Meta.t) :
  aportes pool (pre ++ post)
  = aportes pool pre ++ aportes (restanteTras pool pre) post.
Proof.
  revert pool; induction pre as [|m pre IH]; intros pool; simpl; trivial.
  unfold siguienteRestante, pasaDeLargo.
  destruct (Numero.menorIgual pool Numero.cero) eqn:Ep.
  - rewrite restanteTras_agotado_doble by assumption.
    now rewrite aportes_agotado_doble.
  - destruct (Numero.menorIgual (faltante m) Numero.cero); [apply IH|].
    simpl. now rewrite IH.
Qed.

Lemma aportes_ids_doble (pool : Numero.t) (l : list Meta.t) (i : nat) :
  In i (map fst (aportes pool l)) -> In i (map Meta._id l).
Proof.
  intros H. apply in_map_iff in H. destruct H as [[i' q] [Hi Hin]].
  simpl in Hi. subst i'.
  destruct (aportes_en_lista_doble _ _ _ _ Hin) as [g [Hg Hid]].
  rewrite <- Hid. now apply in_map.
Qed.

Lemma buscarAporte_app_doble (id : nat) (xs ys : list (nat * Numero.t)) :
  ~ In id (map fst xs) ->
  buscarAporte id (xs ++ ys) = buscarAporte id ys.
Proof.
  induction xs as [|[i q] xs IH]; simpl; intros H; trivial.
  destruct (i =? id)%nat eqn:E.
  - apply Nat.eqb_eq in E. exfalso. apply H. now left.
  - apply IH. intros Hin. apply H. now right.
Qed.

(** What the updates of the loop do to the goal at a given place of the
    list. *)
Lemma actualizarCon_aportes_doble (pool : Numero.t) (pre post : list Meta.t)
    (g : Meta.t) :
  NoDup (map Meta._id (pre ++ g :: post)) ->
  actualizarCon (aportes pool (pre ++ g :: post)) g
  = recibida (restanteTras pool pre) g.
Proof.
  intros Hnd. rewrite map_app in Hnd. simpl in Hnd.
  assert (Hpre : ~ In (Meta._id g) (map Meta._id pre)).
  { intros H. apply NoDup_remove_2 in Hnd. apply Hnd.
    apply in_or_app. now left. }
  assert (Hpost : ~ In (Meta._id g) (map Meta._id post)).
  { intros H. apply NoDup_remove_2 in Hnd. apply Hnd.
    apply in_or_app. now right. }
  unfold actualizarCon, recibida, pasaDeLargo. rewrite aportes_app_doble.
  rewrite buscarAporte_app_doble
    by (intros H; apply Hpre; eapply aportes_ids_doble; eassumption).
  simpl.
  destruct (Numero.menorIgual (restanteTras pool pre) Numero.cero); simpl;
    trivial.
  destruct (Numero.menorIgual (faltante g) Numero.cero); simpl.
  - rewrite buscarAporte_None_doble; trivial.
    intros H; apply Hpost; eapply aportes_ids_doble; eassumption.
  - now rewrite Nat.eqb_refl.
Qed.

Lemma buscarMeta_map_doble (f : Meta.t -> Meta.t) (l : list Meta.t)
    (g : Meta.t) :
  (forall m, Meta._id (f m) = Meta._id m) ->
  NoDup (map Meta._id l) ->
  In g l ->
  buscarMeta (Meta._id g) (map f l) = Some (f g).
Proof.
  intros Hf. unfold buscarMeta.
  induction l as [|m l IH]; simpl; intros Hnd Hin; [contradiction|].
  inversion Hnd as [|x xs Hnotin Hnd']; subst. rewrite Hf.
  destruct Hin as [-> | Hin].
  - now rewrite Nat.eqb_refl.
  - destruct (Meta._id m =? Meta._id g)%nat eqn:E.
    + apply Nat.eqb_eq in E. exfalso. apply Hnotin. rewrite E.
      now apply in_map.
    + now apply IH.
Qed.

Lemma actualizarCon_id_doble (incs : list (nat * Numero.t)) (m : Meta.t) :
  Meta._id (actualizarCon incs m) = Meta._id m.
Proof. unfold actualizarCon. now destruct (buscarAporte _ incs). Qed.

Lemma mismo_id_misma_meta_doble (l : list Meta.t) (a b : Meta.t) :
  NoDup (map Meta._id l) -> In a l -> In b l ->
  Meta._id a = Meta._id b -> a = b.
Proof.
  induction l as [|m l IH]; simpl; intros Hnd Ha Hb Hid; [contradiction|].
  inversion Hnd as [|x xs Hnotin Hnd']; subst.
  destruct Ha as [-> | Ha], Hb as [-> | Hb]; trivial.
  - exfalso. apply Hnotin. rewrite Hid. now apply in_map.
  - exfalso. apply Hnotin. rewrite <- Hid. now apply in_map.
  - now apply IH.
Qed.

(** ** The sort *)

Lemma insertar_perm_doble (m : Meta.t) (l : list Meta.t) :
  Permutation (insertar m l) (m :: l).
Proof.
  induction l as [|x l IH]; simpl; [reflexivity|].
  destruct (noDespues m x); [reflexivity|].
  rewrite IH. apply perm_swap.
Qed.

Lemma ordenar_perm_doble (l : list Meta.t) : Permutation (ordenar l) l.
Proof.
  induction l as [|m l IH]; simpl; [reflexivity|].
  rewrite insertar_perm_doble. now constructor.
Qed.

Lemma noDespues_OrdenAlmacen_doble (a b : Meta.t) :
  noDespues a b = true <-> OrdenAlmacen a b.
Proof.
  unfold noDespues, compararMetas, OrdenAlmacen.
  rewrite compararPrioridad_rango.
  destruct (Nat.compare_spec (rangoAlmacen (Meta.prioridad a))
                             (rangoAlmacen (Meta.prioridad b))) as [E|L|G].
  - assert (Hp : Meta.prioridad a = Meta.prioridad b).
    { destruct (Meta.prioridad a), (Meta.prioridad b);
        simpl in E; congruence. }
    unfold compararFecha, fechaAlmacen.
    destruct (Meta.fechaLimite a) as [x|], (Meta.fechaLimite b) as [y|].
    + destruct (Z.compare_spec x y) as [Exy | Lxy | Gxy]; split; intros Hab;
        try discriminate; try (right; split; [assumption | lia]);
        try reflexivity.
      destruct Hab as [Hab | [_ Hab]]; lia.
    + split; [discriminate|]. intros [H | [_ []]]. lia.
    + split; [|reflexivity]. intros _. right. tauto.
    + split; [|reflexivity]. intros _. right. tauto.
  - split; [intros _; now left | reflexivity].
  - split; [discriminate|]. intros [H | [H _]]; [lia|].
    rewrite H in G. lia.
Qed.

Lemma OrdenAlmacen_total_doble (a b : Meta.t) :
  OrdenAlmacen a b \/ OrdenAlmacen b a.
Proof.
  unfold OrdenAlmacen, fechaAlmacen.
  destruct (Meta.prioridad a), (Meta.prioridad b); simpl;
    try (left; left; lia); try (right; left; lia);
    destruct (Meta.fechaLimite a) as [x|], (Meta.fechaLimite b) as [y|];
    try (left; right; split; [reflexivity | exact I]);
    try (right; right; split; [reflexivity | exact I]);
    destruct (Z.le_ge_cases x y);
    [left | right | left | right | left | right]; right;
    (split; [reflexivity | lia]).
Qed.

Lemma OrdenAlmacen_trans_doble (a b c : Meta.t) :
  OrdenAlmacen a b -> OrdenAlmacen b c -> OrdenAlmacen a c.
Proof.
  unfold OrdenAlmacen, fechaAlmacen.
  intros [H1 | [E1 F1]] [H2 | [E2 F2]].
  - left. lia.
  - left. rewrite <- E2. exact H1.
  - left. rewrite E1. exact H2.
  - right. split; [congruence|].
    destruct (Meta.fechaLimite a), (Meta.fechaLimite b),
      (Meta.fechaLimite c); try tauto; lia.
Qed.

Lemma insertar_ordenada_doble (m : Meta.t) (l : list Meta.t) :
  StronglySorted OrdenAlmacen l ->
  StronglySorted OrdenAlmacen (insertar m l).
Proof.
  induction l as [|x l IH]; simpl; intros Hs.
  - repeat constructor.
  - inversion Hs as [|y ys Hs' Hall]; subst.
    destruct (noDespues m x) eqn:E.
    + apply noDespues_OrdenAlmacen_doble in E.
      constructor; [assumption|]. constructor; [assumption|].
      eapply Forall_impl; [|exact Hall].
      intros z Hz. eapply OrdenAlmacen_trans_doble; eassumption.
    + assert (Hxm : OrdenAlmacen x m).
      { destruct (OrdenAlmacen_total_doble m x) as [H | H]; [|assumption].
        apply noDespues_OrdenAlmacen_doble in H. congruence. }
      constructor; [now apply IH|].
      eapply Permutation_Forall; [symmetry; apply insertar_perm_doble|].
      now constructor.
Qed.

Lemma ordenar_ordenada_doble (l : list Meta.t) :
  StronglySorted OrdenAlmacen (ordenar l).
Proof.
  induction l as [|m l IH]; simpl; [constructor|].
  now apply insertar_ordenada_doble.
Qed.

Lemma ordenada_separada_gen_doble (R : Meta.t -> Meta.t -> Prop)
    (pre mid post : list Meta.t) (a b : Meta.t) :
  StronglySorted R (pre ++ a :: mid ++ b :: post) -> R a b.
Proof.
  induction pre as [|x pre IH]; simpl; intros H.
  - apply StronglySorted_inv in H. destruct H as [_ H].
    rewrite Forall_forall in H. apply H.
    apply in_or_app. right. now left.
  - apply StronglySorted_inv in H. now apply IH.
Qed.

Lemma ordenada_separada_doble (pre mid post : list Meta.t) (a b : Meta.t) :
  StronglySorted OrdenAlmacen (pre ++ a :: mid ++ b :: post) ->
  OrdenAlmacen a b.
Proof. apply ordenada_separada_gen_doble. Qed.


(** ** The allocator *)

Lemma filter_ids_NoDup_doble (f : Meta.t -> bool) (l : list Meta.t) :
  NoDup (map Meta._id l) -> NoDup (map Meta._id (filter f l)).
Proof.
  induction l as [|m l IH]; simpl; intros Hnd; [constructor|].
  inversion Hnd as [|x xs Hnotin Hnd']; subst.
  destruct (f m); simpl; [|now apply IH].
  constructor; [|now apply IH].
  intros Hin. apply Hnotin. apply in_map_iff in Hin.
  destruct Hin as [g [Hid Hg]]. apply filter_In in Hg.
  rewrite <- Hid. apply in_map. tauto.
Qed.

Lemma metasProcesadas_perm_doble (u : nat) (bd : BD) :
  Permutation (metasProcesadas u bd) (filter (esActivaDe u) (metas bd)).
Proof. apply ordenar_perm_doble. Qed.

Lemma metasProcesadas_In_doble (u : nat) (bd : BD) (g : Meta.t) :
  In g (metasProcesadas u bd) ->
  In g (metas bd) /\ esActivaDe u g = true.
Proof.
  intros H. apply (Permutation_in _ (metasProcesadas_perm_doble u bd)) in H.
  now apply filter_In in H.
Qed.

Lemma metasProcesadas_NoDup_doble (u : nat) (bd : BD) :
  NoDup (map Meta._id (metas bd)) ->
  NoDup (map Meta._id (metasProcesadas u bd)).
Proof.
  intros H. eapply Permutation_NoDup.
  - apply Permutation_map. symmetry. apply metasProcesadas_perm_doble.
  - now apply filter_ids_NoDup_doble.
Qed.

(** One run of the allocator: it resolves; when the query rejects nothing is
    updated; otherwise the updates of the loop are applied up to the first one
    that rejects; an error is written to the console. *)
Lemma actualizarMetasConIngreso_traza_doble (fallos : Fallos) (u : nat)
    (m : Numero.t) (bd : BD) :
  actualizarMetasConIngreso fallos u m bd
  = match fallos (OpMetaFind u) with
    | Some e =>
        (Resuelve tt,
         mkBD (metas bd) (transacciones bd)
              (consola bd ++ [("Error actualizando metas:"%string, e)]))
    | None =>
        let r := hastaFallo fallos (aportes (Numero.producto m Numero.decimo)
                                      (metasProcesadas u bd)) in
        (Resuelve tt,
         mkBD (aplicar (fst r) (metas bd)) (transacciones bd)
              (match snd r with
               | None => consola bd
               | Some e =>
                   consola bd ++ [("Error actualizando metas:"%string, e)]
               end))
    end.
Proof.
  unfold actualizarMetasConIngreso, tryCatch, bind, Meta_find_activas, bind,
    esperar.
  destruct (fallos (OpMetaFind u)) as [e|]; simpl; [reflexivity|].
  rewrite distribuir_traza_doble. fold (metasProcesadas u bd).
  destruct (hastaFallo fallos _) as [p [e|]]; reflexivity.
Qed.

Lemma hastaFallo_In_doble (fallos : Fallos) (incs : list (nat * Numero.t)) x :
  In x (fst (hastaFallo fallos incs)) -> In x incs.
Proof.
  destruct (hastaFallo_prefijo_doble fallos incs) as [resto H].
  intros Hin. rewrite H. apply in_or_app. now left.
Qed.

Lemma hastaFallo_pasan_doble (fallos : Fallos)
    (xs ys : list (nat * Numero.t)) :
  (forall x, In x xs -> falloDe fallos (fst x) (snd x) = None) ->
  hastaFallo fallos (xs ++ ys)
  = (xs ++ fst (hastaFallo fallos ys), snd (hastaFallo fallos ys)).
Proof.
  intros H. induction xs as [|[i q] xs IH]; simpl.
  - now destruct (hastaFallo fallos ys).
  - pose proof (H (i, q) (or_introl eq_refl)) as Hi. simpl in Hi.
    rewrite Hi.
    rewrite IH by (intros x Hx; apply H; now right). reflexivity.
Qed.

Lemma hastaFallo_falla_doble (fallos : Fallos)
    (antes despues : list (nat * Numero.t)) (id : nat) (q : Numero.t)
    (e : ErrorJS) :
  (forall x, In x antes -> falloDe fallos (fst x) (snd x) = None) ->
  falloDe fallos id q = Some e ->
  hastaFallo fallos (antes ++ (id, q) :: despues) = (antes, Some e).
Proof.
  intros Hantes He. rewrite hastaFallo_pasan_doble by assumption.
  simpl. rewrite He. simpl. now rewrite app_nil_r.
Qed.

Lemma buscarAporte_app_derecha_doble (id : nat)
    (xs ys : list (nat * Numero.t)) :
  ~ In id (map fst ys) ->
  buscarAporte id (xs ++ ys) = buscarAporte id xs.
Proof.
  intros H. induction xs as [|[i q] xs IH]; simpl.
  - now apply buscarAporte_None_doble.
  - destruct (i =? id)%nat; [reflexivity | exact IH].
Qed.

Lemma metasProcesadas_partes_doble (u : nat) (bd : BD)
    (pre post : list Meta.t) (g : Meta.t) :
  NoDup (map Meta._id (metas bd)) ->
  metasProcesadas u bd = pre ++ g :: post ->
  NoDup (map Meta._id (pre ++ g :: post))
  /\ In g (metas bd)
  /\ ~ In (Meta._id g) (map Meta._id pre)
  /\ ~ In (Meta._id g) (map Meta._id post).
Proof.
  intros Hnd Hl.
  assert (Hnd' : NoDup (map Meta._id (pre ++ g :: post)))
    by (rewrite <- Hl; now apply metasProcesadas_NoDup_doble).
  split; [exact Hnd'|]. split.
  - apply (metasProcesadas_In_doble u). rewrite Hl. apply in_or_app.
    right. now left.
  - rewrite map_app in Hnd'. simpl in Hnd'.
    apply NoDup_remove_2 in Hnd'. split; intros H; apply Hnd';
      apply in_or_app; [now left | now right].
Qed.

(** The goal at a given place of the processing order, after a run in which
    the query and the updates up to this goal's go through. *)
Lemma meta_tras_asignacion_doble (fallos : Fallos) (u : nat) (m : Numero.t)
    (bd : BD) (pre post : list Meta.t) (g : Meta.t) :
  fallos (OpMetaFind u) = None ->
  NoDup (map Meta._id (metas bd)) ->
  metasProcesadas u bd = pre ++ g :: post ->
  (forall x, In x (aportes (Numero.producto m Numero.decimo) (pre ++ [g])) ->
             falloDe fallos (fst x) (snd x) = None) ->
  buscarMeta (Meta._id g)
    (metas (snd (actualizarMetasConIngreso fallos u m bd)))
  = Some (recibida (restanteTras (Numero.producto m Numero.decimo) pre) g).
Proof.
  intros Hfind Hnd Hl Hpasan.
  destruct (metasProcesadas_partes_doble u bd pre post g Hnd Hl)
    as [Hnd' [Hin [Hpre Hpost]]].
  rewrite actualizarMetasConIngreso_traza_doble, Hfind, Hl.
  cbv zeta. cbn [snd metas].
  replace (pre ++ g :: post) with ((pre ++ [g]) ++ post)
    by (rewrite <- app_assoc; reflexivity).
  rewrite aportes_app_doble, hastaFallo_pasan_doble by assumption.
  cbn [fst].
  set (pool := Numero.producto m Numero.decimo) in *.
  set (hechos := fst (hastaFallo fallos
                        (aportes (restanteTras pool (pre ++ [g])) post))).
  assert (Hhechos : ~ In (Meta._id g) (map fst hechos)).
  { intros H. apply Hpost. apply in_map_iff in H.
    destruct H as [x [Hx Hxin]]. apply hastaFallo_In_doble in Hxin.
    rewrite <- Hx. eapply aportes_ids_doble. apply in_map. exact Hxin. }
  assert (Hnd2 : NoDup (map fst (aportes pool (pre ++ [g]) ++ hechos))).
  { assert (H : NoDup (map fst (aportes pool ((pre ++ [g]) ++ post)))).
    { apply aportes_ids_NoDup_doble. rewrite <- app_assoc. exact Hnd'. }
    rewrite aportes_app_doble in H.
    destruct (hastaFallo_prefijo_doble fallos
                (aportes (restanteTras pool (pre ++ [g])) post))
      as [resto Hresto].
    fold hechos in Hresto. rewrite Hresto, app_assoc, map_app in H.
    now apply prefijo_NoDup in H. }
  rewrite aplicar_map_doble by assumption.
  rewrite buscarMeta_map_doble; trivial; [|apply actualizarCon_id_doble].
  f_equal. unfold actualizarCon at 1.
  rewrite buscarAporte_app_derecha_doble by assumption.
  apply (actualizarCon_aportes_doble pool pre [] g).
  replace (pre ++ g :: post) with ((pre ++ [g]) ++ post) in Hnd'
    by (rewrite <- app_assoc; reflexivity).
  rewrite map_app in Hnd'. now apply prefijo_NoDup in Hnd'.
Qed.

(** The store after a run in which the update of a goal fails: the updates
    issued before it have been applied, each to its goal, and nothing else
    is changed but the console. *)
Lemma asignacion_interrumpida_doble (fallos : Fallos) (u : nat)
    (m : Numero.t) (bd : BD) (pre post : list Meta.t) (g : Meta.t)
    (e : ErrorJS) :
  let pool := Numero.producto m Numero.decimo in
  fallos (OpMetaFind u) = None ->
  NoDup (map Meta._id (metas bd)) ->
  metasProcesadas u bd = pre ++ g :: post ->
  (forall x, In x (aportes pool pre) ->
             falloDe fallos (fst x) (snd x) = None) ->
  pasaDeLargo (restanteTras pool pre) g = false ->
  falloDe fallos (Meta._id g)
    (Numero.min (restanteTras pool pre) (faltante g)) = Some e ->
  actualizarMetasConIngreso fallos u m bd
  = (Resuelve tt,
     mkBD (map (actualizarCon (aportes pool pre)) (metas bd))
          (transacciones bd)
          (consola bd ++ [("Error actualizando metas:"%string, e)])).
Proof.
  intros pool Hfind Hnd Hl Hpasan Hpasa Hfalla.
  destruct (metasProcesadas_partes_doble u bd pre post g Hnd Hl)
    as [Hnd' _].
  rewrite actualizarMetasConIngreso_traza_doble, Hfind, Hl.
  fold pool. cbv zeta.
  rewrite aportes_app_doble.
  unfold pasaDeLargo in Hpasa. apply orb_false_iff in Hpasa.
  destruct Hpasa as [Hr Hf].
  cbn [aportes]. rewrite Hr, Hf.
  rewrite (hastaFallo_falla_doble fallos _ _ _ _ e Hpasan Hfalla).
  cbn [fst snd]. f_equal. f_equal.
  apply aplicar_map_doble; trivial.
  assert (H : NoDup (map fst (aportes pool (pre ++ g :: post))))
    by now apply aportes_ids_NoDup_doble.
  rewrite aportes_app_doble, map_app in H. now apply prefijo_NoDup in H.
Qed.

Lemma actualizarCon_ajena_doble (incs : list (nat * Numero.t)) (x : Meta.t) :
  ~ In (Meta._id x) (map fst incs) -> actualizarCon incs x = x.
Proof.
  intros H. unfold actualizarCon. now rewrite buscarAporte_None_doble.
Qed.

Lemma restanteTras_app_doble (pool : Numero.t) (pre post : list Meta.t) :
  restanteTras pool (pre ++ post) = restanteTras (restanteTras pool pre) post.
Proof.
  revert pool; induction pre as [|x pre IH]; intros pool; simpl; trivial.
Qed.

Lemma buscarMeta_In_doble (l : list Meta.t) (m : Meta.t) :
  NoDup (map Meta._id l) -> In m l -> buscarMeta (Meta._id m) l = Some m.
Proof.
  intros Hnd Hin.
  rewrite <- (map_id l) at 1.
  now rewrite (buscarMeta_map_doble (fun x => x) l m).
Qed.


Lemma falloDe_sinFallos_doble (fallos : Fallos) (id : nat) (q : Numero.t) :
  (forall op, fallos op = None) ->
  Numero.esNaN q = false -> falloDe fallos id q = None.
Proof. intros H Hq. unfold falloDe. now rewrite Hq. Qed.

(** The amount of an update that goes through is positive and is at most the
    pool that reached the goal and at most the amount that the goal misses,
    as the code compares numbers. *)
Lemma min_acotado_doble (r f : Numero.t) :
  Numero.menorIgual r Numero.cero = false ->
  Numero.menorIgual f Numero.cero = false ->
  Numero.esNaN (Numero.min r f) = false ->
  Numero.menor Numero.cero (Numero.min r f) = true
  /\ Numero.menorIgual (Numero.min r f) r = true
  /\ Numero.menorIgual (Numero.min r f) f = true
  /\ Numero.min r f = (if Numero.menor f r then f else r).
Proof.
  intros Hr Hf Hq. rewrite min_NaN in Hq. apply orb_false_iff in Hq.
  destruct Hq as [Er Ef].
  pose proof (no_menorIgual_cero r Er Hr) as Hr0.
  pose proof (no_menorIgual_cero f Ef Hf) as Hf0.
  rewrite (min_positivos r f Hr0 Ef).
  destruct (Numero.menor f r) eqn:E.
  - repeat split; trivial.
    + now apply menor_menorIgual.
    + now apply menorIgual_refl.
  - repeat split; trivial.
    + now apply menorIgual_refl.
    + now apply no_menor_menorIgual.
Qed.

End AsignacionDoble.
(** ** The allocator on binary64 amounts: the amounts it adds *)


(** A positive pool that is at most a number leaves that number positive. *)
Lemma menor_cero_menorIgual (x y : Numero.t) :
  Numero.menor Numero.cero x = true ->
  Numero.menorIgual x y = true ->
  Numero.menor Numero.cero y = true.
Proof.
  destruct x as [sx|sx| |sx mx ex], y as [sy|sy| |sy my ey];
    try discriminate; try reflexivity;
    try (destruct sx; discriminate); try (destruct sy; discriminate);
    try (destruct sx, sy; discriminate);
    try (destruct sx, sy; try discriminate; reflexivity).
Qed.

(** C3, on the amounts that the code computes.  The allocator distributes
    the pool [montoIngreso * 0.1], the binary64 product of the income amount
    and the binary64 number nearest to 0.1.  For a user whose only active
    goal misses at least that pool, a positive one, a run in which no call
    rejects sends the whole pool to that goal: the store adds the pool to the
    goal's current amount, as binary64 numbers, changes no other field of the
    goal, and leaves every other goal as it was. *)
Theorem asignacion_diez_por_ciento (fallos : Fallos) (usuarioId : nat)
    (montoIngreso : Numero.t) (bd : Doble.BD) (g : Doble.Meta.t) :
  (forall op, fallos op = None) ->
  NoDup (map Doble.Meta._id (Doble.metas bd)) ->
  filter (Doble.esActivaDe usuarioId) (Doble.metas bd) = [g] ->
  let pool := Numero.producto montoIngreso Numero.decimo in
  Numero.menor Numero.cero pool = true ->
  Numero.menorIgual pool
    (Numero.resta (Doble.Meta.montoObjetivo g) (Doble.Meta.montoActual g))
  = true ->
  let bd' :=
    snd (Doble.actualizarMetasConIngreso fallos usuarioId montoIngreso bd) in
  Doble.buscarMeta (Doble.Meta._id g) (Doble.metas bd')
  = Some (Doble.Meta.conMontoActual g
            (Numero.suma (Doble.Meta.montoActual g) pool))
  /\ (forall otra,
        In otra (Doble.metas bd) ->
        Doble.Meta._id otra <> Doble.Meta._id g ->
        Doble.buscarMeta (Doble.Meta._id otra) (Doble.metas bd')
        = Some otra)
  /\ map Doble.Meta._id (Doble.metas bd') = map Doble.Meta._id (Doble.metas bd).
Proof.
  intros Hsin Hnd Hfil pool Hpool Hcabe bd'.
  assert (Hl : Doble.metasProcesadas usuarioId bd = [g]).
  { unfold Doble.metasProcesadas. now rewrite Hfil. }
  set (f := Numero.resta (Doble.Meta.montoObjetivo g)
                         (Doble.Meta.montoActual g)) in *.
  pose proof (menor_cero_menorIgual pool f Hpool Hcabe) as Hf.
  destruct (menor_sin_NaN _ _ Hf) as [_ Ef].
  assert (Hmin : Numero.min pool f = pool).
  { rewrite (min_positivos pool f Hpool Ef).
    destruct (Numero.menor f pool) eqn:E; [|reflexivity].
    apply menor_no_menorIgual in E. congruence. }
  assert (Hincs : Doble.aportes pool [g] = [(Doble.Meta._id g, pool)]).
  { cbn [Doble.aportes]. change (Doble.faltante g) with f.
    rewrite (menor_cero_guardia pool Hpool), (menor_cero_guardia f Hf).
    now rewrite Hmin. }
  assert (Hrun : Doble.metas bd'
                 = map (Doble.actualizarCon [(Doble.Meta._id g, pool)])
                       (Doble.metas bd)).
  { subst bd'. rewrite actualizarMetasConIngreso_traza_doble, Hsin, Hl.
    fold pool. cbv zeta. rewrite Hincs. cbn [Doble.hastaFallo].
    rewrite falloDe_sinFallos_doble
      by (trivial; now destruct (menor_sin_NaN _ _ Hpool)).
    cbn [fst snd Doble.metas]. apply aplicar_map_doble; trivial.
    simpl. constructor; [intros [] | constructor]. }
  assert (Hg : In g (Doble.metas bd)).
  { apply (metasProcesadas_In_doble usuarioId). rewrite Hl. now left. }
  rewrite Hrun. split; [|split].
  - rewrite buscarMeta_map_doble; trivial; [|apply actualizarCon_id_doble].
    unfold Doble.actualizarCon. simpl. now rewrite Nat.eqb_refl.
  - intros otra Hotra Hne.
    rewrite buscarMeta_map_doble; trivial; [|apply actualizarCon_id_doble].
    f_equal. apply actualizarCon_ajena_doble. simpl. intros [H | []].
    now apply Hne.
  - rewrite map_map. apply map_ext. intros x. apply actualizarCon_id_doble.
Qed.

(** ** The order in which the allocator processes goals *)

Lemma dos_metas_procesadas_doble (u : nat) (bd : Doble.BD)
    (a b : Doble.Meta.t) (x y : Z) :
  Permutation (filter (Doble.esActivaDe u) (Doble.metas bd)) [a; b] ->
  Doble.Meta.prioridad a = Doble.Meta.prioridad b ->
  Doble.Meta.fechaLimite a = Some x ->
  Doble.Meta.fechaLimite b = Some y ->
  (x < y)%Z ->
  Doble.metasProcesadas u bd = [a; b].
Proof.
  intros Hperm Hp Ha Hb Hxy.
  assert (H : Permutation [a; b] (Doble.metasProcesadas u bd)).
  { symmetry. etransitivity; [apply metasProcesadas_perm_doble | exact Hperm]. }
  apply Permutation_length_2_inv in H. destruct H as [H | H]; trivial.
  exfalso.
  pose proof (ordenar_ordenada_doble
                (filter (Doble.esActivaDe u) (Doble.metas bd))) as Hs.
  fold (Doble.metasProcesadas u bd) in Hs. rewrite H in Hs.
  apply (ordenada_separada_doble [] [] []) in Hs.
  destruct Hs as [Hr | [_ Hf]].
  - rewrite Hp in Hr. lia.
  - rewrite Ha, Hb in Hf. simpl in Hf. lia.
Qed.

(** The second of two goals, after a run in which no call rejects. *)
Lemma segunda_meta_doble (fallos : Fallos) (u : nat) (m : Numero.t)
    (bd : Doble.BD) (a b : Doble.Meta.t) :
  (forall op, fallos op = None) ->
  NoDup (map Doble.Meta._id (Doble.metas bd)) ->
  Doble.metasProcesadas u bd = [a; b] ->
  let pool := Numero.producto m Numero.decimo in
  Numero.menor Numero.cero pool = true ->
  Numero.menor Numero.cero (Doble.faltante a) = true ->
  let resto :=
    Numero.resta pool (Numero.min pool (Doble.faltante a)) in
  Doble.buscarMeta (Doble.Meta._id b)
    (Doble.metas (snd (Doble.actualizarMetasConIngreso fallos u m bd)))
  = Some (if Doble.pasaDeLargo resto b
             || Numero.esNaN (Numero.min resto (Doble.faltante b))
          then b
          else Doble.Meta.conMontoActual b
                 (Numero.suma (Doble.Meta.montoActual b)
                    (Numero.min resto (Doble.faltante b)))).
Proof.
  intros Hsin Hnd Hl pool Hpool Hfa resto.
  assert (Ea : Numero.esNaN (Numero.min pool (Doble.faltante a)) = false).
  { rewrite min_NaN.
    destruct (menor_sin_NaN _ _ Hpool) as [_ ->].
    now destruct (menor_sin_NaN _ _ Hfa) as [_ ->]. }
  assert (Hia : Doble.aportes pool [a]
                = [(Doble.Meta._id a, Numero.min pool (Doble.faltante a))]).
  { cbn [Doble.aportes].
    now rewrite (menor_cero_guardia pool Hpool),
                (menor_cero_guardia _ Hfa). }
  assert (Hresto : Doble.restanteTras pool [a] = resto).
  { cbn [Doble.restanteTras].
    unfold Doble.siguienteRestante, Doble.pasaDeLargo.
    now rewrite (menor_cero_guardia pool Hpool),
                (menor_cero_guardia _ Hfa). }
  assert (Hpa : forall x, In x (Doble.aportes pool [a]) ->
                          Doble.falloDe fallos (fst x) (snd x) = None).
  { rewrite Hia. intros x [<- | []]. simpl.
    now apply falloDe_sinFallos_doble. }
  destruct (Doble.pasaDeLargo resto b) eqn:Epasa.
  - cbn [orb].
    rewrite (meta_tras_asignacion_doble fallos u m bd [a] [] b);
      trivial.
    + fold pool. rewrite Hresto. unfold Doble.recibida. now rewrite Epasa.
    + fold pool. change ([a] ++ [b]) with ([a] ++ b :: []).
      rewrite aportes_app_doble, Hresto. intros x Hx.
      apply in_app_or in Hx. destruct Hx as [Hx | Hx]; [now apply Hpa|].
      cbn [Doble.aportes] in Hx. unfold Doble.pasaDeLargo in Epasa.
      destruct (Numero.menorIgual resto Numero.cero); [contradiction|].
      simpl in Epasa. rewrite Epasa in Hx. contradiction.
  - cbn [orb].
    destruct (Numero.esNaN (Numero.min resto (Doble.faltante b))) eqn:Eb.
    + rewrite (asignacion_interrumpida_doble fallos u m bd [a] [] b
                 CastError); trivial.
      * cbn [snd Doble.metas]. fold pool.
        assert (Hb : In b (Doble.metas bd)).
        { apply (metasProcesadas_In_doble u). rewrite Hl. right. now left. }
        rewrite buscarMeta_map_doble; trivial;
          [|apply actualizarCon_id_doble].
        f_equal. apply actualizarCon_ajena_doble. rewrite Hia. simpl.
        intros [H | []].
        assert (Hnd' : NoDup (map Doble.Meta._id [a; b]))
          by (rewrite <- Hl; now apply metasProcesadas_NoDup_doble).
        simpl in Hnd'. inversion Hnd' as [|? ? Hno _]; subst.
        apply Hno. left. now symmetry.
      * fold pool. now rewrite Hresto.
      * fold pool. rewrite Hresto. unfold Doble.falloDe. now rewrite Eb.
    + rewrite (meta_tras_asignacion_doble fallos u m bd [a] [] b);
        trivial.
      * fold pool. rewrite Hresto. unfold Doble.recibida.
        now rewrite Epasa.
      * fold pool. change ([a] ++ [b]) with ([a] ++ b :: []).
        rewrite aportes_app_doble, Hresto. intros x Hx.
        apply in_app_or in Hx. destruct Hx as [Hx | Hx]; [now apply Hpa|].
        cbn [Doble.aportes] in Hx. unfold Doble.pasaDeLargo in Epasa.
        apply orb_false_iff in Epasa. destruct Epasa as [E1 E2].
        rewrite E1, E2 in Hx. destruct Hx as [<- | []]. simpl.
        now apply falloDe_sinFallos_doble.
Qed.

(** When the first goal takes the whole pool, nothing is left. *)
Lemma fondo_agotado_doble (pool f : Numero.t) (b : Doble.Meta.t) :
  Numero.menor Numero.cero pool = true ->
  Numero.esNaN f = false ->
  Numero.menor f pool = false ->
  let resto := Numero.resta pool (Numero.min pool f) in
  Doble.pasaDeLargo resto b
  || Numero.esNaN (Numero.min resto (Doble.faltante b)) = true.
Proof.
  intros Hpool Ef Hm resto. subst resto.
  rewrite (min_positivos pool f Hpool Ef), Hm.
  destruct pool as [s|s| |s mp ep]; try discriminate.
  - destruct s; try discriminate. unfold Doble.pasaDeLargo. simpl.
    now destruct (Numero.menorIgual (Doble.faltante b) Numero.cero).
  - destruct s; try discriminate.
    rewrite (resta_mismo (S754_finite false mp ep)) by reflexivity.
    reflexivity.
Qed.

(** C1, in the order of the store.  The allocator processes each active goal
    of the user once, and no other goal.  Among goals of equal priority it
    follows the deadline, soonest first, with the goals that have no deadline
    before those that have one.  In particular, when a user has two active
    goals of equal priority, both with a deadline, in a run in which no call
    rejects, with a positive pool and a goal of the sooner deadline that
    misses a positive amount: the goal with the sooner deadline receives
    [Math.min(pool, target - current)], and the other goal is reached with
    what is left, the pool minus that amount; it receives nothing when the
    first goal takes the whole pool.  Sums and differences are those of
    binary64 numbers. *)
Theorem metas_procesadas_por_fecha (fallos : Fallos) (usuarioId : nat)
    (montoIngreso : Numero.t) (bd : Doble.BD) :
  Permutation (Doble.metasProcesadas usuarioId bd)
              (filter (Doble.esActivaDe usuarioId) (Doble.metas bd))
  /\ (forall pre a mid b post,
        Doble.metasProcesadas usuarioId bd = pre ++ a :: mid ++ b :: post ->
        Doble.Meta.prioridad a = Doble.Meta.prioridad b ->
        fechaAlmacen (Doble.Meta.fechaLimite a) (Doble.Meta.fechaLimite b))
  /\ (forall a b x y,
        (forall op, fallos op = None) ->
        NoDup (map Doble.Meta._id (Doble.metas bd)) ->
        Permutation (filter (Doble.esActivaDe usuarioId) (Doble.metas bd))
                    [a; b] ->
        Doble.Meta.prioridad a = Doble.Meta.prioridad b ->
        Doble.Meta.fechaLimite a = Some x ->
        Doble.Meta.fechaLimite b = Some y ->
        (x < y)%Z ->
        let pool := Numero.producto montoIngreso Numero.decimo in
        let fa := Numero.resta (Doble.Meta.montoObjetivo a)
                               (Doble.Meta.montoActual a) in
        let fb := Numero.resta (Doble.Meta.montoObjetivo b)
                               (Doble.Meta.montoActual b) in
        Numero.menor Numero.cero pool = true ->
        Numero.menor Numero.cero fa = true ->
        let resto := Numero.resta pool (Numero.min pool fa) in
        let bd' :=
          snd (Doble.actualizarMetasConIngreso fallos usuarioId montoIngreso
                 bd) in
        exists b',
          Doble.buscarMeta (Doble.Meta._id a) (Doble.metas bd')
          = Some (Doble.Meta.conMontoActual a
                    (Numero.suma (Doble.Meta.montoActual a)
                       (Numero.min pool fa)))
          /\ Doble.buscarMeta (Doble.Meta._id b) (Doble.metas bd') = Some b'
          /\ b' = (if Numero.menorIgual resto Numero.cero
                      || Numero.menorIgual fb Numero.cero
                      || Numero.esNaN (Numero.min resto fb)
                   then b
                   else Doble.Meta.conMontoActual b
                          (Numero.suma (Doble.Meta.montoActual b)
                             (Numero.min resto fb)))
          /\ (Numero.menor fa pool = false -> b' = b)).
Proof.
  split; [apply metasProcesadas_perm_doble|]. split.
  - intros pre a mid b post Hl Hp.
    pose proof (ordenar_ordenada_doble
                  (filter (Doble.esActivaDe usuarioId) (Doble.metas bd)))
      as Hs.
    fold (Doble.metasProcesadas usuarioId bd) in Hs. rewrite Hl in Hs.
    apply ordenada_separada_doble in Hs.
    destruct Hs as [Hr | [_ Hf]]; trivial.
    rewrite Hp in Hr. lia.
  - intros a b x y Hsin Hnd Hperm Hp Ha Hb Hxy pool fa fb Hpool Hfa resto
      bd'.
    pose proof (dos_metas_procesadas_doble _ _ _ _ _ _ Hperm Hp Ha Hb Hxy)
      as Hl.
    eexists. split; [|split; [|split]].
    + subst bd'.
      rewrite (meta_tras_asignacion_doble fallos usuarioId montoIngreso bd
                 [] [b] a); trivial.
      * cbn [Doble.restanteTras]. fold pool. unfold Doble.recibida,
          Doble.pasaDeLargo. change (Doble.faltante a) with fa.
        now rewrite (menor_cero_guardia pool Hpool),
                    (menor_cero_guardia fa Hfa).
      * fold pool. cbn [app Doble.aportes].
        change (Doble.faltante a) with fa.
        rewrite (menor_cero_guardia pool Hpool),
                (menor_cero_guardia fa Hfa).
        intros z [<- | []]. simpl. apply falloDe_sinFallos_doble; trivial.
        rewrite min_NaN.
        destruct (menor_sin_NaN _ _ Hpool) as [_ ->].
        now destruct (menor_sin_NaN _ _ Hfa) as [_ ->].
    + apply (segunda_meta_doble fallos usuarioId montoIngreso bd a b);
        assumption.
    + reflexivity.
    + intros Hm. fold pool. change (Doble.faltante a) with fa.
      change (Doble.faltante b) with fb. fold resto.
      unfold Doble.pasaDeLargo. change (Doble.faltante b) with fb.
      pose proof (fondo_agotado_doble pool fa b Hpool) as H.
      destruct (menor_sin_NaN _ _ Hfa) as [_ Efa].
      specialize (H Efa Hm). cbv zeta in H. fold resto in H.
      unfold Doble.pasaDeLargo in H. change (Doble.faltante b) with fb in H.
      now rewrite H.
Qed.

(** ** The pool from goal to goal *)

(** C9, on the amounts that the code computes.  The pool
    [montoIngreso * 0.1] of an income that is not negative is not negative.
    A goal that the loop reaches with the pool [r] is passed by, and [r] is
    carried on, when [r <= 0] or when the goal misses nothing.  Otherwise
    the loop issues one update, of [q = Math.min(r, target - current)], when
    that is a number: [q] is positive, at most [r] and at most what the goal
    misses, and it is one of the two; the pool carried on is [r - q].  When
    the goal misses at least the pool, a finite one, it takes the whole
    pool: the pool carried on is [0] and no later goal is updated.  When it
    misses less, it receives what it misses, and the pool carried on is not
    negative, for canonical binary64 values [r] and [target - current].
    And in a run in which the query resolves and the updates up to the
    goal's go through, the goal's document in the store has [q] added to its
    current amount, or is unchanged when the goal was passed by.  Sums and
    differences are those of binary64 numbers; the exact sum of what is
    added is not promised to be the exact minimum of the pool and the
    missing amounts, nor to stay within the pool. *)
Theorem asignacion_conserva_fondo (fallos : Fallos) (usuarioId : nat)
    (montoIngreso : Numero.t) (bd : Doble.BD)
    (pre post : list Doble.Meta.t) (g : Doble.Meta.t) :
  Doble.metasProcesadas usuarioId bd = pre ++ g :: post ->
  let pool := Numero.producto montoIngreso Numero.decimo in
  let r := Doble.restanteTras pool pre in
  let f := Numero.resta (Doble.Meta.montoObjetivo g)
                        (Doble.Meta.montoActual g) in
  let q := Numero.min r f in
  let r' := Doble.restanteTras pool (pre ++ [g]) in
  (Numero.noNegativo montoIngreso = true -> Numero.noNegativo pool = true)
  /\ (Numero.menorIgual r Numero.cero = true
      \/ Numero.menorIgual f Numero.cero = true ->
      Doble.aportes r [g] = [] /\ r' = r)
  /\ (Numero.menorIgual r Numero.cero = false ->
      Numero.menorIgual f Numero.cero = false ->
      Numero.esNaN q = false ->
      Doble.aportes r [g] = [(Doble.Meta._id g, q)]
      /\ r' = Numero.resta r q
      /\ Numero.menor Numero.cero q = true
      /\ Numero.menorIgual q r = true
      /\ Numero.menorIgual q f = true
      /\ (q = f \/ q = r)
      /\ (Numero.menor f r = false ->
          Numero.esFinito r = true ->
          q = r /\ r' = Numero.cero /\ Doble.aportes r' post = [])
      /\ (Numero.menor f r = true ->
          valid_binary Numero.prec Numero.emax r = true ->
          valid_binary Numero.prec Numero.emax f = true ->
          q = f /\ Numero.noNegativo r' = true))
  /\ (NoDup (map Doble.Meta._id (Doble.metas bd)) ->
      fallos (OpMetaFind usuarioId) = None ->
      (forall x, In x (Doble.aportes pool (pre ++ [g])) ->
                 Doble.falloDe fallos (fst x) (snd x) = None) ->
      Doble.buscarMeta (Doble.Meta._id g)
        (Doble.metas
           (snd (Doble.actualizarMetasConIngreso fallos usuarioId
                   montoIngreso bd)))
      = Some (if Numero.menorIgual r Numero.cero
                 || Numero.menorIgual f Numero.cero
              then g
              else Doble.Meta.conMontoActual g
                     (Numero.suma (Doble.Meta.montoActual g) q))).
Proof.
  intros Hl pool r f q r'.
  assert (Hr' : r' = Doble.siguienteRestante r g).
  { subst r'. now rewrite restanteTras_app_doble. }
  split; [apply producto_decimo_no_negativo|].
  split; [|split].
  - intros H. apply orb_true_iff in H. rewrite Hr'.
    unfold Doble.siguienteRestante, Doble.pasaDeLargo.
    change (Doble.faltante g) with f. rewrite H. split; [|reflexivity].
    cbn [Doble.aportes]. change (Doble.faltante g) with f.
    destruct (Numero.menorIgual r Numero.cero); [reflexivity|].
    simpl in H. now rewrite H.
  - intros Er Ef Eq.
    destruct (min_acotado_doble r f Er Ef Eq) as [H1 [H2 [H3 H4]]].
    fold q in H1, H2, H3, H4.
    assert (Hsig : r' = Numero.resta r q).
    { rewrite Hr'. unfold Doble.siguienteRestante, Doble.pasaDeLargo.
      change (Doble.faltante g) with f. now rewrite Er, Ef. }
    split.
    { cbn [Doble.aportes]. change (Doble.faltante g) with f.
      now rewrite Er, Ef. }
    split; [exact Hsig|]. split; [exact H1|]. split; [exact H2|].
    split; [exact H3|].
    split; [rewrite H4; destruct (Numero.menor f r); auto|].
    split.
    + intros Hm Hfin. rewrite Hm in H4.
      assert (Hcero : r' = Numero.cero)
        by (rewrite Hsig, H4; now apply resta_mismo).
      split; [exact H4|]. split; [exact Hcero|].
      rewrite Hcero. apply aportes_agotado_doble. reflexivity.
    + intros Hm Vr Vf. rewrite Hm in H4. split; [exact H4|].
      rewrite Hsig, H4. apply resta_no_negativa; trivial.
      apply no_menorIgual_cero; trivial.
      now destruct (menor_sin_NaN _ _ Hm).
  - intros Hnd Hfind Hpasan.
    now rewrite (meta_tras_asignacion_doble fallos usuarioId montoIngreso bd
                   pre post g Hfind Hnd Hl Hpasan).
Qed.
(** ** A failure partway through the loop *)

(** The goals after a run in which the update of the goal [g] fails: the
    goals before [g] are as the loop left them, and every other goal is
    untouched. *)
Lemma metas_tras_fallo_doble (fallos : Fallos) (u : nat) (m : Numero.t)
    (bd : Doble.BD) (pre post : list Doble.Meta.t) (g : Doble.Meta.t)
    (e : ErrorJS) :
  let pool := Numero.producto m Numero.decimo in
  fallos (OpMetaFind u) = None ->
  NoDup (map Doble.Meta._id (Doble.metas bd)) ->
  Doble.metasProcesadas u bd = pre ++ g :: post ->
  (forall x, In x (Doble.aportes pool pre) ->
             Doble.falloDe fallos (fst x) (snd x) = None) ->
  Doble.pasaDeLargo (Doble.restanteTras pool pre) g = false ->
  Doble.falloDe fallos (Doble.Meta._id g)
    (Numero.min (Doble.restanteTras pool pre) (Doble.faltante g)) = Some e ->
  let bd' := snd (Doble.actualizarMetasConIngreso fallos u m bd) in
  (forall p1 x p2,
     pre = p1 ++ x :: p2 ->
     Doble.buscarMeta (Doble.Meta._id x) (Doble.metas bd')
     = Some (Doble.recibida (Doble.restanteTras pool p1) x))
  /\ (forall x,
        In x (Doble.metas bd) -> ~ In x pre ->
        Doble.buscarMeta (Doble.Meta._id x) (Doble.metas bd') = Some x).
Proof.
  intros pool Hfind Hnd Hl Hpasan Hpasa Hfalla bd'. subst bd'.
  rewrite (asignacion_interrumpida_doble fallos u m bd pre post g e);
    trivial.
  cbn [snd Doble.metas]. fold pool.
  assert (Hnd' : NoDup (map Doble.Meta._id pre)).
  { assert (H : NoDup (map Doble.Meta._id (pre ++ g :: post)))
      by (rewrite <- Hl; now apply metasProcesadas_NoDup_doble).
    rewrite map_app in H. now apply prefijo_NoDup in H. }
  assert (Hpre : forall x, In x pre -> In x (Doble.metas bd)).
  { intros x Hx. apply (metasProcesadas_In_doble u). rewrite Hl.
    apply in_or_app. now left. }
  split.
  - intros p1 x p2 Hp.
    rewrite buscarMeta_map_doble; trivial;
      [|apply actualizarCon_id_doble
       |apply Hpre; rewrite Hp; apply in_or_app; right; now left].
    f_equal. rewrite Hp. apply actualizarCon_aportes_doble.
    now rewrite <- Hp.
  - intros x Hx Hno.
    rewrite buscarMeta_map_doble; trivial; [|apply actualizarCon_id_doble].
    f_equal. apply actualizarCon_ajena_doble. intros Hin.
    apply aportes_ids_doble in Hin. apply in_map_iff in Hin.
    destruct Hin as [y [Hid Hy]]. apply Hno.
    assert (y = x).
    { apply (mismo_id_misma_meta_doble (Doble.metas bd)); trivial.
      now apply Hpre. }
    now subst.
Qed.

(** C7. A run of the allocator never throws: it resolves whatever calls
    reject.  When its query rejects, the error is written to the console and
    no goal is touched.  When the update of a goal fails, by a rejection of
    the store or because the amount is not a number, after the updates of
    the goals before it have gone through: the run resolves, the error is
    written to the console, every goal before the failure holds what the
    loop gave it (its current amount plus [Math.min] of the pool that
    reached it and the amount it missed, as binary64 numbers, or its old
    amount when the loop passed it by), and every other goal, the one whose
    update failed and the later ones among them, is untouched.  And [POST /]
    for a valid income transaction whose save and populate resolve answers
    201 with the created transaction, which is in the store, whatever calls
    of the allocator reject. *)
Theorem asignacion_no_propaga_errores
    (toLowerCase : js_string -> js_string)
    (isLength : js_string -> nat -> nat -> bool) (fallos : Fallos)
    (usuarioId : nat) (bd : BD) :
  (forall montoIngreso,
     fst (actualizarMetasConIngreso fallos usuarioId montoIngreso bd)
     = Resuelve tt)
  /\ (forall montoIngreso e,
        fallos (OpMetaFind usuarioId) = Some e ->
        snd (actualizarMetasConIngreso fallos usuarioId montoIngreso bd)
        = mkBD (metas bd) (transacciones bd)
               (consola bd ++ [("Error actualizando metas:"%string, e)]))
  /\ (forall (almacen : Doble.BD) (montoIngreso : Numero.t)
             (pre post : list Doble.Meta.t) (g : Doble.Meta.t) (e : ErrorJS),
        NoDup (map Doble.Meta._id (Doble.metas almacen)) ->
        fallos (OpMetaFind usuarioId) = None ->
        Doble.metasProcesadas usuarioId almacen = pre ++ g :: post ->
        let pool := Numero.producto montoIngreso Numero.decimo in
        (forall x, In x (Doble.aportes pool pre) ->
                   Doble.falloDe fallos (fst x) (snd x) = None) ->
        let r := Doble.restanteTras pool pre in
        let f := Numero.resta (Doble.Meta.montoObjetivo g)
                              (Doble.Meta.montoActual g) in
        Numero.menorIgual r Numero.cero = false ->
        Numero.menorIgual f Numero.cero = false ->
        Doble.falloDe fallos (Doble.Meta._id g) (Numero.min r f) = Some e ->
        let res :=
          Doble.actualizarMetasConIngreso fallos usuarioId montoIngreso
            almacen in
        fst res = Resuelve tt
        /\ Doble.consola (snd res)
           = Doble.consola almacen
             ++ [("Error actualizando metas:"%string, e)]
        /\ Doble.transacciones (snd res) = Doble.transacciones almacen
        /\ (forall p1 x p2,
              pre = p1 ++ x :: p2 ->
              let rx := Doble.restanteTras pool p1 in
              let fx := Numero.resta (Doble.Meta.montoObjetivo x)
                                     (Doble.Meta.montoActual x) in
              Doble.buscarMeta (Doble.Meta._id x) (Doble.metas (snd res))
              = Some (if Numero.menorIgual rx Numero.cero
                         || Numero.menorIgual fx Numero.cero
                      then x
                      else Doble.Meta.conMontoActual x
                             (Numero.suma (Doble.Meta.montoActual x)
                                (Numero.min rx fx))))
        /\ (forall x,
              In x (Doble.metas almacen) -> ~ In x pre ->
              Doble.buscarMeta (Doble.Meta._id x) (Doble.metas (snd res))
              = Some x))
  /\ (forall cuerpo c,
        validacionTransaccion isLength cuerpo = Some c ->
        c_tipo cuerpo = ingreso ->
        let t := Transaccion.mk (nuevoId (transacciones bd)) usuarioId
                   ingreso (trim (c_descripcion c)) (c_monto cuerpo)
                   (categoriaFinal toLowerCase c)
                   (option_map trim (c_subcategoria c))
                   (activaInicial (c_activa c)) in
        Transaccion.valida t = true ->
        fallos OpTransaccionSave = None ->
        fallos OpTransaccionPopulate = None ->
        exists bd',
          crearTransaccion toLowerCase isLength fallos usuarioId cuerpo bd
          = (Resuelve
               (mkRespuesta 201
                  (JTransaccion "Transacción creada exitosamente" t)),
             bd')
          /\ transacciones bd' = transacciones bd ++ [t]).
Proof.
  split; [|split; [|split]].
  - intros m. apply actualizarMetasConIngreso_resuelve.
  - intros m e He. rewrite actualizarMetasConIngreso_traza, He. reflexivity.
  - intros almacen m pre post g e Hnd Hfind Hl pool Hpasan r f Hr Hf Hfalla
      res.
    assert (Hpasa : Doble.pasaDeLargo (Doble.restanteTras pool pre) g
                    = false).
    { unfold Doble.pasaDeLargo. fold r. change (Doble.faltante g) with f.
      now rewrite Hr, Hf. }
    destruct (metas_tras_fallo_doble fallos usuarioId m almacen pre post g
                e Hfind Hnd Hl Hpasan Hpasa Hfalla) as [H1 H2].
    subst res.
    rewrite (asignacion_interrumpida_doble fallos usuarioId m almacen pre
               post g e) in *; trivial.
    cbn [fst snd Doble.consola Doble.transacciones] in *.
    repeat split; trivial.
  - intros cuerpo c Hval Htipo t Hvalida Hsave Hpop.
    destruct (validacionTransaccion_tipo _ _ _ Hval) as [Ht [Hm _]].
    rewrite Htipo in Ht.
    pose proof (crearTransaccion_creada toLowerCase isLength fallos
                  usuarioId cuerpo c bd Hval) as H.
    rewrite Ht, Hm in H. fold t in H.
    specialize (H Hvalida Hsave Hpop). simpl in H.
    eexists. split; [exact H|].
    apply (asignacion_sin_transacciones fallos usuarioId (c_monto cuerpo)
             (mkBD (metas bd) (transacciones bd ++ [t]) (consola bd))).
Qed.
(** ** The manual contribution on binary64 amounts *)

Section AporteDoble.

Import Doble.

Variable isLength : js_string -> nat -> nat -> bool.
Variable isFloat : js_string -> bool.
Variable aCadena : Numero.t -> js_string.
Variable aNumero : js_string -> Numero.t.
Variable fallos : Fallos.

Lemma metaActivaDe_datos_doble (u id : nat) (bd : BD) (meta : Meta.t) :
  metaActivaDe u id bd meta ->
  In meta (metas bd) /\ Meta._id meta = id /\ Meta.usuario meta = u
  /\ Meta.estado meta = activa.
Proof.
  unfold metaActivaDe. intros H. apply find_some in H.
  destruct H as [Hin H]. unfold esActivaDe in H.
  repeat rewrite andb_true_iff in H. destruct H as [Hid [Hu He]].
  apply Nat.eqb_eq in Hid, Hu.
  repeat split; trivial. now destruct (Meta.estado meta).
Qed.

Lemma validacionAporte_admisible_doble (monto : Numero.t)
    (descripcion : option js_string) :
  montoAdmitido monto ->
  descripcionAdmisible isLength (mkCuerpoAporte (VNumero monto) descripcion) ->
  validacionAporte isLength isFloat (mkCuerpoAporte (VNumero monto) descripcion)
  = Some (mkCuerpoAporte (VNumero monto) (option_map trim descripcion)).
Proof.
  intros [Hf Hm] Hd. unfold validacionAporte, montoValido. simpl.
  rewrite Hf, Hm. unfold descripcionAdmisible in Hd. simpl in Hd.
  destruct descripcion; simpl in *; [now rewrite Hd | reflexivity].
Qed.

Lemma descripcionAporte_no_vacia_doble (cuerpo : CuerpoAporte)
    (meta : Meta.t) :
  (List.length (trim (descripcionAporte cuerpo meta)) =? 0)%nat = false.
Proof.
  assert (H : In 45%N (trim (descripcionAporte cuerpo meta))).
  { apply trim_In; [|reflexivity]. unfold descripcionAporte.
    apply in_or_app. right. simpl. right. now left. }
  destruct (trim (descripcionAporte cuerpo meta)); [contradiction|reflexivity].
Qed.

Lemma reemplazar_ids_doble (doc : Meta.t) (l : list Meta.t) :
  map Meta._id (reemplazar doc l) = map Meta._id l.
Proof.
  induction l as [|m l IH]; simpl; trivial.
  destruct (Meta._id m =? Meta._id doc)%nat; simpl;
    [reflexivity | now rewrite IH].
Qed.

Lemma reemplazar_otras_doble (doc otra : Meta.t) (l : list Meta.t) :
  In otra l -> Meta._id otra <> Meta._id doc -> In otra (reemplazar doc l).
Proof.
  induction l as [|m l IH]; simpl; intros Hin Hne; [contradiction|].
  destruct (Meta._id m =? Meta._id doc)%nat eqn:E.
  - destruct Hin as [-> | Hin]; [|now right].
    apply Nat.eqb_eq in E. contradiction.
  - destruct Hin as [-> | Hin]; [now left | right; now apply IH].
Qed.

Lemma buscarMeta_reemplazar_doble (doc m : Meta.t) (l : list Meta.t) :
  buscarMeta (Meta._id doc) l = Some m ->
  buscarMeta (Meta._id doc) (reemplazar doc l)
  = Some (Meta.conEstado (Meta.conMontoActual m (Meta.montoActual doc))
            (Meta.estado doc)).
Proof.
  unfold buscarMeta. induction l as [|x l IH]; simpl; [discriminate|].
  destruct (Meta._id x =? Meta._id doc)%nat eqn:E.
  - intros [= ->]. simpl. now rewrite E.
  - intros H. simpl. rewrite E. now apply IH.
Qed.

Lemma nuevoId_fresco_doble (l : list Transaccion.t) :
  ~ In (nuevoId l) (map Transaccion._id l).
Proof.
  unfold nuevoId.
  assert (H : forall x, In x (map Transaccion._id l) ->
                        (x <= fold_right Nat.max 0 (map Transaccion._id l))%nat).
  { induction l as [|t l IH]; simpl; intros x Hx; [contradiction|].
    destruct Hx as [-> | Hx]; [lia|]. specialize (IH x Hx). lia. }
  intros Hin. apply H in Hin. lia.
Qed.

(** The run of [POST /:id/agregar] when no active goal of the caller has the
    given [_id]. *)
Lemma agregarDinero_sin_meta_doble (u id : nat) (cuerpo c : CuerpoAporte)
    (bd : BD) :
  validacionAporte isLength isFloat cuerpo = Some c ->
  fallos (OpMetaFindOne id) = None ->
  find (fun m => (Meta._id m =? id)%nat && esActivaDe u m) (metas bd) = None ->
  agregarDinero isLength isFloat aCadena aNumero fallos u id cuerpo bd
  = (Resuelve (mkRespuesta 404 (JError "Meta activa no encontrada")), bd).
Proof.
  intros Hval Hfind Hnone. unfold agregarDinero, tryCatch.
  rewrite Hval. simpl.
  unfold bind at 1. unfold Meta_findOne_activa, bind, esperar.
  rewrite Hfind. simpl. now rewrite Hnone.
Qed.

(** The run of [POST /:id/agregar] for a contribution that the goal does not
    take. *)
Lemma agregarDinero_excedido_doble (u id : nat) (monto : Numero.t)
    (descripcion : option js_string) (bd : BD) (meta : Meta.t) :
  let cuerpo := mkCuerpoAporte (VNumero monto) descripcion in
  montoAdmitido monto ->
  descripcionAdmisible isLength cuerpo ->
  fallos (OpMetaFindOne id) = None ->
  metaActivaDe u id bd meta ->
  Numero.menor (Meta.montoObjetivo meta)
    (Numero.suma (Meta.montoActual meta) monto) = true ->
  agregarDinero isLength isFloat aCadena aNumero fallos u id cuerpo bd
  = (Resuelve
       (mkRespuesta 400
          (JErrorMontoMaximo "El monto excede el objetivo de la meta"
             (Numero.resta (Meta.montoObjetivo meta)
                           (Meta.montoActual meta)))),
     bd).
Proof.
  intros cuerpo Hm Hd Hfind Hmeta Hexc.
  unfold agregarDinero, tryCatch. subst cuerpo.
  rewrite (validacionAporte_admisible_doble _ _ Hm Hd). simpl.
  unfold bind at 1. unfold Meta_findOne_activa, bind, esperar.
  rewrite Hfind. simpl. unfold metaActivaDe in Hmeta. rewrite Hmeta.
  now rewrite Hexc.
Qed.

(** The run of [POST /:id/agregar] for a contribution that the goal takes,
    when the calls to the store resolve. *)
Lemma agregarDinero_aceptado_doble (u id : nat) (monto : Numero.t)
    (descripcion : option js_string) (bd : BD) (meta : Meta.t) :
  let cuerpo := mkCuerpoAporte (VNumero monto) descripcion in
  montoAdmitido monto ->
  descripcionAdmisible isLength cuerpo ->
  (List.length (trim (descripcionAporte cuerpo meta)) <= 200)%nat ->
  fallos (OpMetaFindOne id) = None ->
  fallos (OpMetaSave id) = None ->
  fallos OpTransaccionSave = None ->
  metaActivaDe u id bd meta ->
  Numero.noNegativo (Meta.montoActual meta) = true ->
  Numero.menorIgual (Numero.suma (Meta.montoActual meta) monto)
    (Meta.montoObjetivo meta) = true ->
  let actual' := Numero.suma (Meta.montoActual meta) monto in
  let meta' :=
    if Numero.menorIgual (Meta.montoObjetivo meta) actual'
    then Meta.conEstado (Meta.conMontoActual meta actual') completada
    else Meta.conMontoActual meta actual' in
  let t := Transaccion.mk (nuevoId (transacciones bd)) u gasto
             (trim (descripcionAporte cuerpo meta)) monto otros
             (Some (utf16 "ahorro_meta")) true in
  agregarDinero isLength isFloat aCadena aNumero fallos u id cuerpo bd
  = (Resuelve
       (mkRespuesta 200
          (JMetaTransaccion
             (if estado_eqb (Meta.estado meta') completada
              then "¡Felicitaciones! Has completado tu meta"
              else "Dinero agregado exitosamente a la meta")
             meta' t)),
     mkBD (reemplazar meta' (metas bd)) (transacciones bd ++ [t])
          (consola bd)).
Proof.
  intros cuerpo Hm Hd Hlen Hfind Hsave Htsave Hmeta Hact Hcabe actual' meta'
    t.
  destruct (metaActivaDe_datos_doble _ _ _ _ Hmeta) as [_ [Hid _]].
  destruct Hm as [Hfin Hmin].
  assert (Hvalida : Transaccion.valida t = true).
  { unfold Transaccion.valida. simpl.
    rewrite descripcionAporte_no_vacia_doble. apply Nat.leb_le in Hlen.
    rewrite Hlen, Hmin. reflexivity. }
  assert (Hmonto : Numero.noNegativo monto = true).
  { apply noNegativo_casos.
    destruct monto as [s|s| |s m e]; try discriminate; trivial.
    now destruct s. }
  assert (H0 : Numero.menorIgual Numero.cero actual' = true)
    by (apply suma_no_negativa; assumption).
  assert (Hnan : Numero.esNaN actual' = false)
    by (now destruct (menorIgual_sin_NaN _ _ H0)).
  assert (Hnm : Numero.esNaN monto = false)
    by (now destruct monto).
  assert (Hno : Numero.menor (Meta.montoObjetivo meta) actual' = false).
  { destruct (Numero.menor (Meta.montoObjetivo meta) actual') eqn:E;
      trivial.
    apply menor_no_menorIgual in E. fold actual' in Hcabe. congruence. }
  assert (Hid' : Meta._id meta' = id)
    by (subst meta';
        destruct (Numero.menorIgual (Meta.montoObjetivo meta) actual');
        exact Hid).
  assert (Hsave' : Meta_save fallos meta' bd
                   = (Resuelve tt,
                      mkBD (reemplazar meta' (metas bd)) (transacciones bd)
                           (consola bd))).
  { unfold Meta_save.
    replace (Meta.montoActual meta') with actual'
      by (subst meta';
          now destruct (Numero.menorIgual (Meta.montoObjetivo meta) actual')).
    rewrite H0. unfold bind, esperar. now rewrite Hid', Hsave. }
  assert (Htsave' : forall bd0,
            transacciones bd0 = transacciones bd ->
            Transaccion_save fallos t bd0
            = (Resuelve t,
               mkBD (metas bd0) (transacciones bd ++ [t]) (consola bd0))).
  { intros bd0 Hbd0. unfold Transaccion_save. rewrite Hvalida.
    unfold bind, esperar. rewrite Htsave. unfold ret. now rewrite Hbd0. }
  unfold agregarDinero, tryCatch. subst cuerpo.
  rewrite (validacionAporte_admisible_doble _ _ (conj Hfin Hmin) Hd).
  unfold bind at 1. unfold Meta_findOne_activa, bind, esperar.
  rewrite Hfind. unfold ret at 1. unfold metaActivaDe in Hmeta.
  rewrite Hmeta. cbn [a_monto a_descripcion mas mayorQue].
  fold actual'. rewrite Hno. unfold castNumber. cbv zeta.
  rewrite Hnan, Hnm.
  cbn [Meta.montoObjetivo Meta.montoActual Meta.conMontoActual].
  change (if Numero.menorIgual (Meta.montoObjetivo meta) actual'
          then Meta.conEstado (Meta.conMontoActual meta actual') completada
          else Meta.conMontoActual meta actual') with meta'.
  rewrite Hsave'. cbv beta iota.
  unfold Transaccion_new. cbv beta iota.
  replace (Transaccion.mk _ u gasto _ _ otros _ true) with t.
  2:{ subst t. cbn [transacciones]. f_equal.
      unfold descripcionAporte. cbn [a_descripcion].
      replace (Meta.titulo meta') with (Meta.titulo meta)
        by (subst meta';
            now destruct (Numero.menorIgual (Meta.montoObjetivo meta)
                            actual')).
      now destruct descripcion. }
  rewrite Htsave' by reflexivity.
  reflexivity.
Qed.

End AporteDoble.

(** C4, for the amounts that the route admits in a JSON number.  For every
    active goal of the caller and every contribution that passes the route's
    validation with a number for [monto], that is a finite amount of at
    least 0.01, with current + amount > target as the code adds and compares
    them, when the lookup of the goal resolves: the answer is 400 with the
    payload [montoMaximo] equal to target - current, and the store, the goal
    with it, is left as it was. *)
Theorem aporte_excedido_rechazado :
  Doble.AporteExcedidoRechazado Doble.montoAdmitido.
Proof.
  intros isLength isFloat aCadena aNumero fallos u id monto descripcion bd
    meta cuerpo Hm Hd Hfind Hmeta Hexc.
  now apply agregarDinero_excedido_doble.
Qed.

(** C5, for the amounts that the route admits in a JSON number.  For every
    active goal of the caller, whose current amount is not negative, and
    every contribution that passes the route's validation with a number for
    [monto], that is a finite amount of at least 0.01, with current + amount
    <= target as the code adds and compares them, when the composed
    description fits the 200 code units of the transaction schema and the
    calls to the store resolve: the goal's current amount becomes the
    binary64 sum current + amount, its [estado] becomes ['completada']
    exactly when the target is [<=] the new current amount and stays
    ['activa'] otherwise, its other fields and the other goals are
    unchanged, exactly one transaction is added, an expense ('gasto') of
    that amount tagged ['ahorro_meta'] with a fresh [_id], and the answer
    carries the updated goal and that transaction. *)
Theorem aporte_aceptado :
  Doble.AporteAceptado Doble.montoAdmitido.
Proof.
  intros isLength isFloat aCadena aNumero fallos u id monto descripcion bd
    meta cuerpo Hm Hd Hlen Hfind Hsave Htsave Hnd Hmeta Hact Hcabe.
  destruct (metaActivaDe_datos_doble _ _ _ _ Hmeta) as [Hin [Hid [Hu Hest]]].
  pose proof (agregarDinero_aceptado_doble isLength isFloat aCadena aNumero
                fallos u id monto descripcion bd meta Hm Hd Hlen Hfind Hsave
                Htsave Hmeta Hact Hcabe) as Hrun.
  cbv zeta in Hrun. fold cuerpo in Hrun.
  set (actual' := Numero.suma (Doble.Meta.montoActual meta) monto) in *.
  set (meta' := if Numero.menorIgual (Doble.Meta.montoObjetivo meta) actual'
                then Doble.Meta.conEstado
                       (Doble.Meta.conMontoActual meta actual') completada
                else Doble.Meta.conMontoActual meta actual') in *.
  set (t := Doble.Transaccion.mk (Doble.nuevoId (Doble.transacciones bd)) u
              gasto (trim (Doble.descripcionAporte cuerpo meta)) monto otros
              (Some (utf16 "ahorro_meta")) true) in *.
  assert (Hid' : Doble.Meta._id meta' = id).
  { subst meta'.
    destruct (Numero.menorIgual (Doble.Meta.montoObjetivo meta) actual');
      simpl; exact Hid. }
  assert (Hmonto : Doble.Meta.montoActual meta' = actual').
  { subst meta'.
    now destruct (Numero.menorIgual (Doble.Meta.montoObjetivo meta)
                    actual'). }
  assert (Hobj : Doble.Meta.montoObjetivo meta'
                 = Doble.Meta.montoObjetivo meta).
  { subst meta'.
    now destruct (Numero.menorIgual (Doble.Meta.montoObjetivo meta)
                    actual'). }
  exists meta', t. eexists. split; [exact Hrun|].
  assert (Hbuscar : Doble.buscarMeta (Doble.Meta._id meta') (Doble.metas bd)
                    = Some meta).
  { rewrite Hid', <- Hid. now apply buscarMeta_In_doble. }
  split.
  { rewrite <- Hid' at 1. rewrite (buscarMeta_reemplazar_doble _ _ _ Hbuscar).
    f_equal. subst meta'.
    destruct (Numero.menorIgual (Doble.Meta.montoObjetivo meta) actual');
      now destruct meta. }
  split; [apply reemplazar_ids_doble|].
  split.
  { intros otra Ho Hne. apply reemplazar_otras_doble; trivial.
    now rewrite Hid'. }
  split; [exact Hmonto|].
  split.
  { subst meta'.
    destruct (Numero.menorIgual (Doble.Meta.montoObjetivo meta) actual');
      destruct meta; simpl in *; now subst estado. }
  rewrite Hobj, Hmonto.
  assert (Hcasos :
    (Numero.menorIgual (Doble.Meta.montoObjetivo meta) actual' = true
     /\ Doble.Meta.estado meta' = completada)
    \/ (Numero.menorIgual (Doble.Meta.montoObjetivo meta) actual' = false
        /\ Doble.Meta.estado meta' = activa)).
  { subst meta'.
    destruct (Numero.menorIgual (Doble.Meta.montoObjetivo meta) actual')
      eqn:E.
    - left. split; reflexivity.
    - right. split; [reflexivity | exact Hest]. }
  split.
  { destruct Hcasos as [[H1 H2] | [H1 H2]]; rewrite H1, H2; split; trivial;
      discriminate. }
  split.
  { destruct Hcasos as [[H1 H2] | [H1 H2]]; rewrite H1, H2; split; trivial;
      discriminate. }
  repeat split. apply nuevoId_fresco_doble.
Qed.

Lemma find_conjuncion_ninguno_doble (q : Doble.Meta.t -> bool) (id : nat)
    (l : list Doble.Meta.t) (m : Doble.Meta.t) :
  Doble.buscarMeta id l = Some m -> q m = false ->
  NoDup (map Doble.Meta._id l) ->
  find (fun x => (Doble.Meta._id x =? id)%nat && q x) l = None.
Proof.
  intros Hb Hq Hnd. apply find_ninguno. intros x Hx.
  destruct (Doble.Meta._id x =? id)%nat eqn:E; trivial. simpl.
  apply Nat.eqb_eq in E. unfold Doble.buscarMeta in Hb.
  apply find_some in Hb.
  destruct Hb as [Hm Hid]. apply Nat.eqb_eq in Hid.
  assert (x = m)
    by (eapply mismo_id_misma_meta_doble; eauto; congruence).
  now subst.
Qed.

(** A goal that a manual contribution has completed takes no further manual
    contribution: after a contribution, sent as a JSON number, with which
    the goal reaches its target (the binary64 sum current + amount is the
    target, as the code compares them), every contribution to the same goal
    that passes the route's validation is answered 404 and changes
    nothing. *)
Theorem aporte_tras_completar (isLength : js_string -> nat -> nat -> bool)
    (isFloat : js_string -> bool) (aCadena : Numero.t -> js_string)
    (aNumero : js_string -> Numero.t) (fallos : Fallos)
    (usuarioId id : nat) (monto : Numero.t)
    (descripcion : option js_string) (otro c : Doble.CuerpoAporte)
    (bd : Doble.BD) (meta : Doble.Meta.t) :
  let cuerpo := Doble.mkCuerpoAporte (Doble.VNumero monto) descripcion in
  Doble.montoAdmitido monto ->
  Doble.descripcionAdmisible isLength cuerpo ->
  (List.length (trim (Doble.descripcionAporte cuerpo meta)) <= 200)%nat ->
  fallos (OpMetaFindOne id) = None ->
  fallos (OpMetaSave id) = None ->
  fallos OpTransaccionSave = None ->
  NoDup (map Doble.Meta._id (Doble.metas bd)) ->
  Doble.metaActivaDe usuarioId id bd meta ->
  Numero.noNegativo (Doble.Meta.montoActual meta) = true ->
  Numero.menorIgual (Numero.suma (Doble.Meta.montoActual meta) monto)
    (Doble.Meta.montoObjetivo meta) = true ->
  Numero.menorIgual (Doble.Meta.montoObjetivo meta)
    (Numero.suma (Doble.Meta.montoActual meta) monto) = true ->
  Doble.validacionAporte isLength isFloat otro = Some c ->
  let bd1 :=
    snd (Doble.agregarDinero isLength isFloat aCadena aNumero fallos
           usuarioId id cuerpo bd) in
  Doble.agregarDinero isLength isFloat aCadena aNumero fallos usuarioId id
    otro bd1
  = (Resuelve
       (Doble.mkRespuesta 404 (Doble.JError "Meta activa no encontrada")),
     bd1).
Proof.
  intros cuerpo Hm Hd Hlen Hfind Hsave Htsave Hnd Hmeta Hact Hcabe Hllega
    Hotro bd1.
  pose proof (agregarDinero_aceptado_doble isLength isFloat aCadena aNumero
                fallos usuarioId id monto descripcion bd meta Hm Hd Hlen
                Hfind Hsave Htsave Hmeta Hact Hcabe) as Hrun.
  cbv zeta in Hrun. subst bd1. fold cuerpo in Hrun. rewrite Hrun.
  simpl snd.
  destruct (metaActivaDe_datos_doble _ _ _ _ Hmeta) as [Hin [Hid [Hu Hest]]].
  rewrite Hllega.
  set (meta' := Doble.Meta.conEstado
                  (Doble.Meta.conMontoActual meta
                     (Numero.suma (Doble.Meta.montoActual meta) monto))
                  completada).
  apply (agregarDinero_sin_meta_doble isLength isFloat aCadena aNumero
           fallos usuarioId id otro c); trivial.
  simpl Doble.metas.
  assert (Hb : Doble.buscarMeta (Doble.Meta._id meta') (Doble.metas bd)
               = Some meta).
  { change (Doble.Meta._id meta') with (Doble.Meta._id meta).
    now apply buscarMeta_In_doble. }
  pose proof (buscarMeta_reemplazar_doble _ _ _ Hb) as Hb'.
  change (Doble.Meta._id meta') with (Doble.Meta._id meta) in Hb'.
  rewrite Hid in Hb'.
  eapply find_conjuncion_ninguno_doble; [exact Hb' | |].
  - unfold Doble.esActivaDe. simpl. apply andb_false_r.
  - now rewrite reemplazar_ids_doble.
Qed.
(** ** The development on the sample data, on binary64 amounts *)

Lemma ejemploDoble_ids :
  NoDup (map Doble.Meta._id (Doble.metas EjemploDoble.bd)).
Proof.
  simpl. repeat (apply NoDup_cons; [simpl; lia|]). apply NoDup_nil.
Qed.

(** C1 with the order high, medium, low and with missing deadlines last does
    not hold.  On the sample data the goals of user 7 are not processed high
    priority first: the medium-priority goal takes the whole pool of 50 and
    the high-priority goal gets nothing.  The goals of user 8, of equal
    priority, are not processed with the goal without a deadline last: it
    takes the whole pool and the goal with a deadline gets nothing. *)
Lemma orden_especificado_no_se_cumple :
  ~ (forall usuarioId bd,
       StronglySorted Doble.OrdenEspecificado
         (Doble.metasProcesadas usuarioId bd))
  /\ Doble.metasProcesadas 7 EjemploDoble.bd
     = [EjemploDoble.metaMedia; EjemploDoble.metaAlta]
  /\ ~ Doble.OrdenEspecificado EjemploDoble.metaMedia EjemploDoble.metaAlta
  /\ map (fun m => (Doble.Meta._id m, Doble.Meta.montoActual m))
       (Doble.metas
          (snd (Doble.actualizarMetasConIngreso sinFallos 7 (Numero.deZ 500)
                  EjemploDoble.bd)))
     = [(1%nat, Numero.cero); (2%nat, Numero.deZ 50); (3%nat, Numero.cero);
        (4%nat, Numero.cero); (5%nat, Numero.deZ 90);
        (6%nat, Numero.decimal 99999 1000); (8%nat, Numero.cero);
        (7%nat, Numero.deZ 80); (9%nat, Numero.cero);
        (10%nat, Numero.decimal 12 100)]
  /\ Doble.metasProcesadas 8 EjemploDoble.bd
     = [EjemploDoble.metaSinFecha; EjemploDoble.metaConFecha]
  /\ ~ Doble.OrdenEspecificado EjemploDoble.metaSinFecha
         EjemploDoble.metaConFecha
  /\ map (fun m => (Doble.Meta._id m, Doble.Meta.montoActual m))
       (Doble.metas
          (snd (Doble.actualizarMetasConIngreso sinFallos 8 (Numero.deZ 500)
                  EjemploDoble.bd)))
     = [(1%nat, Numero.cero); (2%nat, Numero.cero); (3%nat, Numero.deZ 50);
        (4%nat, Numero.cero); (5%nat, Numero.deZ 90);
        (6%nat, Numero.decimal 99999 1000); (8%nat, Numero.cero);
        (7%nat, Numero.deZ 80); (9%nat, Numero.cero);
        (10%nat, Numero.decimal 12 100)].
Proof.
  assert (H7 : ~ Doble.OrdenEspecificado EjemploDoble.metaMedia
                   EjemploDoble.metaAlta).
  { intros [H | [H _]]; [simpl in H; lia | discriminate]. }
  assert (H8 : ~ Doble.OrdenEspecificado EjemploDoble.metaSinFecha
                   EjemploDoble.metaConFecha).
  { intros [H | [_ H]]; [simpl in H; lia | exact H]. }
  split; [|repeat split; trivial].
  intros H. specialize (H 7%nat EjemploDoble.bd).
  change (Doble.metasProcesadas 7 EjemploDoble.bd)
    with [EjemploDoble.metaMedia; EjemploDoble.metaAlta] in H.
  apply (ordenada_separada_gen_doble Doble.OrdenEspecificado [] [] []) in H.
  exact (H7 H).
Qed.

Lemma metas_procesadas_por_fecha_witness :
  exists b',
    Doble.buscarMeta 7
      (Doble.metas
         (snd (Doble.actualizarMetasConIngreso sinFallos 10 (Numero.deZ 500)
                 EjemploDoble.bd)))
    = Some (Doble.Meta.conMontoActual EjemploDoble.metaPronto
              (Numero.deZ 100))
    /\ Doble.buscarMeta 8
         (Doble.metas
            (snd (Doble.actualizarMetasConIngreso sinFallos 10
                    (Numero.deZ 500) EjemploDoble.bd)))
       = Some b'
    /\ b' = Doble.Meta.conMontoActual EjemploDoble.metaLuego (Numero.deZ 30).
Proof.
  destruct (proj2 (proj2
              (metas_procesadas_por_fecha sinFallos 10 (Numero.deZ 500)
                 EjemploDoble.bd))
              EjemploDoble.metaPronto EjemploDoble.metaLuego 10%Z 20%Z)
    as [b' [Ha [Hb [Hb' _]]]].
  - exact sinFallos_ninguno.
  - exact ejemploDoble_ids.
  - apply perm_swap.
  - reflexivity.
  - reflexivity.
  - reflexivity.
  - reflexivity.
  - reflexivity.
  - reflexivity.
  - exists b'. split; [exact Ha|]. split; [exact Hb|].
    rewrite Hb'. reflexivity.
Defined.



(** C3 does not hold with an exact 10%: for an income of 3 the pool that the
    code computes, [3 * 0.1], is 0.30000000000000004, not three tenths, and
    that is what the only active goal of user 11 receives. *)
Lemma diez_por_ciento_redondeado :
  let ingreso := Numero.deZ 3 in
  let bd' :=
    snd (Doble.actualizarMetasConIngreso sinFallos 11 ingreso
           EjemploDoble.bd) in
  ~ Numero.valor (Numero.producto ingreso Numero.decimo)
    == (10 # 100) * Numero.valor ingreso
  /\ exists g',
       Doble.buscarMeta 9 (Doble.metas bd') = Some g'
       /\ ~ Numero.valor (Doble.Meta.montoActual g')
            - Numero.valor (Doble.Meta.montoActual EjemploDoble.metaUnica)
            == (10 # 100) * Numero.valor ingreso
       /\ (10 # 100) * Numero.valor ingreso
          < Numero.valor (Doble.Meta.montoActual g')
            - Numero.valor (Doble.Meta.montoActual EjemploDoble.metaUnica).
Proof.
  split.
  - intros H. vm_compute in H. discriminate.
  - eexists. split; [vm_compute; reflexivity|]. split.
    + intros H. vm_compute in H. discriminate.
    + reflexivity.
Qed.

Lemma asignacion_diez_por_ciento_witness :
  Doble.buscarMeta 9
    (Doble.metas
       (snd (Doble.actualizarMetasConIngreso sinFallos 11 (Numero.deZ 500)
               EjemploDoble.bd)))
  = Some (Doble.Meta.conMontoActual EjemploDoble.metaUnica (Numero.deZ 50)).
Proof.
  destruct (asignacion_diez_por_ciento sinFallos 11 (Numero.deZ 500)
              EjemploDoble.bd EjemploDoble.metaUnica) as [H _].
  - exact sinFallos_ninguno.
  - exact ejemploDoble_ids.
  - reflexivity.
  - reflexivity.
  - reflexivity.
  - exact H.
Defined.

(** C9 does not hold of the amounts that the code computes.  For an income
    of 189.9 and a single goal at 164.75 of 194.7, the amount by which the
    goal's current amount grows is not the minimum of a tenth of the income
    and the goal's missing amount; it is more than a tenth of the income,
    and more than the pool [189.9 * 0.1] that the code computed. *)
Lemma fondo_no_se_conserva :
  let g := Doble.Meta.mk 1 1 (utf16 "Fondo") (Numero.decimal 1947 10)
             (Numero.decimal 16475 100) None media activa in
  let ingreso := Numero.decimal 1899 10 in
  let bd' :=
    snd (Doble.actualizarMetasConIngreso sinFallos 1 ingreso
           (Doble.mkBD [g] [] [])) in
  exists g',
    Doble.metas bd' = [g']
    /\ let total := Numero.valor (Doble.Meta.montoActual g')
                    - Numero.valor (Doble.Meta.montoActual g) in
       ~ total
         == Qmin ((10 # 100) * Numero.valor ingreso)
              (Numero.valor (Doble.Meta.montoObjetivo g)
               - Numero.valor (Doble.Meta.montoActual g))
       /\ (10 # 100) * Numero.valor ingreso < total
       /\ Numero.valor (Numero.producto ingreso Numero.decimo) < total.
Proof.
  eexists. split; [vm_compute; reflexivity|]. split; [|split].
  - intros H. vm_compute in H. discriminate.
  - reflexivity.
  - reflexivity.
Qed.

Lemma asignacion_conserva_fondo_witness :
  Doble.restanteTras (Numero.producto (Numero.deZ 500) Numero.decimo)
    ([EjemploDoble.metaPorLlenar] ++ [EjemploDoble.metaCasiLlena])
  = Numero.resta
      (Doble.restanteTras (Numero.producto (Numero.deZ 500) Numero.decimo)
         [EjemploDoble.metaPorLlenar])
      (Numero.deZ 10)
  /\ Numero.noNegativo
       (Doble.restanteTras (Numero.producto (Numero.deZ 500) Numero.decimo)
          ([EjemploDoble.metaPorLlenar] ++ [EjemploDoble.metaCasiLlena]))
     = true.
Proof.
  destruct (asignacion_conserva_fondo sinFallos 9 (Numero.deZ 500)
              EjemploDoble.bd [EjemploDoble.metaPorLlenar] []
              EjemploDoble.metaCasiLlena eq_refl)
    as [_ [_ [H _]]].
  destruct (H eq_refl eq_refl eq_refl) as [_ [H2 [_ [_ [_ [_ [_ H8]]]]]]].
  split; [exact H2|].
  now destruct (H8 eq_refl eq_refl eq_refl).
Defined.

Lemma asignacion_no_propaga_errores_witness :
  let res :=
    Doble.actualizarMetasConIngreso EjemploDoble.fallaMeta5 9
      (Numero.deZ 500) EjemploDoble.bd in
  fst res = Resuelve tt
  /\ Doble.consola (snd res)
     = [("Error actualizando metas:"%string, MongoError)]
  /\ Doble.buscarMeta 6 (Doble.metas (snd res))
     = Some (Doble.Meta.conMontoActual EjemploDoble.metaPorLlenar
               (Numero.deZ 100))
  /\ Doble.buscarMeta 5 (Doble.metas (snd res))
     = Some EjemploDoble.metaCasiLlena.
Proof.
  intros res.
  destruct (asignacion_no_propaga_errores toLowerCaseLatin1 isLengthUnidades
              EjemploDoble.fallaMeta5 9 Ejemplo.bd) as [_ [_ [H3 _]]].
  destruct (H3 EjemploDoble.bd (Numero.deZ 500)
              [EjemploDoble.metaPorLlenar] []
              EjemploDoble.metaCasiLlena MongoError)
    as [H1 [H2 [_ [H4 H5]]]].
  - exact ejemploDoble_ids.
  - reflexivity.
  - reflexivity.
  - intros x Hx. vm_compute in Hx. destruct Hx as [<- | []]. reflexivity.
  - reflexivity.
  - reflexivity.
  - reflexivity.
  - split; [exact H1|]. split; [exact H2|]. split.
    + exact (H4 [] EjemploDoble.metaPorLlenar [] eq_refl).
    + apply (H5 EjemploDoble.metaCasiLlena).
      * simpl. tauto.
      * intros [H | []]. discriminate H.
Defined.

(** C4 does not hold for every positive amount: a contribution of 0.005 to a
    goal with target 100 and current amount 99.999 is positive and would
    exceed the target, and is answered 400 by the route's validation, with no
    [montoMaximo] in the payload. *)
Lemma aporte_excedido_positivo_no_rechazado :
  ~ Doble.AporteExcedidoRechazado
      (fun monto => Numero.menor Numero.cero monto = true).
Proof.
  intros H.
  specialize (H isLengthUnidades EjemploDoble.isFloatNinguna
                EjemploDoble.aCadenaVacia EjemploDoble.aNumeroNaN sinFallos
                9%nat 6%nat (Numero.decimal 5 1000) None EjemploDoble.bd
                EjemploDoble.metaPorLlenar).
  cbv zeta in H.
  assert (Hrun : Doble.agregarDinero isLengthUnidades
                   EjemploDoble.isFloatNinguna EjemploDoble.aCadenaVacia
                   EjemploDoble.aNumeroNaN sinFallos 9 6
                   (Doble.mkCuerpoAporte
                      (Doble.VNumero (Numero.decimal 5 1000)) None)
                   EjemploDoble.bd
                 = (Resuelve
                      (Doble.mkRespuesta 400
                         (Doble.JErrorDetalles "Datos inválidos")),
                    EjemploDoble.bd)) by reflexivity.
  rewrite Hrun in H.
  assert (Hno : (Resuelve
                   (Doble.mkRespuesta 400
                      (Doble.JErrorDetalles "Datos inválidos")),
                 EjemploDoble.bd)
                <> (Resuelve
                      (Doble.mkRespuesta 400
                         (Doble.JErrorMontoMaximo
                            "El monto excede el objetivo de la meta"
                            (Numero.resta
                               (Doble.Meta.montoObjetivo
                                  EjemploDoble.metaPorLlenar)
                               (Doble.Meta.montoActual
                                  EjemploDoble.metaPorLlenar)))),
                    EjemploDoble.bd)) by discriminate.
  apply Hno, H; try reflexivity; exact I.
Qed.

Lemma aporte_excedido_rechazado_witness :
  Doble.agregarDinero isLengthUnidades EjemploDoble.isFloatNinguna
    EjemploDoble.aCadenaVacia EjemploDoble.aNumeroNaN sinFallos 9 5
    (Doble.mkCuerpoAporte (Doble.VNumero (Numero.deZ 20)) None)
    EjemploDoble.bd
  = (Resuelve
       (Doble.mkRespuesta 400
          (Doble.JErrorMontoMaximo "El monto excede el objetivo de la meta"
             (Numero.deZ 10))),
     EjemploDoble.bd).
Proof.
  apply (aporte_excedido_rechazado isLengthUnidades
           EjemploDoble.isFloatNinguna EjemploDoble.aCadenaVacia
           EjemploDoble.aNumeroNaN sinFallos 9%nat 5%nat (Numero.deZ 20)
           None EjemploDoble.bd EjemploDoble.metaCasiLlena).
  - split; reflexivity.
  - exact I.
  - reflexivity.
  - reflexivity.
  - reflexivity.
Defined.

(** C5 does not hold for every positive amount: a contribution of 0.005 to a
    goal with target 100 and current amount 90 is positive and fits, and is
    answered 400 by the route's validation; nothing is added to the goal. *)
Lemma aporte_positivo_no_aceptado :
  ~ Doble.AporteAceptado (fun monto => Numero.menor Numero.cero monto = true).
Proof.
  intros H.
  destruct (H isLengthUnidades EjemploDoble.isFloatNinguna
              EjemploDoble.aCadenaVacia EjemploDoble.aNumeroNaN sinFallos
              9%nat 5%nat (Numero.decimal 5 1000) None EjemploDoble.bd
              EjemploDoble.metaCasiLlena)
    as [meta' [t [message [Hrun _]]]];
    try reflexivity; try exact I; try exact ejemploDoble_ids;
    try (simpl; lia).
  assert (Hcodigo : Doble.agregarDinero isLengthUnidades
                      EjemploDoble.isFloatNinguna EjemploDoble.aCadenaVacia
                      EjemploDoble.aNumeroNaN sinFallos 9 5
                      (Doble.mkCuerpoAporte
                         (Doble.VNumero (Numero.decimal 5 1000)) None)
                      EjemploDoble.bd
                    = (Resuelve
                         (Doble.mkRespuesta 400
                            (Doble.JErrorDetalles "Datos inválidos")),
                       EjemploDoble.bd)) by reflexivity.
  rewrite Hcodigo in Hrun. discriminate Hrun.
Qed.

Lemma aporte_aceptado_witness :
  exists meta' transaccion message,
    Doble.agregarDinero isLengthUnidades EjemploDoble.isFloatNinguna
      EjemploDoble.aCadenaVacia EjemploDoble.aNumeroNaN sinFallos 9 5
      (Doble.mkCuerpoAporte (Doble.VNumero (Numero.deZ 10)) None)
      EjemploDoble.bd
    = (Resuelve
         (Doble.mkRespuesta 200
            (Doble.JMetaTransaccion message meta' transaccion)),
       Doble.mkBD (Doble.reemplazar meta' (Doble.metas EjemploDoble.bd))
         [transaccion] [])
    /\ Doble.Meta.montoActual meta' = Numero.deZ 100
    /\ Doble.Meta.estado meta' = completada
    /\ Doble.Transaccion.tipo transaccion = gasto
    /\ Doble.Transaccion.subcategoria transaccion
       = Some (utf16 "ahorro_meta").
Proof.
  destruct (aporte_aceptado isLengthUnidades EjemploDoble.isFloatNinguna
              EjemploDoble.aCadenaVacia EjemploDoble.aNumeroNaN sinFallos
              9%nat 5%nat (Numero.deZ 10) None EjemploDoble.bd
              EjemploDoble.metaCasiLlena)
    as [meta' [t [message
         [Hrun [_ [_ [_ [Hmonto [Hresto [Hest [_ [Ht [Hs _]]]]]]]]]]]]];
    try reflexivity; try exact I; try exact ejemploDoble_ids;
    try (split; reflexivity); try (simpl; lia).
  exists meta', t, message.
  split; [exact Hrun|]. split; [rewrite Hmonto; reflexivity|].
  split; [|split; assumption].
  apply Hest. rewrite Hmonto.
  apply (f_equal Doble.Meta.montoObjetivo) in Hresto.
  destruct meta'; simpl in *. rewrite Hresto. reflexivity.
Defined.

(** The manual contribution with a description of 200 code units: the goal is
    written, completed, but the transaction that records the contribution does
    not pass the schema's limit of 200 code units, none is created and the
    answer is 500. *)
Lemma agregarDinero_descripcion_larga :
  let r := Doble.agregarDinero isLengthUnidades EjemploDoble.isFloatNinguna
             EjemploDoble.aCadenaVacia EjemploDoble.aNumeroNaN sinFallos 9 5
             (Doble.mkCuerpoAporte (Doble.VNumero (Numero.deZ 10))
                (Some Ejemplo.descripcionLarga)) EjemploDoble.bd in
  fst r
  = Resuelve
      (Doble.mkRespuesta 500
         (Doble.JError "Error interno del servidor al agregar dinero"))
  /\ Doble.buscarMeta 5 (Doble.metas (snd r))
     = Some (Doble.Meta.mk 5 9 (utf16 "Casa") (Numero.deZ 100)
               (Numero.deZ 100) (Some 20%Z) alta completada)
  /\ Doble.transacciones (snd r) = []
  /\ Doble.consola (snd r)
     = [("Error agregando dinero a meta:"%string, ValidationError)].
Proof. repeat split. Qed.

(** The manual contribution with a string for [monto]: ['100'] passes the
    validator as it is, [0.5 + '100'] is the string ['0.5100'], whose number
    0.51 is not more than the target 100, so the contribution is not
    rejected; the goal is saved with 0.51 for its current amount, and a
    transaction of 100 records the contribution. *)
Lemma agregarDinero_monto_cadena :
  let r := Doble.agregarDinero isLengthUnidades EjemploDoble.isFloatCien
             EjemploDoble.aCadenaMedio EjemploDoble.aNumeroTabla sinFallos
             13 11
             (Doble.mkCuerpoAporte (Doble.VCadena (utf16 "100")) None)
             EjemploDoble.bdMedio in
  exists message meta' t,
    fst r
    = Resuelve
        (Doble.mkRespuesta 200 (Doble.JMetaTransaccion message meta' t))
    /\ Doble.buscarMeta 11 (Doble.metas (snd r)) = Some meta'
    /\ Doble.Meta.montoActual meta' = Numero.decimal 51 100
    /\ Doble.Meta.estado meta' = activa
    /\ Doble.transacciones (snd r) = [t]
    /\ Doble.Transaccion.monto t = Numero.deZ 100.
Proof.
  do 3 eexists. split; [vm_compute; reflexivity|]. repeat split.
Qed.

Lemma aporte_tras_completar_witness :
  let bd1 :=
    snd (Doble.agregarDinero isLengthUnidades EjemploDoble.isFloatNinguna
           EjemploDoble.aCadenaVacia EjemploDoble.aNumeroNaN sinFallos 9 5
           (Doble.mkCuerpoAporte (Doble.VNumero (Numero.deZ 10)) None)
           EjemploDoble.bd) in
  Doble.agregarDinero isLengthUnidades EjemploDoble.isFloatNinguna
    EjemploDoble.aCadenaVacia EjemploDoble.aNumeroNaN sinFallos 9 5
    (Doble.mkCuerpoAporte (Doble.VNumero (Numero.deZ 1)) None) bd1
  = (Resuelve
       (Doble.mkRespuesta 404 (Doble.JError "Meta activa no encontrada")),
     bd1).
Proof.
  apply (aporte_tras_completar isLengthUnidades EjemploDoble.isFloatNinguna
           EjemploDoble.aCadenaVacia EjemploDoble.aNumeroNaN sinFallos 9 5
           (Numero.deZ 10) None
           (Doble.mkCuerpoAporte (Doble.VNumero (Numero.deZ 1)) None)
           (Doble.mkCuerpoAporte (Doble.VNumero (Numero.deZ 1)) None)
           EjemploDoble.bd EjemploDoble.metaCasiLlena);
    try reflexivity; try exact I; try exact ejemploDoble_ids;
    try (split; reflexivity); try (simpl; lia).
Defined.
